(** * RAG-reader: citation formatting, relevance filtering, response
      formatting, section headers, retriever and index construction.

    A shallow embedding of the pure parts of [src/citation.py],
    [src/utils.py], [src/doc_loader.py], [src/retrieval_chain.py],
    [src/vector_db.py], [src/routes.py], [src/prompt.py] and
    [src/config.py], followed by the properties of the specification
    that concern them and by further properties of the code.

    Conventions of the embedding:
    - a Python [str] is a [string] whose characters are the code points
      below 256; the character classes below are Python's on that range;
    - a Python exception is a value of [exn], and a function that can raise
      returns a [result];
    - a Python [float] is held as the exact rational ([Q]) that it
      denotes: every finite float is one and float comparison is exact.
      The only arithmetic on floats in the modelled code is one true
      division of two ints, which gives the float nearest to the exact
      quotient ([PyFloat.int_truediv]);
    - a metadata [dict] is a [gmap string pyval], a Python [set] a [gset]. *)

From Stdlib Require Import ZArith QArith Qabs Ascii String List Lia Lqa
  DecimalString.
From stdpp Require Import base gmap strings list.

(** ** Python values and primitives *)

Module Py.

Inductive exn : Type :=
| AttributeError
| TypeError
| ValueError (msg : string).

Inductive result (A : Type) : Type :=
| Ok (a : A)
| Raise (e : exn).
Arguments Ok {A} a.
Arguments Raise {A} e.

#[global] Instance result_ret : MRet result := fun A a => Ok a.

#[global] Instance result_bind : MBind result := fun A B k r =>
  match r with
  | Ok a => k a
  | Raise e => Raise e
  end.

(** Metadata values: the specification's [string | number]. *)
Inductive pyval : Type :=
| PStr (s : string)
| PInt (z : Z)
| PFloat (q : Q).

(** [bool(v)] *)
Definition truthy (v : pyval) : bool :=
  match v with
  | PStr s => negb (String.eqb s "")
  | PInt z => negb (z =? 0)%Z
  | PFloat q => negb (Qeq_bool q 0)
  end.

(** *** Character classes on code points below 256 *)

Definition code (c : ascii) : N := N_of_ascii c.

Definition between (lo hi n : N) : bool := ((lo <=? n) && (n <=? hi))%N.

(** [c.isspace()] *)
Definition isspace (c : ascii) : bool :=
  let n := code c in
  between 9 13 n || between 28 32 n || (n =? 133)%N || (n =? 160)%N.

(** [c.isupper()] *)
Definition isupper_char (c : ascii) : bool :=
  let n := code c in
  between 65 90 n || between 192 214 n || between 216 222 n.

(** [c.islower()] *)
Definition islower_char (c : ascii) : bool :=
  let n := code c in
  between 97 122 n || (n =? 170)%N || (n =? 181)%N || (n =? 186)%N
  || between 223 246 n || between 248 255 n.

(** [c.lower()] *)
Definition lower_char (c : ascii) : ascii :=
  if isupper_char c then ascii_of_N (code c + 32) else c.

(** the class [\d] of [re] *)
Definition isdigit (c : ascii) : bool := between 48 57 (code c).

(** the class [\w] of [re] *)
Definition isword (c : ascii) : bool :=
  let n := code c in
  between 48 57 n || between 65 90 n || (n =? 95)%N || between 97 122 n
  || (n =? 170)%N || between 178 179 n || (n =? 181)%N || between 185 186 n
  || between 188 190 n || between 192 214 n || between 216 246 n
  || between 248 255 n.

(** *** String methods *)

(** [s.lower()] *)
Fixpoint lower (s : string) : string :=
  match s with
  | EmptyString => EmptyString
  | String c s' => String (lower_char c) (lower s')
  end.

Fixpoint any_char (p : ascii -> bool) (s : string) : bool :=
  match s with
  | EmptyString => false
  | String c s' => p c || any_char p s'
  end.

(** [s.isupper()]: no lower-case character and at least one upper-case. *)
Definition isupper (s : string) : bool :=
  negb (any_char islower_char s) && any_char isupper_char s.

Fixpoint lstrip (s : string) : string :=
  match s with
  | EmptyString => EmptyString
  | String c s' => if isspace c then lstrip s' else s
  end.

Fixpoint rstrip (s : string) : string :=
  match s with
  | EmptyString => EmptyString
  | String c s' =>
      match rstrip s' with
      | EmptyString => if isspace c then EmptyString else String c EmptyString
      | r => String c r
      end
  end.

(** [s.strip()] *)
Definition strip (s : string) : string := rstrip (lstrip s).

(** [s.split(sep)] for a separator of one character. *)
Fixpoint split_on (sep : ascii) (s : string) : list string :=
  match s with
  | EmptyString => [EmptyString]
  | String c s' =>
      if Ascii.eqb c sep then EmptyString :: split_on sep s'
      else match split_on sep s' with
           | w :: ws => String c w :: ws
           | [] => [String c EmptyString]
           end
  end.

(** [s.split()]: the maximal runs of non-whitespace characters. *)
Fixpoint split (s : string) : list string :=
  match s with
  | EmptyString => []
  | String c s' =>
      if isspace c then split s'
      else match s' with
           | EmptyString => [String c EmptyString]
           | String c' _ =>
               if isspace c' then String c EmptyString :: split s'
               else match split s' with
                    | w :: ws => String c w :: ws
                    | [] => [String c EmptyString]
                    end
           end
  end.

(** [s in l] for a list of strings. *)
Definition mem (s : string) (l : list string) : bool :=
  existsb (String.eqb s) l.

(** [sep.join(l)] *)
Definition join (sep : string) (l : list string) : string :=
  String.concat sep l.

(** [sub in s] *)
Fixpoint contains (sub s : string) : bool :=
  String.prefix sub s
  || match s with
     | EmptyString => false
     | String _ s' => contains sub s'
     end.

(** [s.endswith(suf)] *)
Fixpoint endswith (suf s : string) : bool :=
  String.eqb suf s
  || match s with
     | EmptyString => false
     | String _ s' => endswith suf s'
     end.

Fixpoint take (n : nat) (s : string) : string :=
  match n, s with
  | S n', String c s' => String c (take n' s')
  | _, _ => EmptyString
  end.

(** The stop index of a slice [x[:n]] over a sequence of length [len]. *)
Definition slice_stop (len : nat) (n : Z) : nat :=
  if (0 <=? n)%Z then Z.to_nat n else Z.to_nat (Z.of_nat len + n).

(** [s[:n]] *)
Definition slice_to (s : string) (n : Z) : string :=
  take (slice_stop (String.length s) n) s.

(** [l[:n]] *)
Definition list_slice_to {A : Type} (l : list A) (n : Z) : list A :=
  firstn (slice_stop (List.length l) n) l.

(** [s.rfind(c)] for a single character: the highest index, or -1. *)
Fixpoint rfind (c : ascii) (s : string) : Z :=
  match s with
  | EmptyString => (-1)%Z
  | String a s' =>
      let r := rfind c s' in
      if (0 <=? r)%Z then (r + 1)%Z
      else if Ascii.eqb a c then 0%Z else (-1)%Z
  end.

(** [str(z)] for an [int]. *)
Definition str_of_int (z : Z) : string := NilZero.string_of_int (Z.to_int z).

(** *** The pattern [\b(19|20)\d{2}\b] *)

Definition isword_opt (o : option ascii) : bool :=
  match o with
  | Some c => isword c
  | None => false
  end.

(** [\b] between the characters [prev] and [next] (absent at either end). *)
Definition word_boundary (prev next : option ascii) : bool :=
  xorb (isword_opt prev) (isword_opt next).

Definition head_char (s : string) : option ascii :=
  match s with
  | EmptyString => None
  | String c _ => Some c
  end.

(** An attempt to match the pattern at the start of [s], the character
    before it being [prev]. *)
Definition year_at (prev : option ascii) (s : string) : option string :=
  match s with
  | String a (String b (String c (String d rest))) =>
      if word_boundary prev (Some a)
         && ((Ascii.eqb a "1" && Ascii.eqb b "9")
             || (Ascii.eqb a "2" && Ascii.eqb b "0"))
         && isdigit c && isdigit d
         && word_boundary (Some d) (head_char rest)
      then Some (String a (String b (String c (String d EmptyString))))
      else None
  | _ => None
  end.

Fixpoint search_from (prev : option ascii) (s : string) : option string :=
  match year_at prev s with
  | Some y => Some y
  | None =>
      match s with
      | EmptyString => None
      | String c s' => search_from (Some c) s'
      end
  end.

(** [re.search(r"\b(19|20)\d{2}\b", s)], as the matched text. *)
Definition re_search_year (s : string) : option string := search_from None s.

End Py.

Import Py.

(** ** Python floats: the quotient of two ints *)

Module PyFloat.

(** A float is a binary64 number: an integer of at most 53 bits times a
    power of two between [2^-1074] and [2^971], so a multiple of the unit
    [2^-1074]. *)
Definition unit_den : positive := Z.to_pos (2 ^ 1074).

(** [n / d] rounded to an integer, a tie going to the even neighbour. *)
Definition round_half_even (n d : Z) : Z :=
  let q := (n / d)%Z in
  let r := (n mod d)%Z in
  if (2 * r <? d)%Z then q
  else if (d <? 2 * r)%Z then (q + 1)%Z
  else if Z.even q then q else (q + 1)%Z.

(** The float that [a / b] is rounded to, in units of [2^-1074]: the
    quotient is cut to 53 significant bits (to a multiple of the unit when
    it is below [2^-1022]) and rounded to nearest, ties to even. *)
Definition nearest_units (a b : Z) : Z :=
  let n := (a * 2 ^ 1074)%Z in
  let e := Z.max (Z.log2 (n / b) - 52) 0 in
  (round_half_even n (b * 2 ^ e) * 2 ^ e)%Z.

(** [a / b] for two ints with [0 <= a <= b] and [0 < b]. *)
Definition int_truediv (a b : Z) : Q := nearest_units a b # unit_den.

End PyFloat.


(** ** [src/citation.py]: [GenericCitationFormatter] *)

Module Citation.

Section Formatter.

(** [str(x)] of a [float] [x], which the embedding does not compute. *)
Variable float_str : Q -> string.

(** [str(v)], also what an f-string field [{v}] produces. *)
Definition str (v : pyval) : string :=
  match v with
  | PStr s => s
  | PInt z => str_of_int z
  | PFloat q => float_str q
  end.

(** [metadata.get(key, default)] *)
Definition get (metadata : gmap string pyval) (key : string) (dflt : pyval)
  : pyval :=
  default dflt (metadata !! key).

(** The receiver of a [str] method ([lower], [split]): a value of another
    type has no such attribute. *)
Definition str_method (v : pyval) : result string :=
  match v with
  | PStr s => Ok s
  | _ => Raise AttributeError
  end.

Definition year_fields : list string :=
  ["year"; "publication_date"; "date"; "publish_date"].

Fixpoint extract_year_loop (metadata : gmap string pyval)
  (fields : list string) : string :=
  match fields with
  | [] => ""
  | field :: rest =>
      match metadata !! field with
      | Some v =>
          match re_search_year (str v) with
          | Some y => y
          | None => extract_year_loop metadata rest
          end
      | None => extract_year_loop metadata rest
      end
  end.

Definition _extract_year (metadata : gmap string pyval) : string :=
  extract_year_loop metadata year_fields.

Definition _shorten_title (title : pyval) (max_words : Z) : result string :=
  t ← str_method title;
  let words := split t in
  if (max_words <? Z.of_nat (List.length words))%Z
  then mret (join " " (list_slice_to words max_words) +:+ "...")
  else mret t.

(** [len(url)] raises [TypeError] on a number. *)
Definition _shorten_url (url : pyval) (max_length : Z) : result string :=
  match url with
  | PStr u =>
      if (max_length <? Z.of_nat (String.length u))%Z
      then Ok (slice_to u max_length +:+ "...")
      else Ok u
  | _ => Raise TypeError
  end.

Definition nonempty (s : string) : bool := negb (String.eqb s "").

Definition _format_guideline_citation (metadata : gmap string pyval)
  : result string :=
  let organization := get metadata "organization" (PStr "Official Source") in
  let year := _extract_year metadata in
  let title := get metadata "title" (PStr "") in
  let version := get metadata "version" (PStr "") in
  let report_number := get metadata "report_number" (PStr "") in
  let citation := "[" +:+ str organization in
  citation ←
    (if truthy title
     then short_title ← _shorten_title title 5;
          mret (citation +:+ " " +:+ short_title)
     else mret citation);
  let citation :=
    if truthy report_number then citation +:+ " " +:+ str report_number
    else citation in
  let citation :=
    if truthy version then citation +:+ " v" +:+ str version
    else citation in
  let citation :=
    if nonempty year then citation +:+ " " +:+ year else citation in
  mret (citation +:+ "]").

Definition _format_research_citation (metadata : gmap string pyval)
  : result string :=
  let authors := get metadata "authors" (PStr "") in
  let journal := get metadata "journal" (PStr "") in
  let year := _extract_year metadata in
  let title := get metadata "title" (PStr "") in
  let doi := get metadata "doi" (PStr "") in
  let url := get metadata "url" (PStr "") in
  author_list ←
    (if truthy authors
     then a ← str_method authors; mret (split_on "," a)
     else mret []);
  let authors_str :=
    match author_list with
    | first :: _ =>
        if (2 <? List.length author_list)%nat then first +:+ " et al."
        else join " & " author_list
    | [] => "Anonymous"
    end in
  let citation := "[" +:+ authors_str in
  citation ←
    (if truthy title
     then short_title ← _shorten_title title 6;
          mret (citation +:+ " '" +:+ short_title +:+ "'")
     else mret citation);
  let citation :=
    if truthy journal then citation +:+ ", " +:+ str journal
    else citation in
  let citation :=
    if nonempty year then citation +:+ " " +:+ year else citation in
  citation ←
    (if truthy doi then mret (citation +:+ " DOI:" +:+ str doi)
     else if truthy url
          then short_url ← _shorten_url url 30;
               mret (citation +:+ " URL:" +:+ short_url)
          else mret citation);
  mret (citation +:+ "]").

Definition _format_educational_citation (metadata : gmap string pyval)
  : result string :=
  let publisher := get metadata "publisher" (PStr "Educational Material") in
  let year := _extract_year metadata in
  let title := get metadata "title" (PStr "") in
  let citation := "[" +:+ str publisher in
  citation ←
    (if truthy title
     then short_title ← _shorten_title title 5;
          mret (citation +:+ " " +:+ short_title)
     else mret citation);
  let citation :=
    if nonempty year then citation +:+ " " +:+ year else citation in
  mret (citation +:+ "]").

Definition _format_web_citation (metadata : gmap string pyval)
  : result string :=
  let site_name := get metadata "site_name" (PStr "Website") in
  let page_title := get metadata "page_title" (PStr "") in
  let url := get metadata "url" (PStr "") in
  let publish_date := _extract_year metadata in
  let access_date := get metadata "access_date" (PStr "") in
  let citation := "[" +:+ str site_name in
  citation ←
    (if truthy page_title
     then short_title ← _shorten_title page_title 5;
          mret (citation +:+ " '" +:+ short_title +:+ "'")
     else mret citation);
  let citation :=
    if nonempty publish_date then citation +:+ " " +:+ publish_date
    else citation in
  citation ←
    (if truthy url
     then short_url ← _shorten_url url 30;
          mret (citation +:+ " URL:" +:+ short_url)
     else mret citation);
  let citation :=
    if truthy access_date
    then citation +:+ " (accessed " +:+ str access_date +:+ ")"
    else citation in
  mret (citation +:+ "]").

Definition _format_default_citation (metadata : gmap string pyval)
  : result string :=
  let source := get metadata "source" (PStr "Source") in
  let title := get metadata "title" (PStr "") in
  let year := _extract_year metadata in
  let citation := "[" +:+ str source in
  citation ←
    (if truthy title
     then short_title ← _shorten_title title 5;
          mret (citation +:+ " " +:+ short_title)
     else mret citation);
  let citation :=
    if nonempty year then citation +:+ " " +:+ year else citation in
  mret (citation +:+ "]").

Definition format_citation (doc_metadata : gmap string pyval)
  : result string :=
  source_type ← str_method (get doc_metadata "source_type" (PStr ""));
  let source_type := lower source_type in
  if String.eqb source_type "official_guideline"
  then _format_guideline_citation doc_metadata
  else if String.eqb source_type "research_article"
  then _format_research_citation doc_metadata
  else if String.eqb source_type "educational_material"
  then _format_educational_citation doc_metadata
  else if String.eqb source_type "web_page"
  then _format_web_citation doc_metadata
  else _format_default_citation doc_metadata.

End Formatter.

End Citation.

(** ** [src/utils.py]: [ChatUtils] *)

Module Utils.

(** [langchain.schema.Document] *)
Record Document : Type := {
  page_content : string;
  metadata : gmap string pyval
}.

(** [v >= x] for a metadata value [v] and a float [x]; comparing a [str]
    with a float raises [TypeError]. *)
Definition ge_float (v : pyval) (x : Q) : result bool :=
  match v with
  | PStr _ => Raise TypeError
  | PInt z => Ok (Qle_bool x (inject_Z z))
  | PFloat q => Ok (Qle_bool x q)
  end.

(** [[doc for doc in docs if doc.metadata.get(score_field, 0) >= min_score]] *)
Fixpoint filter_scored (score_field : string) (min_score : Q)
  (docs : list Document) : result (list Document) :=
  match docs with
  | [] => Ok []
  | doc :: rest =>
      keep ← ge_float (default (PInt 0) (metadata doc !! score_field)) min_score;
      kept ← filter_scored score_field min_score rest;
      mret (if keep : bool then doc :: kept else kept)
  end.

(** [set(query.lower().split())] *)
Definition query_terms (query : string) : gset string :=
  list_to_set (split (lower query)).

(** The terms counted by [sum(1 for term in query_terms if term in content)] *)
Definition matched_terms (terms : gset string) (content : string)
  : gset string :=
  filter (fun term => Is_true (contains term content)) terms.

Definition matches (terms : gset string) (content : string) : nat :=
  size (matched_terms terms content).

(** [matches / max(1, len(query_terms))] *)
Definition overlap_ratio (terms : gset string) (content : string) : Q :=
  PyFloat.int_truediv (Z.of_nat (matches terms content))
    (Z.of_nat (Nat.max 1 (size terms))).

Definition lexical_keep (query : string) (min_score : Q) (doc : Document)
  : bool :=
  Qle_bool min_score
    (overlap_ratio (query_terms query) (lower (page_content doc))).

Definition filter_documents_by_relevance (docs : list Document)
  (query : string) (min_score : Q) (score_field : string)
  : result (list Document) :=
  match docs with
  | [] => Ok []
  | first :: _ =>
      match metadata first !! score_field with
      | Some _ => filter_scored score_field min_score docs
      | None => Ok (List.filter (lexical_keep query min_score) docs)
      end
  end.

(** [any(term in s for term in terms)] *)
Definition any_in (terms : list string) (s : string) : bool :=
  existsb (fun term => contains term s) terms.

Definition general_disclaimer : string :=
  "**General Disclaimer**: This information is for educational purposes only. "
  +:+ "Always consult qualified professionals when needed.".

Definition generate_disclaimer (query domain : string) : string :=
  let query_lower := lower query in
  let domain := lower domain in
  if mem domain ["medical"; "health"] then
    if any_in ["diagnos"; "symptom"; "signs of"] query_lower then
      "**Disclaimer**: This information is not a substitute for professional advice. "
      +:+ "Consult a qualified provider for personal guidance."
    else if any_in ["treat"; "medication"; "therapy"] query_lower then
      "**Notice**: Discuss all options with a professional. "
      +:+ "Individual responses may vary."
    else general_disclaimer
  else if mem domain ["legal"; "law"] then
    "**Legal Notice**: This does not constitute legal advice. "
    +:+ "Consult an attorney for your specific situation."
  else if mem domain ["financial"; "investment"] then
    "**Financial Disclaimer**: This is not financial advice. "
    +:+ "Consult a qualified financial advisor before making decisions."
  else general_disclaimer.

(** The line feed character. *)
Definition LF : ascii := ascii_of_nat 10.

Definition truncation_note : string := " [response truncated]".

(** The second half of [format_response]: the length limit. *)
Definition truncate (response : string) (max_length : Z) : string :=
  if (max_length <? Z.of_nat (String.length response))%Z then
    let last_period := rfind "." (slice_to response max_length) in
    let response :=
      if (0 <? last_period)%Z then slice_to response (last_period + 1)
      else response in
    response +:+ truncation_note
  else response.

Definition format_response (response : string) (max_length : Z)
  (include_disclaimer : bool) (domain : string) : string :=
  let response :=
    if include_disclaimer && negb (contains "disclaimer" (lower response))
    then response +:+ String LF (String LF EmptyString)
                  +:+ generate_disclaimer response domain
    else response in
  truncate response max_length.

End Utils.

(** ** [src/doc_loader.py]: [DocumentLoader._extract_section_header] *)

Module DocLoader.

Definition header_keywords : list string := ["section"; "chapter"; "heading"].

(** The test of the loop body, on a stripped line. *)
Definition is_header (line : string) : bool :=
  isupper line
  || endswith ":" line
  || existsb (fun word => contains word (lower line)) header_keywords.

Fixpoint header_loop (lines : list string) : string :=
  match lines with
  | [] => ""
  | l :: rest =>
      let line := strip l in
      if is_header line then line else header_loop rest
  end.

Definition _extract_section_header (text : string) : string :=
  header_loop (list_slice_to (split_on Utils.LF text) 3).

End DocLoader.

(** ** [src/retrieval_chain.py]: [RetrievalChain.get_retriever] *)

Module RetrievalChain.

(** The values stored in [search_kwargs]: a number or a text, or the
    dictionary of the filter. *)
Inductive kwarg : Type :=
| KVal (v : pyval)
| KDict (d : gmap string pyval).

Definition valid_search_types : list string :=
  ["similarity"; "mmr"; "similarity_score_threshold"].

Section GetRetriever.

(** The vector store and its [as_retriever] method belong to the vector
    store library; the method validates its arguments and may raise. *)
Variables VectorStore Retriever : Type.
Variable as_retriever :
  VectorStore -> string -> gmap string kwarg -> result Retriever.

(** [score_threshold] is whatever the caller supplies, [None] apart: the
    code does not look at its type. *)
Definition get_retriever (vectorstore : VectorStore) (k : Z)
  (search_type : string) (score_threshold : option pyval)
  (filter_criteria : option (gmap string pyval)) (fetch_k : option Z)
  : result Retriever :=
  if negb (mem search_type valid_search_types) then
    Raise (ValueError
      "Invalid search_type. Must be one of: ['similarity', 'mmr', 'similarity_score_threshold']")
  else if String.eqb search_type "similarity_score_threshold"
          && negb (bool_decide (is_Some score_threshold)) then
    Raise (ValueError
      "score_threshold is required for similarity_score_threshold")
  else
    let search_kwargs : gmap string kwarg := {[ "k" := KVal (PInt k) ]} in
    let search_kwargs :=
      match score_threshold with
      | Some t => <["score_threshold" := KVal t]> search_kwargs
      | None => search_kwargs
      end in
    let search_kwargs :=
      match filter_criteria with
      | Some f =>
          if (0 <? size f)%nat then <["filter" := KDict f]> search_kwargs
          else search_kwargs
      | None => search_kwargs
      end in
    let search_kwargs :=
      match fetch_k with
      | Some n =>
          if String.eqb search_type "mmr"
          then <["fetch_k" := KVal (PInt n)]> search_kwargs
          else search_kwargs
      | None => search_kwargs
      end in
    as_retriever vectorstore search_type search_kwargs.

End GetRetriever.

End RetrievalChain.

(** ** [src/vector_db.py]: [VectorDB] *)

Module VectorDB.

Section Store.

(** The FAISS store and the embedding model belong to libraries:
    [from_documents] is [FAISS.from_documents] and [doc_count vs] is
    [len(vs.docstore._dict)]. *)
Variables FAISS Embeddings : Type.
Variable from_documents : list Utils.Document -> Embeddings -> FAISS.
Variable doc_count : FAISS -> nat.

Record VectorDB : Type := {
  embedding_model_name : string;
  embedding_model : Embeddings;
  index_name : string;
  metadata_file : string
}.

(** The pickled metadata record. *)
Record SavedMetadata : Type := {
  saved_embedding_model : string;
  saved_document_count : nat;
  saved_index_name : string
}.

Inductive file : Type :=
| IndexFile (vs : FAISS)
| MetadataFile (m : SavedMetadata).

(** The file system: directory path to file name to contents.  The file
    operations are taken to succeed. *)
Definition disk : Type := gmap string (gmap string file).

(** Effectful code threads the disk and may raise. *)
Definition io (A : Type) : Type := disk -> result A * disk.

Definition save_vectorstore (self : VectorDB) (vectorstore : FAISS)
  (save_dir : string) : io unit :=
  fun d =>
    let dir : gmap string file := default ∅ (d !! save_dir) in
    let dir := <[index_name self := IndexFile vectorstore]> dir in
    let meta := {|
      saved_embedding_model := embedding_model_name self;
      saved_document_count := doc_count vectorstore;
      saved_index_name := index_name self |} in
    let dir := <[metadata_file self := MetadataFile meta]> dir in
    (Ok tt, <[save_dir := dir]> d).

Definition create_from_documents (self : VectorDB)
  (documents : list Utils.Document) (save_dir : option string) : io FAISS :=
  fun d =>
    match documents with
    | [] => (Raise (ValueError "No documents provided for vectorstore creation"), d)
    | _ :: _ =>
        let vectorstore := from_documents documents (embedding_model self) in
        match save_dir with
        | Some dir =>
            if Citation.nonempty dir then
              match save_vectorstore self vectorstore dir d with
              | (Ok _, d') => (Ok vectorstore, d')
              | (Raise e, d') => (Raise e, d')
              end
            else (Ok vectorstore, d)
        | None => (Ok vectorstore, d)
        end
    end.

End Store.

End VectorDB.

(** ** Notions used to state the properties *)

Module CitationSpec.

Import Citation.

(** The fields on which the formatter calls a [str] method or [len]. *)
Definition text_fields : list string :=
  ["source_type"; "title"; "authors"; "page_title"; "url"].

Definition holds_str (metadata : gmap string pyval) (key : string) : Prop :=
  forall v, metadata !! key = Some v -> exists s, v = PStr s.

Definition text_fields_are_str (metadata : gmap string pyval) : Prop :=
  Forall (holds_str metadata) text_fields.

(** The number a decimal numeral denotes. *)
Definition year_number (y : string) : option Z :=
  Z.of_int <$> NilZero.int_of_string y.

(** A four-digit year between 1900 and 2099. *)
Definition is_year (y : string) : Prop :=
  String.length y = 4%nat /\
  exists n, year_number y = Some n /\ (1900 <= n <= 2099)%Z.

(** The value of the first date-bearing field that is present. *)
Definition first_present (metadata : gmap string pyval) : option pyval :=
  head (omap (fun field => metadata !! field) year_fields).

(** The scenario of the specification. *)
Definition research_example : gmap string pyval :=
  list_to_map
    [("source_type", PStr "research_article");
     ("authors", PStr "Smith, J, Doe, A, Lee, C");
     ("title", PStr "Long Title Exceeding Five Words For Sure");
     ("journal", PStr "J. Med");
     ("year", PStr "2021");
     ("doi", PStr "10.1/x")].

(** A record whose title is a number. *)
Definition numeric_title_example : gmap string pyval :=
  {[ "title" := PInt 7 ]}.

(** A record whose [year] holds no year and whose [date] does. *)
Definition fallthrough_example : gmap string pyval :=
  list_to_map [("year", PStr "n/a"); ("date", PStr "2018-12-31")].

Definition no_float : Q -> string := fun _ => "".

(** [s] begins with [p]. *)
Definition opens_with (p s : string) : Prop := exists r, s = p +:+ r.

Definition known_source_types : list string :=
  ["official_guideline"; "research_article"; "educational_material";
   "web_page"].

(** The key on which [format_citation] dispatches. *)
Definition source_type_of (metadata : gmap string pyval) : string :=
  match get metadata "source_type" (PStr "") with
  | PStr s => lower s
  | _ => ""
  end.

Definition digit_chars : list ascii :=
  ["0"; "1"; "2"; "3"; "4"; "5"; "6"; "7"; "8"; "9"]%char.

End CitationSpec.

(** The pattern of a year, in words. *)

Module YearSpec.

Import CitationSpec.

(** A year as the pattern has it: 19 or 20 and two more digits. *)
Definition year_token (y : string) : Prop :=
  exists c d, In c digit_chars /\ In d digit_chars
    /\ (y = String "1" (String "9" (String c (String d "")))
        \/ y = String "2" (String "0" (String c (String d "")))).

(** A word of its own between [pre] and [post]: no letter, digit or
    underscore stands right before it or right after it. *)
Definition stands_alone (pre post : string) : Prop :=
  (forall pre' c, pre = pre' +:+ String c "" -> isword c = false)
  /\ (forall c post', post = String c post' -> isword c = false).

(** [y] is a year that occurs in [s] after [pre] and before [post]. *)
Definition year_occurrence (s pre y post : string) : Prop :=
  s = pre +:+ y +:+ post /\ year_token y /\ stands_alone pre post.

(** The leftmost year of [s]. *)
Definition leftmost_year (s y : string) : Prop :=
  exists pre post,
    year_occurrence s pre y post
    /\ forall pre' y' post',
         year_occurrence s pre' y' post' ->
         (String.length pre <= String.length pre')%nat.

Definition no_year (s : string) : Prop :=
  forall pre y post, ~ year_occurrence s pre y post.

(** A record dated in words, with another year in a later field. *)
Definition press_example : gmap string pyval :=
  list_to_map [("publication_date", PStr "Published Jan 15, 2019");
               ("publish_date", PStr "1999")].

(** The character before the position that follows [pre], [prev] being
    the character before [pre]. *)
Fixpoint last_of (prev : option ascii) (pre : string) : option ascii :=
  match pre with
  | EmptyString => prev
  | String c pre' => last_of (Some c) pre'
  end.

(** An occurrence in a text that follows the character [prev]. *)
Definition occurrence_after (prev : option ascii) (s pre y post : string)
  : Prop :=
  s = pre +:+ y +:+ post /\ year_token y
  /\ isword_opt (last_of prev pre) = false
  /\ (forall c post', post = String c post' -> isword c = false).

End YearSpec.

(** What it means to round to a float. *)

Module FloatSpec.

(** [2^e] *)
Definition pow2 (e : Z) : Q :=
  if (0 <=? e)%Z then inject_Z (2 ^ e) else 1 # Z.to_pos (2 ^ (- e)).

(** The finite binary64 numbers. *)
Definition binary64 (x : Q) : Prop :=
  exists m e : Z,
    (Z.abs m < 2 ^ 53)%Z /\ (-1074 <= e <= 971)%Z
    /\ (x == inject_Z m * pow2 e)%Q.

(** A float whose significand, in normal form, is even. *)
Definition even_binary64 (x : Q) : Prop :=
  exists m e : Z,
    Z.even m = true /\ (-1074 <= e <= 971)%Z
    /\ (2 ^ 52 <= Z.abs m < 2 ^ 53 \/ e = (-1074)%Z /\ Z.abs m < 2 ^ 52)%Z
    /\ (x == inject_Z m * pow2 e)%Q.

(** [x] is the float that the exact value [q] rounds to: no float is
    nearer to [q], and of two nearest floats [x] is the even one. *)
Definition rounds_to (q x : Q) : Prop :=
  binary64 x
  /\ (forall y, binary64 y -> (Qabs (x - q) <= Qabs (y - q))%Q)
  /\ (forall y, binary64 y -> ~ (y == x)%Q ->
      (Qabs (y - q) == Qabs (x - q))%Q -> even_binary64 x).

(** The floats as multiples of the unit [2^-1074]. *)
Definition unit_multiple (k : Z) : Prop :=
  exists m e : Z,
    (Z.abs m < 2 ^ 53)%Z /\ (0 <= e <= 2045)%Z /\ k = (m * 2 ^ e)%Z.

(** The float written [0.2]. *)
Definition float_0_2 : Q := 3602879701896397 # 18014398509481984.

End FloatSpec.

Module UtilsSpec.

Import Utils.

(** The answer contains the word "disclaimer" in some letter case. *)
Definition mentions_disclaimer (response : string) : Prop :=
  exists pre mid post,
    response = pre +:+ mid +:+ post /\ lower mid = "disclaimer".

(** The two line feeds and the disclaimer that [format_response] appends. *)
Definition with_disclaimer (response domain : string) : string :=
  response +:+ String LF (String LF EmptyString)
           +:+ generate_disclaimer response domain.

(** The relevance score that the score-based filter reads off a document:
    the number under [score_field], 0 when the field is absent. *)
Definition score_of (score_field : string) (doc : Document) : option Q :=
  match default (PInt 0) (metadata doc !! score_field) with
  | PInt z => Some (inject_Z z)
  | PFloat q => Some q
  | PStr _ => None
  end.

(** No document declares a string as its score. *)
Definition numeric_scores (score_field : string) (docs : list Document)
  : Prop :=
  Forall (fun doc => exists x, score_of score_field doc = Some x) docs.

Fixpoint drop (n : nat) (s : string) : string :=
  match n, s with
  | S n', String _ s' => drop n' s'
  | _, _ => s
  end.

(** Modelled on the specification's words "whole-word match": [term]
    occurs in [s] with no word character next to it on either side. *)
Fixpoint whole_word_from (prev : option ascii) (term s : string) : bool :=
  (String.prefix term s
   && negb (isword_opt prev)
   && negb (isword_opt (head_char (drop (String.length term) s))))
  || match s with
     | EmptyString => false
     | String c s' => whole_word_from (Some c) term s'
     end.

Definition whole_word_ratio (terms : gset string) (content : string) : Q :=
  inject_Z (Z.of_nat
    (size (filter (fun term => Is_true (whole_word_from None term content))
                  terms)))
  / inject_Z (Z.of_nat (Nat.max 1 (size terms))).

(** The lexical filter as the specification words it. *)
Definition whole_word_keep (query : string) (min_score : Q) (doc : Document)
  : bool :=
  Qle_bool min_score
    (whole_word_ratio (query_terms query) (lower (page_content doc))).

Definition party_doc : Document :=
  {| page_content := "A birthday party."; metadata := ∅ |}.

Definition scored_doc : Document :=
  {| page_content := "Minutes of the board.";
     metadata := {[ "score" := PFloat 0.9 ]} |}.

Definition low_scored_doc : Document :=
  {| page_content := "Heart disease symptoms.";
     metadata := {[ "score" := PFloat 0.2 ]} |}.

Definition unscored_doc : Document :=
  {| page_content := "Heart disease symptoms."; metadata := ∅ |}.

(** [term] occurs in [content]. *)
Definition occurs_in (term content : string) : Prop :=
  exists pre post, content = pre +:+ term +:+ post.

(** The exact fraction [present / max(1, terms)]. *)
Definition fraction (present terms : nat) : Q :=
  inject_Z (Z.of_nat present) / inject_Z (Z.of_nat (Nat.max 1 terms)).

End UtilsSpec.

Module RetrievalChainSpec.

Import RetrievalChain.

(** A retriever, as the arguments it was built from. *)
Record retriever : Type := {
  retriever_search_type : string;
  retriever_search_kwargs : gmap string kwarg
}.

(** A stand-in for the library's [as_retriever] that validates as
    LangChain's retriever does: under the threshold strategy the entry
    [score_threshold] of the search arguments must be a [float]. *)
Definition validating_as_retriever (vectorstore : unit)
  (search_type : string) (search_kwargs : gmap string kwarg)
  : result retriever :=
  let built := {| retriever_search_type := search_type;
                  retriever_search_kwargs := search_kwargs |} in
  if String.eqb search_type "similarity_score_threshold" then
    match search_kwargs !! "score_threshold" with
    | Some (KVal (PFloat _)) => Ok built
    | _ => Raise (ValueError
        "`score_threshold` is not specified with a float value(0~1) in `search_kwargs`.")
    end
  else Ok built.

End RetrievalChainSpec.

Module DocLoaderSpec.

Import DocLoader.

(** The lines that the loop examines, stripped. *)
Definition candidate_lines (text : string) : list string :=
  map strip (firstn 3 (split_on Utils.LF text)).

(** A text made of the given lines. *)
Definition text_of_lines (l : list string) : string :=
  join (String Utils.LF EmptyString) l.

Definition char_in (c : ascii) (s : string) : Prop :=
  In c (list_ascii_of_string s).

(** Fully upper-case, as [str.isupper] has it: some character is an
    upper-case letter and none is a lower-case letter. *)
Definition fully_upper (line : string) : Prop :=
  (exists c, char_in c line /\ isupper_char c = true)
  /\ forall c, char_in c line -> islower_char c = false.

(** What it means for a line to qualify, in the words of the
    specification: upper-case, ending with a colon, or containing a
    structural keyword in some letter case. *)
Definition qualifies (line : string) : Prop :=
  fully_upper line
  \/ (exists p, line = p +:+ ":")
  \/ (exists word, In word ["section"; "chapter"; "heading"] /\
       exists pre mid post, line = pre +:+ mid +:+ post /\ lower mid = word).

End DocLoaderSpec.

(** ** [src/citation.py], continued: footnotes *)

Module Footnotes.

Import Citation.

Section Footnotes.

Variable float_str : Q -> string.

(** The loop over [enumerate(sources, start=1)]. *)
Fixpoint footnotes_loop (i : Z) (sources : list (gmap string pyval))
  (footnotes : string) : result string :=
  match sources with
  | [] => Ok footnotes
  | source :: rest =>
      citation ← format_citation float_str source;
      footnotes_loop (i + 1) rest
        (footnotes +:+ str_of_int i +:+ ". " +:+ citation
                   +:+ String Utils.LF EmptyString)
  end.

Definition references_header : string :=
  String Utils.LF (String Utils.LF ("**References:**"
    +:+ String Utils.LF EmptyString)).

Definition generate_source_footnotes (sources : list (gmap string pyval))
  : result string :=
  match sources with
  | [] => Ok ""
  | _ :: _ => footnotes_loop 1 sources references_header
  end.

End Footnotes.

(** One footnote line, [f"{i}. {citation}\n"]. *)
Definition footnote_line (i : Z) (citation : string) : string :=
  str_of_int i +:+ ". " +:+ citation +:+ String Utils.LF EmptyString.

(** [s] occurs in [t]. *)
Definition occurs (s t : string) : Prop :=
  exists pre post, t = pre +:+ s +:+ post.

(** The shape that the pattern of [_extract_year] matches: 19 or 20 and
    two digits. *)
Definition year_shape (y : string) : bool :=
  match y with
  | String a (String b (String c (String d EmptyString))) =>
      ((Ascii.eqb a "1" && Ascii.eqb b "9")
       || (Ascii.eqb a "2" && Ascii.eqb b "0"))
      && isdigit c && isdigit d
  | _ => false
  end.

(** [s] is empty or begins with a character outside [\w]. *)
Definition starts_nonword (s : string) : bool :=
  negb (isword_opt (head_char s)).

Definition all_digits (s : string) : bool :=
  negb (any_char (fun c => negb (isdigit c)) s).

(** A word: non-empty and free of whitespace. *)
Definition is_word (w : string) : Prop :=
  w <> "" /\ any_char isspace w = false.


End Footnotes.

Module CitationSpec2.

(** Two metadata mappings agree on every key but [key]. *)
Definition agree_except (key : string) (m m' : gmap string pyval) : Prop :=
  forall k, k <> key -> m !! k = m' !! k.

(** Every source of the list can be cited. *)
Definition all_citable (float_str : Q -> string)
  (sources : list (gmap string pyval)) : Prop :=
  Forall (fun source =>
            exists c, Citation.format_citation float_str source = Ok c)
         sources.

Definition guideline_example : gmap string pyval :=
  list_to_map
    [("source_type", PStr "official_guideline");
     ("organization", PStr "WHO");
     ("title", PStr "Global Guidelines for the Prevention and Treatment of Cardiovascular Diseases");
     ("version", PStr "2.1");
     ("report_number", PStr "WH-1234");
     ("year", PInt 2022)].

Definition pdf_date_example : gmap string pyval :=
  list_to_map
    [("source", PStr "report.pdf");
     ("publication_date", PStr "D:20240101120000")].

End CitationSpec2.

(** ** [src/utils.py], continued: text cleaning, key terms, metadata *)

Module UtilsText.

(** [re.sub(r'\s+', ' ', text)]: every maximal run of whitespace becomes
    one space. *)
Fixpoint collapse_ws (s : string) : string :=
  match s with
  | EmptyString => EmptyString
  | String c s' =>
      if isspace c then
        match s' with
        | EmptyString => String " " EmptyString
        | String c' _ =>
            if isspace c' then collapse_ws s'
            else String " " (collapse_ws s')
        end
      else String c (collapse_ws s')
  end.

Section CleanText.

(** [re.sub(pattern, replacement, text, flags=re.IGNORECASE)] for a
    pattern supplied by the caller; [None] when [re] rejects the pattern. *)
Variable re_sub_ignorecase : string -> string -> string -> option string.

(** The loop over [custom_replacements.items()]. *)
Fixpoint apply_replacements (items : list (string * string)) (text : string)
  : option string :=
  match items with
  | [] => Some text
  | (pattern, replacement) :: rest =>
      match re_sub_ignorecase pattern replacement text with
      | Some text' => apply_replacements rest text'
      | None => None
      end
  end.

(** [custom_replacements] is [None] or the items of the dictionary, in
    order; an empty dictionary is falsy. *)
Definition clean_text (text : string)
  (custom_replacements : option (list (string * string))) : option string :=
  let text := strip (collapse_ws text) in
  match custom_replacements with
  | Some (item :: items) => apply_replacements (item :: items) text
  | _ => Some text
  end.

End CleanText.






End UtilsText.

Module UtilsSpec2.

(** [s] begins with a whitespace character. *)
Definition leading_space (s : string) : bool :=
  match s with
  | EmptyString => false
  | String c _ => isspace c
  end.

(** A stand-in for the regular-expression engine, for statements in which
    no replacement is made. *)
Definition no_regex : string -> string -> string -> option string :=
  fun _ _ _ => None.

End UtilsSpec2.

Module UtilsSpec3.

Import Utils.

(** The five texts that [generate_disclaimer] can return. *)
Definition disclaimer_texts : list string :=
  [ "**Disclaimer**: This information is not a substitute for professional advice. Consult a qualified provider for personal guidance.";
    "**Notice**: Discuss all options with a professional. Individual responses may vary.";
    "**Legal Notice**: This does not constitute legal advice. Consult an attorney for your specific situation.";
    "**Financial Disclaimer**: This is not financial advice. Consult a qualified financial advisor before making decisions.";
    general_disclaimer ].

(** Some document of the list declares a string as its score. *)
Definition has_text_score (score_field : string) (docs : list Document)
  : Prop :=
  Exists (fun doc => exists s, metadata doc !! score_field = Some (PStr s))
         docs.

Definition text_scored_doc : Document :=
  {| page_content := "Minutes of the board.";
     metadata := {[ "score" := PStr "0.9" ]} |}.

End UtilsSpec3.

Module UtilsMetadata.

Import Citation.

(** A value of the standardized dictionary: a metadata value or [None]. *)
Inductive field_value : Type :=
| FVal (v : pyval)
| FNone.

(** The atoms of the two date patterns. *)
Inductive atom : Type :=
| ADigit
| ADash.

(** [re.match] of [^], the atoms and [$]; the dollar matches at the end
    and before a line feed that ends the text. *)
Fixpoint match_atoms (pat : list atom) (s : string) : bool :=
  match pat with
  | [] =>
      match s with
      | EmptyString => true
      | String c EmptyString => Ascii.eqb c Utils.LF
      | _ => false
      end
  | a :: pat' =>
      match s with
      | EmptyString => false
      | String c s' =>
          match a with
          | ADigit => isdigit c
          | ADash => Ascii.eqb c "-"
          end && match_atoms pat' s'
      end
  end.

(** [^\d{4}$] *)
Definition year_pattern : list atom := [ADigit; ADigit; ADigit; ADigit].

(** [^\d{4}-\d{2}-\d{2}$] *)
Definition iso_pattern : list atom :=
  [ADigit; ADigit; ADigit; ADigit; ADash; ADigit; ADigit; ADash;
   ADigit; ADigit].

Definition default_date_fields : list string :=
  ["date"; "publication_date"; "year"; "created"].

Section ParseMetadata.

Variable float_str : Q -> string.

(** [datetime.strptime(s, '%Y-%m-%d').strftime('%Y-%m-%d')]; [None] when
    [strptime] raises [ValueError]. *)
Variable strptime_ymd : string -> option string.

(** [float(v)] *)
Variable float_of : pyval -> result Q.

Fixpoint _parse_date (metadata : gmap string pyval)
  (date_fields : list string) : option string :=
  match date_fields with
  | [] => None
  | field :: rest =>
      match metadata !! field with
      | Some v =>
          let date_str := str float_str v in
          if match_atoms year_pattern date_str then Some date_str
          else if match_atoms iso_pattern date_str then Some date_str
          else
            match strptime_ymd
                    (match split_on "T" date_str with
                     | first :: _ => first
                     | [] => date_str
                     end) with
            | Some d => Some d
            | None => _parse_date metadata rest
            end
      | None => _parse_date metadata rest
      end
  end.

Definition parse_metadata (metadata : gmap string pyval)
  (date_fields : option (list string))
  : result (gmap string field_value) :=
  let date_fields :=
    match date_fields with
    | None => default_date_fields
    | Some fields => fields
    end in
  let source := get metadata "source" (PStr "Unknown") in
  let source_type := get metadata "source_type" (PStr "document") in
  let date :=
    match _parse_date metadata date_fields with
    | Some d => FVal (PStr d)
    | None => FNone
    end in
  confidence ← float_of (get metadata "confidence" (PFloat 1));
  let standardized : gmap string field_value :=
    <["confidence" := FVal (PFloat confidence)]>
      (<["date" := date]>
         (<["source_type" := FVal source_type]>
            {[ "source" := FVal source ]})) in
  mret ((FVal <$> metadata) ∪ standardized).

End ParseMetadata.

Definition standard_keys : list string :=
  ["source"; "source_type"; "date"; "confidence"].

(** Stand-ins for the library functions, for concrete instances. *)
Definition no_strptime : string -> option string := fun _ => None.

Definition float_of_number (v : pyval) : result Q :=
  match v with
  | PStr _ => Raise (ValueError "could not convert string to float")
  | PInt z => Ok (inject_Z z)
  | PFloat q => Ok q
  end.

Definition dated_example : gmap string pyval :=
  list_to_map [("date", PStr "Spring 2020"); ("year", PStr "2020")].

End UtilsMetadata.

(** ** [src/retrieval_chain.py], continued: prompts and responses *)

Module Responses.

Import Utils.

(** [x or default] for an optional list: [None] and the empty list are
    falsy. *)
Definition list_or {A : Type} (o : option (list A)) (dflt : list A)
  : list A :=
  match o with
  | Some (x :: l) => x :: l
  | _ => dflt
  end.

(** [x or default] for an optional string. *)
Definition str_or (o : option string) (dflt : string) : string :=
  match o with
  | Some (String c s) => String c s
  | _ => dflt
  end.

Definition default_rules : list string :=
  ["Use ONLY the provided context";
   "Respond at an 8th grade reading level";
   "ALWAYS cite sources";
   "Include appropriate disclaimers when needed";
   "Structure responses clearly"].

Definition default_format : list string :=
  ["### Answer"; "[Clear summary answer]"; "";
   "### Evidence"; "[Relevant excerpts from sources]"; "";
   "### Sources"; "[Formatted citations]"].

Definition default_disclaimer : string :=
  "**Disclaimer**: This information is for educational purposes only. "
  +:+ "Consult appropriate professionals for specific advice.".

Definition NL : string := String LF EmptyString.

(** ["1. " + "\n2. ".join(rules_list)] *)
Definition rules_text (rules_list : list string) : string :=
  "1. " +:+ join (NL +:+ "2. ") rules_list.

(** ["\n".join(format_list)] *)
Definition format_text (format_list : list string) : string :=
  join NL format_list.

Definition indent : string := "            ".

(** The f-string handed to [ChatPromptTemplate.from_template]. *)
Definition prompt_template (domain rules format : string) : string :=
  NL +:+ indent +:+ "You are a " +:+ domain
     +:+ " specialist providing accurate information." +:+ NL
  +:+ indent +:+ "Provide evidence-based responses following these rules:"
     +:+ NL +:+ NL
  +:+ indent +:+ rules +:+ NL +:+ NL
  +:+ indent +:+ "Context:" +:+ NL
  +:+ indent +:+ "{context}" +:+ NL +:+ NL
  +:+ indent +:+ "Question: {input}" +:+ NL +:+ NL
  +:+ indent +:+ "Required response format:" +:+ NL
  +:+ indent +:+ format +:+ NL +:+ NL
  +:+ indent +:+ "{disclaimer}" +:+ NL
  +:+ indent.

Section SetupPrompts.

(** [ChatPromptTemplate] and its constructor belong to the prompt
    library. *)
Variable Prompt : Type.
Variable from_template : string -> Prompt.

(** The two attributes that [setup_prompts] assigns. *)
Record prompts : Type := {
  base_prompt : Prompt;
  disclaimer : string
}.

Definition setup_prompts (default_domain : string) (domain : option string)
  (response_rules response_format : option (list string))
  (disclaimer : option string) : prompts :=
  let domain := str_or domain default_domain in
  let rules_list := list_or response_rules default_rules in
  let format_list := list_or response_format default_format in
  {| base_prompt :=
       from_template
         (prompt_template domain (rules_text rules_list)
            (format_text format_list));
     disclaimer := str_or disclaimer default_disclaimer |}.

End SetupPrompts.

(** The dictionary that the chain returns: [answer] and [context], either
    of which may be missing. *)
Record chain_result : Type := {
  answer : option string;
  context : option (list Document)
}.

Record response : Type := {
  response_answer : string;
  sources : list (gmap string pyval);
  context_documents : option (list Document)
}.

Definition default_fields : list string :=
  ["source"; "author"; "year"; "institution"; "title"].

(** [page_content[:n] + ("..." if len(page_content) > n else "")] *)
Definition content_excerpt (page_content : string) (n : Z) : string :=
  slice_to page_content n
  +:+ (if (n <? Z.of_nat (String.length page_content))%Z then "..." else "").

(** The inner loop: [source_info[field] = doc.metadata.get(field, "")]. *)
Definition extract_fields (doc : Document) (fields : list string)
  (source_info : gmap string pyval) : gmap string pyval :=
  foldl (fun (info : gmap string pyval) field =>
           <[field := Citation.get (metadata doc) field (PStr "")]> info)
        source_info fields.

Definition source_info (doc : Document) (fields : list string) (n : Z)
  : gmap string pyval :=
  extract_fields doc fields
    {[ "content_excerpt" := PStr (content_excerpt (page_content doc) n) ]}.

Definition format_response (result : chain_result)
  (metadata_fields : option (list string)) (content_excerpt_length : Z)
  (include_full_context : bool) : response :=
  let fields_to_extract := list_or metadata_fields default_fields in
  let docs := default [] (context result) in
  {| response_answer := default "" (answer result);
     sources :=
       map (fun doc => source_info doc fields_to_extract
                         content_excerpt_length) docs;
     context_documents :=
       if include_full_context then Some docs else None |}.

(** No line feed in the text. *)
Definition one_line (s : string) : Prop :=
  any_char (Ascii.eqb LF) s = false.

Definition pdf_chunk : Document :=
  {| page_content := "Blood pressure is the force of blood on the vessel walls.";
     metadata := list_to_map [("source", PStr "bp.pdf"); ("page", PInt 3)] |}.

End Responses.

(** ** [src/doc_loader.py]: the loaders of [DocumentLoader] *)

Module Loaders.

Import Utils DocLoader.

(** [metadata.update(tags)]: the entries of [tags] replace those of
    [metadata]. *)
Definition update (metadata tags : gmap string pyval) : gmap string pyval :=
  tags ∪ metadata.

(** The record [load_pdf] builds from the metadata [fitz] reports for the
    file. *)
Definition pdf_metadata (doc_metadata : gmap string pyval)
  (file_path : string) : gmap string pyval :=
  <["title" := Citation.get doc_metadata "title" (PStr "")]>
  (<["author" := Citation.get doc_metadata "author" (PStr "")]>
  (<["publication_date" :=
       Citation.get doc_metadata "creationDate" (PStr "")]>
  (<["keywords" := Citation.get doc_metadata "keywords" (PStr "")]>
  (<["source_type" := PStr "pdf"]>
  (<["file_path" := PStr file_path]> ∅))))).

(** The body of the loop of [load_pdf] over the pages. *)
Definition enhance_page (pdf_metadata : gmap string pyval) (page : Document)
  : Document :=
  let metadata := update (metadata page) pdf_metadata in
  let metadata :=
    if bool_decide (is_Some (metadata !! "page"))
    then <["section" := PStr (_extract_section_header (page_content page))]>
           metadata
    else metadata in
  {| page_content := page_content page; metadata := metadata |}.

(** The body of the loops of the Word, text and CSV loaders. *)
Definition tag (source_type file_path : string) (doc : Document) : Document :=
  {| page_content := page_content doc;
     metadata :=
       update (metadata doc)
         (<["source_type" := PStr source_type]>
          (<["file_path" := PStr file_path]> ∅)) |}.

Definition DQ : string := String (ascii_of_nat 34) EmptyString.

(** The schema [load_json] uses when none is given. *)
Definition default_jq_schema (json_path : string) : string :=
  Responses.NL +:+
  "                .[] | {" +:+ Responses.NL +:+
  "                    text: .text," +:+ Responses.NL +:+
  "                    metadata: {" +:+ Responses.NL +:+
  "                        title: .title," +:+ Responses.NL +:+
  "                        author: .author," +:+ Responses.NL +:+
  "                        date: .date," +:+ Responses.NL +:+
  "                        source: .source," +:+ Responses.NL +:+
  "                        file_path: " +:+ DQ +:+ json_path +:+ DQ
    +:+ Responses.NL +:+
  "                    }" +:+ Responses.NL +:+
  "                }" +:+ Responses.NL +:+
  "                ".

(** [os.path.splitext] on a POSIX system. *)

(** [s[n:]] *)
Fixpoint slice_from (n : nat) (s : string) : string :=
  match n, s with
  | S n', String _ s' => slice_from n' s'
  | _, _ => s
  end.

(** The loop that skips the leading dots of the file name: whether the
    first [count] characters are all dots. *)
Fixpoint only_dots (count : nat) (s : string) : bool :=
  match count, s with
  | S n, String c s' => Ascii.eqb c "." && only_dots n s'
  | _, _ => true
  end.

Definition splitext (p : string) : string * string :=
  let sepIndex := rfind "/" p in
  let dotIndex := rfind "." p in
  if (sepIndex <? dotIndex)%Z
     && negb (only_dots (Z.to_nat (dotIndex - (sepIndex + 1)))
                (slice_from (Z.to_nat (sepIndex + 1)) p))
  then (slice_to p dotIndex, slice_from (Z.to_nat dotIndex) p)
  else (p, "").

(** [try: ... except Exception: return []] *)
Definition or_empty (r : result (list Document)) : list Document :=
  match r with
  | Ok docs => docs
  | Raise _ => []
  end.

Section Loaders.

(** The readers and the text splitter belong to libraries; each may
    raise.  [fitz_metadata path] is the metadata of [fitz.open(path)]. *)
Variable fitz_metadata : string -> result (gmap string pyval).
Variables PyPDFLoader UnstructuredWordDocumentLoader TextLoader CSVLoader
  : string -> result (list Document).
Variable JSONLoader : string -> string -> result (list Document).
Variable split_documents : list Document -> result (list Document).

Definition load_pdf (file_path : string) : list Document :=
  or_empty
    (doc_metadata ← fitz_metadata file_path;
     let pdf_metadata := pdf_metadata doc_metadata file_path in
     pages ← PyPDFLoader file_path;
     let pages := map (enhance_page pdf_metadata) pages in
     split_documents pages).

Definition load_json (json_path : string) (jq_schema : option string)
  : list Document :=
  or_empty
    (let jq_schema :=
       match jq_schema with
       | None => default_jq_schema json_path
       | Some schema => schema
       end in
     docs ← JSONLoader json_path jq_schema;
     split_documents docs).

Definition load_word_document (file_path : string) : list Document :=
  or_empty
    (docs ← UnstructuredWordDocumentLoader file_path;
     let docs := map (tag "word_document" file_path) docs in
     split_documents docs).

Definition load_text_file (file_path : string) : list Document :=
  or_empty
    (docs ← TextLoader file_path;
     let docs := map (tag "text_file" file_path) docs in
     split_documents docs).

Definition load_csv (file_path : string) : list Document :=
  or_empty
    (docs ← CSVLoader file_path;
     let docs := map (tag "csv_file" file_path) docs in
     split_documents docs).

(** [jq_schema] is [kwargs.get('jq_schema')]. *)
Definition load_document (file_path : string) (jq_schema : option string)
  : result (list Document) :=
  let file_ext := lower (snd (splitext file_path)) in
  if String.eqb file_ext ".pdf" then Ok (load_pdf file_path)
  else if String.eqb file_ext ".json"
  then Ok (load_json file_path jq_schema)
  else if mem file_ext [".doc"; ".docx"]
  then Ok (load_word_document file_path)
  else if String.eqb file_ext ".txt" then Ok (load_text_file file_path)
  else if String.eqb file_ext ".csv" then Ok (load_csv file_path)
  else Raise (ValueError ("Unsupported file type: " +:+ file_ext)).

End Loaders.

(** The tag each loader writes into [source_type], by file extension. *)
Definition tag_of_extension (file_ext : string) : option string :=
  if String.eqb file_ext ".pdf" then Some "pdf"
  else if mem file_ext [".doc"; ".docx"] then Some "word_document"
  else if String.eqb file_ext ".txt" then Some "text_file"
  else if String.eqb file_ext ".csv" then Some "csv_file"
  else None.

Definition supported_extensions : list string :=
  [".pdf"; ".json"; ".doc"; ".docx"; ".txt"; ".csv"].

(** The splitter copies the metadata of a document to its chunks. *)
Definition keeps_metadata
  (split_documents : list Document -> result (list Document)) : Prop :=
  forall docs chunks chunk,
    split_documents docs = Ok chunks -> In chunk chunks ->
    exists doc, In doc docs /\ metadata chunk = metadata doc.

Definition report_page : Document :=
  {| page_content := "INTRODUCTION" +:+ Responses.NL +:+ "Blood pressure.";
     metadata := <["source" := PStr "report.PDF"]> (<["page" := PInt 0]> ∅) |}.

Definition report_info : gmap string pyval :=
  <["title" := PStr "Annual Report"]>
  (<["creationDate" := PStr "D:20240101120000+01'00'"]> ∅).

(** The same file with the date written as the repository's tests have
    it. *)
Definition plain_date_info : gmap string pyval :=
  <["title" := PStr "Annual Report"]>
  (<["creationDate" := PStr "2024-01-01"]> ∅).

(** Four digits in a row at the start of [s], or anywhere in it. *)
Definition four_digits_at (s : string) : bool :=
  match s with
  | String a (String b (String c (String d _))) =>
      isdigit a && isdigit b && isdigit c && isdigit d
  | _ => false
  end.

Fixpoint has_four_digits (s : string) : bool :=
  four_digits_at s
  || match s with
     | EmptyString => false
     | String _ s' => has_four_digits s'
     end.

End Loaders.

(** ** [src/routes.py]: the conversation store *)

Module Routes.

(** An entry of a history: [{"user": query}] or [{"bot": answer}]. *)
Inductive message : Type :=
| User (query : string)
| Bot (answer : string).

Definition conversation_store : Type := gmap string (list message).

Definition get_history (store : conversation_store)
  (conversation_id : option string) : list message :=
  match conversation_id with
  | Some id =>
      if Citation.nonempty id then default [] (store !! id) else []
  | None => []
  end.

Definition save_history (store : conversation_store)
  (conversation_id : option string) (query answer : string)
  : conversation_store :=
  match conversation_id with
  | Some id =>
      if Citation.nonempty id then
        let store :=
          if bool_decide (is_Some (store !! id)) then store
          else <[id := []]> store in
        <[id := default [] (store !! id) ++ [User query; Bot answer]]> store
      else store
  | None => store
  end.

(** The store after a sequence of exchanges of one conversation. *)
Definition save_all (store : conversation_store)
  (conversation_id : option string) (exchanges : list (string * string))
  : conversation_store :=
  foldl (fun store exchange =>
           save_history store conversation_id exchange.1 exchange.2)
    store exchanges.

Definition transcript (exchanges : list (string * string)) : list message :=
  concat (map (fun exchange => [User exchange.1; Bot exchange.2]) exchanges).

End Routes.

(** ** [src/prompt.py]: [PromptFactory.select_prompt] *)

Module PromptFactory.

Section SelectPrompt.

Variable ChatPromptTemplate : Type.

(** The loop over [prompt_mappings.items()], in the order of insertion. *)
Fixpoint select_loop (query_lower : string)
  (items : list (string * ChatPromptTemplate))
  (default_prompt : ChatPromptTemplate) : ChatPromptTemplate :=
  match items with
  | [] => default_prompt
  | (keyword, prompt) :: items =>
      if contains keyword query_lower then prompt
      else select_loop query_lower items default_prompt
  end.

Definition select_prompt (query : string)
  (prompt_mappings : list (string * ChatPromptTemplate))
  (default_prompt : ChatPromptTemplate) : ChatPromptTemplate :=
  let query_lower := lower query in
  select_loop query_lower prompt_mappings default_prompt.

(** A keyword written without upper-case letters. *)
Definition lower_case_keyword (item : string * ChatPromptTemplate) : bool :=
  negb (any_char isupper_char item.1).

End SelectPrompt.

End PromptFactory.

(** ** [src/config.py]: [GenericConfig.validate_config] *)

Module Config.

Inductive EmbeddingModelType : Type :=
| DEFAULT | OPENAI | HUGGINGFACE | COHERE.

(** The class attributes [validate_config] reads. *)
Record GenericConfig : Type := {
  LLM_PROVIDER : string;
  EMBEDDING_MODEL : EmbeddingModelType;
  GROQ_API_KEY : option string;
  OPENAI_API_KEY : option string;
  COHERE_API_KEY : option string
}.

Inductive config_error : Type :=
| ConfigValueError (message : string)
| AssertionError (message : string).

(** Truth of an optional text: neither [None] nor empty. *)
Definition key_set (key : option string) : bool :=
  match key with
  | Some k => Citation.nonempty k
  | None => false
  end.

(** [None] when the configuration passes. *)
Definition validate_config (cls : GenericConfig) : option config_error :=
  if negb (key_set (GROQ_API_KEY cls))
  then Some (ConfigValueError "GROQ_API_KEY must be set in your .env")
  else
    let provider_check :=
      if String.eqb (LLM_PROVIDER cls) "openai" then
        if key_set (OPENAI_API_KEY cls) then None
        else Some (AssertionError "OPENAI_API_KEY required for OpenAI LLM")
      else if String.eqb (LLM_PROVIDER cls) "groq" then
        if key_set (GROQ_API_KEY cls) then None
        else Some (AssertionError "GROQ_API_KEY required for Groq LLM")
      else Some (ConfigValueError
                   ("Unsupported LLM_PROVIDER: " +:+ LLM_PROVIDER cls)) in
    match provider_check with
    | Some e => Some e
    | None =>
        match EMBEDDING_MODEL cls with
        | OPENAI =>
            if key_set (OPENAI_API_KEY cls) then None
            else Some (AssertionError
                         "OPENAI_API_KEY required for OpenAI embeddings")
        | COHERE =>
            if key_set (COHERE_API_KEY cls) then None
            else Some (AssertionError
                         "COHERE_API_KEY required for Cohere embeddings")
        | _ => None
        end
    end.

Definition groq_setup : GenericConfig :=
  {| LLM_PROVIDER := "groq"; EMBEDDING_MODEL := DEFAULT;
     GROQ_API_KEY := Some "gsk"; OPENAI_API_KEY := None;
     COHERE_API_KEY := None |}.

End Config.

(* ===================================================================== *)
(** * Properties *)

(** ** Facts about the string primitives *)

Module PyFacts.

#[local] Arguments String.append !_ _ /.

Lemma app_nil_r (s : string) : s +:+ "" = s.
Proof. induction s as [|c s IH]; simpl; [reflexivity | now rewrite IH]. Qed.

Lemma app_assoc (a b c : string) : (a +:+ b) +:+ c = a +:+ b +:+ c.
Proof. induction a as [|x a IH]; simpl; [reflexivity | now rewrite IH]. Qed.

Lemma length_app (a b : string) :
  String.length (a +:+ b) = (String.length a + String.length b)%nat.
Proof. induction a as [|x a IH]; simpl; [reflexivity | now rewrite IH]. Qed.

(** [prefix] and [contains] decide the existence of a decomposition. *)
Lemma prefix_spec (p s : string) :
  String.prefix p s = true <-> exists t, s = p +:+ t.
Proof.
  revert s. induction p as [|c p IH]; intros s.
  - split; [intros _; exists s; reflexivity | intros _; destruct s; reflexivity].
  - destruct s as [|d s]; simpl.
    + split; [discriminate | intros [t Ht]; discriminate].
    + destruct (ascii_dec c d) as [->|Hne].
      * destruct (IH s) as [IH1 IH2]. split.
        -- intros H. destruct (IH1 H) as [t Ht]. exists t. now rewrite Ht.
        -- intros [t Ht]. apply IH2. exists t. now injection Ht.
      * split; [discriminate | intros [t Ht]; injection Ht; intros; congruence].
Qed.

Lemma contains_spec (sub s : string) :
  contains sub s = true <-> exists pre post, s = pre +:+ sub +:+ post.
Proof.
  induction s as [|c s IH].
  - cbn [contains]. rewrite orb_false_r. split.
    + intros H. apply prefix_spec in H as [t Ht]. exists "", t. exact Ht.
    + intros [pre [post H]]. apply prefix_spec.
      destruct pre; simpl in H; [eauto | discriminate].
  - cbn [contains]. split.
    + intros H. apply orb_true_iff in H as [H | H].
      * apply prefix_spec in H as [t Ht]. exists "", t. exact Ht.
      * apply IH in H as [pre [post H]].
        exists (String c pre), post. simpl. now rewrite H.
    + intros [pre [post H]]. apply orb_true_iff.
      destruct pre as [|d pre]; simpl in H.
      * left. apply prefix_spec. eauto.
      * right. apply IH. injection H as _ H. eauto.
Qed.

Lemma lower_app (a b : string) : lower (a +:+ b) = lower a +:+ lower b.
Proof. induction a as [|x a IH]; simpl; [reflexivity | now rewrite IH]. Qed.

Lemma lower_app_inv (s a b : string) :
  lower s = a +:+ b ->
  exists a' b', s = a' +:+ b' /\ lower a' = a /\ lower b' = b.
Proof.
  revert s. induction a as [|x a IH]; intros s H.
  - exists "", s. auto.
  - destruct s as [|c s]; simpl in H; [discriminate|].
    injection H as Hc H. destruct (IH _ H) as [a' [b' [-> [Ha Hb]]]].
    exists (String c a'), b'. simpl. now rewrite Hc, Ha, Hb.
Qed.

(** The test [sub in s.lower()] finds [sub] in any letter case. *)
Lemma contains_lower_spec (sub s : string) :
  contains sub (lower s) = true <->
  exists pre mid post, s = pre +:+ mid +:+ post /\ lower mid = sub.
Proof.
  split.
  - intros H. apply contains_spec in H as [pre [post H]].
    apply lower_app_inv in H as [pre' [rest [-> [_ H]]]].
    apply lower_app_inv in H as [mid [post' [-> [Hm _]]]].
    now exists pre', mid, post'.
  - intros [pre [mid [post [-> Hm]]]]. apply contains_spec.
    exists (lower pre), (lower post). now rewrite !lower_app, Hm.
Qed.

Lemma endswith_spec (suf s : string) :
  endswith suf s = true <-> exists p, s = p +:+ suf.
Proof.
  induction s as [|c s IH]; cbn [endswith].
  - rewrite orb_false_r. split.
    + intros H. apply String.eqb_eq in H as ->. now exists "".
    + intros [p H]. apply String.eqb_eq.
      destruct p; simpl in H; [auto | discriminate].
  - split.
    + intros H. apply orb_true_iff in H as [H | H].
      * apply String.eqb_eq in H as ->. now exists "".
      * apply IH in H as [p ->]. now exists (String c p).
    + intros [p H]. apply orb_true_iff. destruct p as [|d p]; simpl in H.
      * left. apply String.eqb_eq. auto.
      * right. apply IH. injection H as _ H. eauto.
Qed.

(** [take] and slices *)

Lemma get_take (n i : nat) (s : string) (c : ascii) :
  String.get i (take n s) = Some c -> String.get i s = Some c.
Proof.
  revert i s. induction n as [|n IH]; intros i [|a s]; simpl;
    try discriminate.
  destruct i; [auto | apply IH].
Qed.

Lemma slice_to_nonneg (s : string) (n : Z) :
  (0 <= n)%Z -> slice_to s n = take (Z.to_nat n) s.
Proof.
  intros H. unfold slice_to, slice_stop.
  destruct (0 <=? n)%Z eqn:E; [reflexivity | lia].
Qed.

Lemma list_slice_to_nonneg {A : Type} (l : list A) (n : Z) :
  (0 <= n)%Z -> list_slice_to l n = firstn (Z.to_nat n) l.
Proof.
  intros H. unfold list_slice_to, slice_stop.
  destruct (0 <=? n)%Z eqn:E; [reflexivity | lia].
Qed.

(** [rfind] *)

Lemma rfind_range (c : ascii) (s : string) :
  rfind c s = (-1)%Z
  \/ (0 <= rfind c s < Z.of_nat (String.length s))%Z.
Proof.
  induction s as [|a s IH]; cbn [rfind String.length]; [now left|].
  destruct (0 <=? rfind c s)%Z eqn:E.
  - right. lia.
  - destruct (Ascii.eqb a c); [right; lia | now left].
Qed.

Lemma rfind_get (c : ascii) (s : string) :
  (0 <= rfind c s)%Z -> String.get (Z.to_nat (rfind c s)) s = Some c.
Proof.
  induction s as [|a s IH]; cbn [rfind]; [lia|].
  destruct (0 <=? rfind c s)%Z eqn:E.
  - intros _. replace (Z.to_nat (rfind c s + 1)) with (S (Z.to_nat (rfind c s)))
      by lia.
    simpl. apply IH. lia.
  - destruct (Ascii.eqb a c) eqn:Ec; [|lia].
    intros _. apply Ascii.eqb_eq in Ec as ->. reflexivity.
Qed.

Lemma rfind_absent (c : ascii) (s : string) :
  contains (String c "") s = false -> rfind c s = (-1)%Z.
Proof.
  induction s as [|a s IH]; cbn [contains rfind]; [reflexivity|].
  intros H. apply orb_false_iff in H as [Hp Hc].
  rewrite (IH Hc). cbn.
  destruct (Ascii.eqb a c) eqn:Ec; [|reflexivity].
  apply Ascii.eqb_eq in Ec as ->. simpl in Hp.
  destruct (ascii_dec c c); [|congruence].
  destruct s; discriminate Hp.
Qed.

End PyFacts.

(** ** The search for a year *)

Module YearFacts.

Import CitationSpec YearSpec PyFacts.

#[local] Arguments String.append !_ _ /.

Lemma listed_digit (c : ascii) :
  In c digit_chars -> isdigit c = true /\ isword c = true.
Proof.
  intros H. repeat (destruct H as [<- | H]; [split; reflexivity|]).
  destruct H.
Qed.

Lemma digit_listed (c : ascii) : isdigit c = true -> In c digit_chars.
Proof.
  destruct c as [[] [] [] [] [] [] [] []]; vm_compute; intros H;
    try discriminate H; repeat (first [left; reflexivity | right]).
Qed.

Lemma year_token_chars (y : string) :
  year_token y ->
  exists a b c d,
    y = String a (String b (String c (String d "")))
    /\ (Ascii.eqb a "1" && Ascii.eqb b "9"
        || Ascii.eqb a "2" && Ascii.eqb b "0") = true
    /\ isdigit c = true /\ isdigit d = true
    /\ isword a = true /\ isword d = true.
Proof.
  intros (c & d & Hc & Hd & Hy).
  destruct (listed_digit c Hc) as [Hc1 _].
  destruct (listed_digit d Hd) as [Hd1 Hd2].
  destruct Hy as [-> | ->]; eexists _, _, c, d; repeat split; auto.
Qed.

(** An attempt at one position. *)
Lemma year_at_sound (prev : option ascii) (s y : string) :
  year_at prev s = Some y ->
  exists post, occurrence_after prev s "" y post.
Proof.
  destruct s as [|a [|b [|c [|d rest]]]]; try discriminate.
  unfold year_at, word_boundary. cbn [isword_opt head_char].
  intros H.
  destruct (_ && _) eqn:E in H; [|discriminate H]. injection H as <-.
  apply andb_true_iff in E as [E Hafter].
  apply andb_true_iff in E as [E Hd].
  apply andb_true_iff in E as [E Hc].
  apply andb_true_iff in E as [Hbefore Hab].
  assert (isword a = true) as Ha.
  { apply orb_true_iff in Hab as [Hab | Hab];
      apply andb_true_iff in Hab as [Ea _];
      apply Ascii.eqb_eq in Ea; now subst a. }
  assert (isword d = true) as Hwd by (apply (listed_digit d), digit_listed, Hd).
  rewrite Ha in Hbefore. rewrite Hwd in Hafter.
  exists rest. split; [reflexivity|]. split; [|split].
  - exists c, d. split; [now apply digit_listed|].
    split; [now apply digit_listed|].
    apply orb_true_iff in Hab as [Hab | Hab];
      apply andb_true_iff in Hab as [Ea Eb];
      apply Ascii.eqb_eq in Ea, Eb; subst a b; [now left | now right].
  - cbn [last_of]. now destruct (isword_opt prev).
  - intros x post' ->. cbn [head_char isword_opt] in Hafter.
    now destruct (isword x).
Qed.

Lemma year_at_complete (prev : option ascii) (s y post : string) :
  occurrence_after prev s "" y post -> year_at prev s = Some y.
Proof.
  intros (-> & Hy & Hbefore & Hafter). cbn [last_of] in Hbefore.
  apply year_token_chars in Hy
    as (a & b & c & d & -> & Hab & Hc & Hd & Ha & Hwd).
  cbn [String.append]. unfold year_at, word_boundary.
  cbn [isword_opt]. rewrite Hbefore, Ha, Hab, Hc, Hd, Hwd.
  assert (isword_opt (head_char post) = false) as ->.
  { destruct post as [|x post']; [reflexivity|]. cbn. now apply (Hafter x post'). }
  reflexivity.
Qed.

Lemma occurrence_after_cons (prev : option ascii) (c : ascii)
  (s pre y post : string) :
  occurrence_after prev (String c s) (String c pre) y post
  <-> occurrence_after (Some c) s pre y post.
Proof.
  unfold occurrence_after. cbn [String.append last_of]. split.
  - intros ([= ->] & H). now split.
  - intros (-> & H). now split.
Qed.

Lemma occurrence_after_head (prev : option ascii) (c : ascii)
  (s pre y post : string) :
  occurrence_after prev (String c s) pre y post ->
  pre = "" \/ exists pre', pre = String c pre'.
Proof.
  intros (H & _). destruct pre as [|x pre']; [now left|].
  cbn [String.append] in H. injection H as <- _. right. now exists pre'.
Qed.

(** The search finds nothing only where there is no occurrence. *)
Lemma search_from_none (s : string) (prev : option ascii) :
  search_from prev s = None ->
  forall pre y post, ~ occurrence_after prev s pre y post.
Proof.
  revert prev. induction s as [|c s IH]; intros prev H pre y post Ho.
  - destruct Ho as (Hs & Hy & _).
    apply year_token_chars in Hy as (a & b & c & d & -> & _).
    destruct pre; discriminate Hs.
  - cbn [search_from] in H.
    destruct (year_at prev (String c s)) eqn:E; [discriminate H|].
    destruct (occurrence_after_head _ _ _ _ _ _ Ho) as [-> | [pre' ->]].
    + rewrite (year_at_complete _ _ _ _ Ho) in E. discriminate E.
    + apply occurrence_after_cons in Ho. exact (IH _ H _ _ _ Ho).
Qed.

(** What the search finds is the leftmost occurrence. *)
Lemma search_from_some (s : string) (prev : option ascii) (y : string) :
  search_from prev s = Some y ->
  exists pre post,
    occurrence_after prev s pre y post
    /\ forall pre' y' post',
         occurrence_after prev s pre' y' post' ->
         (String.length pre <= String.length pre')%nat.
Proof.
  revert prev. induction s as [|c s IH]; intros prev H.
  - cbn in H. discriminate H.
  - cbn [search_from] in H.
    destruct (year_at prev (String c s)) as [y0|] eqn:E.
    + injection H as ->. apply year_at_sound in E as [post Ho].
      exists "", post. split; [exact Ho|]. intros; cbn; lia.
    + destruct (IH _ H) as (pre & post & Ho & Hmin).
      exists (String c pre), post. split; [now apply occurrence_after_cons|].
      intros pre' y' post' Ho'.
      destruct (occurrence_after_head _ _ _ _ _ _ Ho') as [-> | [p ->]].
      * rewrite (year_at_complete _ _ _ _ Ho') in E. discriminate E.
      * apply occurrence_after_cons in Ho'. cbn [String.length].
        specialize (Hmin _ _ _ Ho'). lia.
Qed.

(** At the start of a text the two notions of occurrence agree. *)
Lemma last_of_nonword (prev : option ascii) (pre : string) :
  isword_opt (last_of prev pre) = false <->
  (pre = "" -> isword_opt prev = false)
  /\ forall pre' c, pre = pre' +:+ String c "" -> isword c = false.
Proof.
  revert prev. induction pre as [|a p IH]; intros prev; cbn [last_of].
  - split.
    + intros H. split; [auto|]. intros pre' c Hp.
      destruct pre'; discriminate Hp.
    + intros [H _]. now apply H.
  - rewrite IH. cbn [isword_opt]. split.
    + intros [H1 H2]. split; [discriminate|]. intros pre' c Hp.
      destruct pre' as [|x pre']; cbn [String.append] in Hp.
      * injection Hp as -> ->. now apply H1.
      * injection Hp as -> ->. now apply (H2 pre').
    + intros [_ H]. split.
      * intros ->. now apply (H "" a).
      * intros pre' c ->. now apply (H (String a pre') c).
Qed.

Lemma occurrence_at_start (s pre y post : string) :
  occurrence_after None s pre y post <-> year_occurrence s pre y post.
Proof.
  unfold occurrence_after, year_occurrence, stands_alone.
  rewrite last_of_nonword. cbn [isword_opt]. tauto.
Qed.

Lemma app_same_length (a a' b b' : string) :
  a +:+ b = a' +:+ b' -> String.length a = String.length a' ->
  a = a' /\ b = b'.
Proof.
  revert a'. induction a as [|x a IH]; intros [|x' a'] H Hl;
    try discriminate Hl; cbn [String.append] in H.
  - now split.
  - injection H as -> H. injection Hl as Hl.
    destruct (IH _ H Hl) as [-> ->]. now split.
Qed.

Lemma year_token_length (y : string) :
  year_token y -> String.length y = 4%nat.
Proof. intros (c & d & _ & _ & [-> | ->]); reflexivity. Qed.

(** [re.search] finds the leftmost year, or there is none. *)
Lemma re_search_year_leftmost (s y : string) :
  re_search_year s = Some y <-> leftmost_year s y.
Proof.
  unfold re_search_year, leftmost_year. split.
  - intros H. apply search_from_some in H as (pre & post & Ho & Hmin).
    exists pre, post. split; [now apply occurrence_at_start|].
    intros pre' y' post' Ho'. apply occurrence_at_start in Ho'.
    exact (Hmin _ _ _ Ho').
  - intros (pre & post & Ho & Hmin).
    destruct (search_from None s) as [y1|] eqn:E.
    + apply search_from_some in E as (pre1 & post1 & Ho1 & Hmin1).
      apply occurrence_at_start in Ho1.
      pose proof (Hmin _ _ _ Ho1) as L1.
      apply occurrence_at_start in Ho.
      pose proof (Hmin1 _ _ _ Ho) as L2.
      destruct Ho as (Hs & Hy & _). destruct Ho1 as (Hs1 & Hy1 & _).
      rewrite Hs in Hs1.
      destruct (app_same_length _ _ _ _ Hs1 ltac:(lia)) as [_ Hrest].
      apply app_same_length in Hrest as [-> _]; [reflexivity|].
      now rewrite !year_token_length.
    + exfalso. apply occurrence_at_start in Ho.
      exact (search_from_none _ _ E _ _ _ Ho).
Qed.

Lemma re_search_year_none (s : string) :
  re_search_year s = None <-> no_year s.
Proof.
  unfold re_search_year, no_year. split.
  - intros H pre y post Ho. apply occurrence_at_start in Ho.
    exact (search_from_none _ _ H _ _ _ Ho).
  - intros H. destruct (search_from None s) as [y|] eqn:E; [|reflexivity].
    apply search_from_some in E as (pre & post & Ho & _).
    apply occurrence_at_start in Ho. now destruct (H _ _ _ Ho).
Qed.

End YearFacts.

(** ** [GenericCitationFormatter] *)

Module CitationFacts.

Import Citation CitationSpec PyFacts.

Section WithFloatStr.

Variable fs : Q -> string.

Lemma opens_with_refl (p : string) : opens_with p p.
Proof. exists "". now rewrite app_nil_r. Qed.

Lemma opens_with_app (p s t : string) :
  opens_with p s -> opens_with p (s +:+ t).
Proof. intros [r ->]. exists (r +:+ t). apply app_assoc. Qed.

Lemma opens_with_if (p : string) (b : bool) (s t : string) :
  opens_with p s -> opens_with p (if b then s +:+ t else s).
Proof. destruct b; auto using opens_with_app. Qed.

Lemma opens_with_nonempty (s : string) : opens_with "[" s -> s <> "".
Proof. intros [r ->]. discriminate. Qed.

Lemma shorten_title_str (t : string) (n : Z) :
  exists r, _shorten_title (PStr t) n = Ok r.
Proof.
  unfold _shorten_title. cbn.
  destruct (n <? _)%Z; eexists; reflexivity.
Qed.

Lemma shorten_url_str (u : string) (n : Z) :
  exists r, _shorten_url (PStr u) n = Ok r.
Proof.
  unfold _shorten_url. destruct (n <? _)%Z; eexists; reflexivity.
Qed.

Lemma get_holds_str (m : gmap string pyval) (k d : string) :
  holds_str m k -> exists s, get m k (PStr d) = PStr s.
Proof.
  intros H. unfold get. destruct (m !! k) as [v|] eqn:E; cbn.
  - destruct (H v E) as [s ->]. eauto.
  - eauto.
Qed.

Lemma text_fields_elim (m : gmap string pyval) :
  text_fields_are_str m ->
  holds_str m "source_type" /\ holds_str m "title" /\ holds_str m "authors"
  /\ holds_str m "page_title" /\ holds_str m "url".
Proof.
  unfold text_fields_are_str, text_fields. intros H.
  repeat (apply Forall_cons in H as [? H]). auto.
Qed.

Ltac opens :=
  repeat first
    [ apply opens_with_refl | apply opens_with_app | apply opens_with_if ].

(** Run the binds of the error monad, and nothing else. *)
Ltac step :=
  cbv beta iota zeta delta [mbind mret result_bind result_ret].

Ltac finish_citation :=
  step; eexists; split; [reflexivity | opens].

Ltac use_title m k H :=
  let t := fresh "t" in
  let r5 := fresh "r5" in
  let r6 := fresh "r6" in
  let H5 := fresh "H5" in
  let H6 := fresh "H6" in
  destruct (get_holds_str m k "" H) as [t ->];
  destruct (shorten_title_str t 5) as [r5 H5]; try rewrite H5;
  destruct (shorten_title_str t 6) as [r6 H6]; try rewrite H6;
  clear H5 H6.

Ltac use_url m H :=
  let u := fresh "u" in
  let r := fresh "r" in
  let Hr := fresh "Hr" in
  destruct (get_holds_str m "url" "" H) as [u ->];
  destruct (shorten_url_str u 30) as [r Hr]; rewrite Hr; clear Hr.

Lemma default_citation_ok (m : gmap string pyval) :
  holds_str m "title" ->
  exists s, _format_default_citation fs m = Ok s
    /\ opens_with ("[" +:+ str fs (get m "source" (PStr "Source"))) s.
Proof.
  intros Ht. unfold _format_default_citation. cbv zeta.
  use_title m "title" Ht.
  destruct (truthy (PStr t)); finish_citation.
Qed.

Lemma guideline_citation_ok (m : gmap string pyval) :
  holds_str m "title" ->
  exists s, _format_guideline_citation fs m = Ok s /\ opens_with "[" s.
Proof.
  intros Ht. unfold _format_guideline_citation. cbv zeta.
  use_title m "title" Ht.
  destruct (truthy (PStr t)); finish_citation.
Qed.

Lemma educational_citation_ok (m : gmap string pyval) :
  holds_str m "title" ->
  exists s, _format_educational_citation fs m = Ok s /\ opens_with "[" s.
Proof.
  intros Ht. unfold _format_educational_citation. cbv zeta.
  use_title m "title" Ht.
  destruct (truthy (PStr t)); finish_citation.
Qed.

Lemma web_citation_ok (m : gmap string pyval) :
  holds_str m "page_title" -> holds_str m "url" ->
  exists s, _format_web_citation fs m = Ok s /\ opens_with "[" s.
Proof.
  intros Ht Hu. unfold _format_web_citation. cbv zeta.
  use_title m "page_title" Ht. use_url m Hu.
  destruct (truthy (PStr t)), (truthy (PStr u)); finish_citation.
Qed.

Lemma research_citation_ok (m : gmap string pyval) :
  holds_str m "title" -> holds_str m "authors" -> holds_str m "url" ->
  exists s, _format_research_citation fs m = Ok s /\ opens_with "[" s.
Proof.
  intros Ht Ha Hu. unfold _format_research_citation. cbv zeta.
  use_title m "title" Ht. use_url m Hu.
  destruct (get_holds_str m "authors" "" Ha) as [a ->].
  unfold str_method. generalize (split_on "," a). intros author_list.
  destruct (truthy (PStr a)), (truthy (PStr t)),
    (truthy (get m "doi" (PStr ""))), (truthy (PStr u));
    try destruct author_list as [|first others]; finish_citation.
Qed.

(** Dispatch on the lower-cased source type. *)
Lemma format_citation_dispatch (m : gmap string pyval) :
  holds_str m "source_type" ->
  format_citation fs m =
    let source_type := source_type_of m in
    if String.eqb source_type "official_guideline"
    then _format_guideline_citation fs m
    else if String.eqb source_type "research_article"
    then _format_research_citation fs m
    else if String.eqb source_type "educational_material"
    then _format_educational_citation fs m
    else if String.eqb source_type "web_page"
    then _format_web_citation fs m
    else _format_default_citation fs m.
Proof.
  intros Hs. unfold format_citation, source_type_of.
  destruct (get_holds_str m "source_type" "" Hs) as [s ->]. reflexivity.
Qed.

Lemma format_citation_empty : format_citation fs ∅ = Ok "[Source]".
Proof. reflexivity. Qed.

(** C1, as amended.  When the fields that the formatter treats as text
    ([source_type], [title], [authors], [page_title], [url]) hold strings
    wherever they are present, [format_citation] raises nothing and returns
    a non-empty string that opens with a bracket; an absent or unknown
    source type is handled by the default format, whose output opens with
    the [source] field or, failing that, with the label [Source]. *)
Theorem format_citation_total_on_text (m : gmap string pyval) :
  text_fields_are_str m ->
  (exists s, format_citation fs m = Ok s /\ s <> "" /\ opens_with "[" s)
  /\ (mem (source_type_of m) known_source_types = false ->
      exists s, format_citation fs m = Ok s
        /\ _format_default_citation fs m = Ok s
        /\ opens_with ("[" +:+ str fs (get m "source" (PStr "Source"))) s).
Proof.
  intros H. destruct (text_fields_elim m H) as (Hs & Ht & Ha & Hp & Hu).
  rewrite (format_citation_dispatch m Hs). cbv zeta. unfold mem. cbn [existsb known_source_types].
  destruct (guideline_citation_ok m Ht) as (s1 & E1 & O1).
  destruct (research_citation_ok m Ht Ha Hu) as (s2 & E2 & O2).
  destruct (educational_citation_ok m Ht) as (s3 & E3 & O3).
  destruct (web_citation_ok m Hp Hu) as (s4 & E4 & O4).
  destruct (default_citation_ok m Ht) as (s5 & E5 & O5).
  assert (opens_with "[" s5) as O5'.
  { destruct O5 as [r ->]. eexists. apply app_assoc. }
  destruct (String.eqb _ "official_guideline");
    [|destruct (String.eqb _ "research_article");
      [|destruct (String.eqb _ "educational_material");
        [|destruct (String.eqb _ "web_page")]]];
    (split; [eauto using opens_with_nonempty | cbn; intros; try discriminate; eauto]).
Qed.

(** *** Year extraction *)

Lemma isdigit_digit_chars (c : ascii) :
  isdigit c = true -> In c digit_chars.
Proof.
  destruct c as [[] [] [] [] [] [] [] []]; vm_compute; intros H;
    try discriminate H; repeat (first [left; reflexivity | right]).
Qed.

Lemma year_at_inv (prev : option ascii) (s y : string) :
  year_at prev s = Some y -> is_year y /\ opens_with y s.
Proof.
  destruct s as [|a [|b [|c [|d rest]]]]; try discriminate.
  unfold year_at.
  destruct (word_boundary prev (Some a)); [|discriminate].
  rewrite andb_true_l.
  destruct (isdigit c) eqn:Hc; [|rewrite andb_false_r; discriminate].
  destruct (isdigit d) eqn:Hd; [|rewrite andb_false_r; discriminate].
  rewrite !andb_true_r.
  destruct (word_boundary (Some d) (head_char rest)); [|rewrite andb_false_r; discriminate].
  rewrite andb_true_r.
  destruct (Ascii.eqb a "1" && Ascii.eqb b "9"
            || Ascii.eqb a "2" && Ascii.eqb b "0") eqn:Hab; [|discriminate].
  intros [= <-]. split; [|exists rest; reflexivity].
  apply isdigit_digit_chars in Hc, Hd.
  apply orb_true_iff in Hab as [Hab | Hab];
    apply andb_true_iff in Hab as [Ea Eb];
    apply Ascii.eqb_eq in Ea, Eb; subst a b;
    repeat (destruct Hc as [<- | Hc]; [|try (now destruct Hc)]);
    repeat (destruct Hd as [<- | Hd]; [|try (now destruct Hd)]);
    (split; [reflexivity | eexists; split; [vm_compute; reflexivity | lia]]).
Qed.

Lemma search_from_inv (prev : option ascii) (s y : string) :
  search_from prev s = Some y ->
  is_year y /\ exists pre post, s = pre +:+ y +:+ post.
Proof.
  revert prev. induction s as [|c s IH]; intros prev; cbn [search_from].
  - destruct (year_at prev "") eqn:E; [|discriminate].
    intros [= ->]. apply year_at_inv in E as [Hy [r ->]].
    split; [exact Hy | now exists "", r].
  - destruct (year_at prev (String c s)) eqn:E.
    + intros [= ->]. apply year_at_inv in E as [Hy [r ->]].
      split; [exact Hy | now exists "", r].
    + intros H. destruct (IH _ H) as [Hy (pre & post & ->)].
      split; [exact Hy | now exists (String c pre), post].
Qed.

(** Whatever the pattern matches is a year of four digits, between 1900
    and 2099, that occurs in the text. *)
Lemma re_search_year_inv (s y : string) :
  re_search_year s = Some y ->
  is_year y /\ exists pre post, s = pre +:+ y +:+ post.
Proof. apply search_from_inv. Qed.

Lemma extract_year_loop_first (m : gmap string pyval) (fields : list string)
  (v : pyval) (y : string) :
  head (omap (fun field => m !! field) fields) = Some v ->
  re_search_year (str fs v) = Some y ->
  extract_year_loop fs m fields = y.
Proof.
  induction fields as [|f fields IH]; cbn; [discriminate|].
  destruct (m !! f) as [w|]; cbn; [|exact IH].
  intros [= ->] ->. reflexivity.
Qed.

Lemma extract_year_loop_none (m : gmap string pyval) (fields : list string) :
  (forall field v, In field fields -> m !! field = Some v ->
                   re_search_year (str fs v) = None) ->
  extract_year_loop fs m fields = "".
Proof.
  induction fields as [|f fields IH]; cbn; [reflexivity|]. intros H.
  destruct (m !! f) as [v|] eqn:E.
  - rewrite (H f v (or_introl eq_refl) E). apply IH. intros; eapply H; eauto.
  - apply IH. intros; eapply H; eauto.
Qed.

Lemma extract_year_loop_year (m : gmap string pyval) (fields : list string) :
  extract_year_loop fs m fields = ""
  \/ is_year (extract_year_loop fs m fields).
Proof.
  induction fields as [|f fields IH]; cbn; [now left|].
  destruct (m !! f) as [v|]; [|exact IH].
  destruct (re_search_year (str fs v)) as [y|] eqn:E; [|exact IH].
  right. now apply re_search_year_inv in E.
Qed.

Lemma extract_year_loop_decides (m : gmap string pyval)
  (before : list string) (field : string) (after : list string)
  (v : pyval) (y : string) :
  (forall f w, In f before -> m !! f = Some w ->
               re_search_year (str fs w) = None) ->
  m !! field = Some v -> re_search_year (str fs v) = Some y ->
  extract_year_loop fs m (before ++ field :: after) = y.
Proof.
  intros Hbefore Hv Hy. induction before as [|f before IH]; cbn.
  - now rewrite Hv, Hy.
  - destruct (m !! f) as [w|] eqn:E.
    + rewrite (Hbefore f w (or_introl eq_refl) E).
      apply IH. intros; eapply Hbefore; eauto. now right.
    + apply IH. intros; eapply Hbefore; eauto. now right.
Qed.

(** C6, as amended.  The fields [year], [publication_date], [date],
    [publish_date] are scanned in this order.  A field decides the result
    when every field before it is absent or holds no year: the result is
    then the leftmost year of its text, a year being 19 or 20 followed by
    two digits with no letter, digit or underscore next to it.  A field
    that is present but holds no year is passed over.  When no field
    holds a year the result is the empty string, and nothing is raised.
    A non-empty result is a four-digit year between 1900 and 2099. *)
Theorem extract_year_scans_fields (m : gmap string pyval) :
  (forall before field after v y,
     ["year"; "publication_date"; "date"; "publish_date"]
     = before ++ field :: after ->
     (forall f w, In f before -> m !! f = Some w ->
                  YearSpec.no_year (str fs w)) ->
     m !! field = Some v ->
     YearSpec.leftmost_year (str fs v) y ->
     _extract_year fs m = y)
  /\ ((forall f w,
         In f ["year"; "publication_date"; "date"; "publish_date"] ->
         m !! f = Some w -> YearSpec.no_year (str fs w)) ->
      _extract_year fs m = "")
  /\ (_extract_year fs m = "" \/ is_year (_extract_year fs m)).
Proof.
  unfold _extract_year. split; [|split].
  - intros before field after v y Hfields Hbefore Hv Hy.
    change year_fields
      with ["year"; "publication_date"; "date"; "publish_date"].
    rewrite Hfields. apply (extract_year_loop_decides m before field after v).
    + intros f w Hf Hw. apply YearFacts.re_search_year_none. eauto.
    + exact Hv.
    + now apply YearFacts.re_search_year_leftmost.
  - intros Hnone. apply extract_year_loop_none.
    intros field v Hin Hv. apply YearFacts.re_search_year_none. eauto.
  - apply extract_year_loop_year.
Qed.

(** C2, as amended.  For the research-article scenario the citation is
    the string below: the author list is abbreviated to the text before
    the first comma, [Smith et al.], and the title is cut after six
    words; journal, year and DOI appear as given. *)
Theorem research_scenario_citation :
  exists c, format_citation fs research_example = Ok c
    /\ c = "[Smith et al. 'Long Title Exceeding Five Words For...', J. Med 2021 DOI:10.1/x]"
    /\ contains "Smith et al." c = true
    /\ contains "'Long Title Exceeding Five Words For...'" c = true
    /\ contains "J. Med" c = true
    /\ contains "2021" c = true
    /\ contains "DOI:10.1/x" c = true.
Proof.
  eexists. split; [vm_compute; reflexivity|].
  repeat split; vm_compute; reflexivity.
Qed.

End WithFloatStr.

(** The empty mapping satisfies the hypothesis of C1 and is cited as
    [[Source]]. *)
Lemma format_citation_total_on_text_witness :
  text_fields_are_str ∅
  /\ (exists s, format_citation no_float ∅ = Ok s /\ s <> ""
                /\ opens_with "[" s)
  /\ (exists s, format_citation no_float ∅ = Ok s
        /\ _format_default_citation no_float ∅ = Ok s
        /\ opens_with "[Source" s).
Proof.
  assert (text_fields_are_str ∅) as H.
  { unfold text_fields_are_str. apply Forall_forall.
    intros k _ v Hv. rewrite lookup_empty in Hv. discriminate Hv. }
  split; [exact H|].
  destruct (format_citation_total_on_text no_float ∅ H) as [H1 H2].
  split; [exact H1 | exact (H2 eq_refl)].
Defined.

(** C1 as stated fails: a number under [title] makes [title.split()]
    raise. *)
Lemma format_citation_numeric_title_raises :
  format_citation no_float numeric_title_example = Raise AttributeError
  /\ ~ (exists s, format_citation no_float numeric_title_example = Ok s
                  /\ s <> "").
Proof.
  split; [reflexivity|]. intros [s [H _]]. discriminate H.
Qed.

(** C2 as stated fails: the citation holds neither [Smith, J et al.] nor
    a title of five words. *)
Lemma research_scenario_not_as_stated :
  exists c, format_citation no_float research_example = Ok c
    /\ contains "Smith, J et al." c = false
    /\ contains "Long Title Exceeding Five Words..." c = false.
Proof.
  eexists. split; [vm_compute; reflexivity|].
  split; vm_compute; reflexivity.
Qed.

(** C6 at two records.  In the first the year stands in the middle of
    the second field of the list, the first being absent and the fourth
    holding another year.  In the second the first field is present and
    holds no year, and the third decides. *)
Lemma extract_year_scans_fields_witness :
  _extract_year no_float YearSpec.press_example = "2019"
  /\ _extract_year no_float fallthrough_example = "2018".
Proof.
  split.
  - destruct (extract_year_scans_fields no_float YearSpec.press_example)
      as (H & _).
    apply (H ["year"] "publication_date" ["date"; "publish_date"]
             (PStr "Published Jan 15, 2019")).
    + reflexivity.
    + intros f w [<- | []] Hw. discriminate Hw.
    + reflexivity.
    + apply YearFacts.re_search_year_leftmost. reflexivity.
  - destruct (extract_year_scans_fields no_float fallthrough_example)
      as (H & _).
    apply (H ["year"; "publication_date"] "date" ["publish_date"]
             (PStr "2018-12-31")).
    + reflexivity.
    + intros f w [<- | [<- | []]] Hw; [|discriminate Hw].
      injection Hw as <-. apply YearFacts.re_search_year_none. reflexivity.
    + reflexivity.
    + apply YearFacts.re_search_year_leftmost. reflexivity.
Defined.

(** C6 as stated fails: the first field that is present, [year], holds
    no year, and yet a year is returned, that of a later field. *)
Lemma extract_year_passes_over_first_field :
  first_present fallthrough_example = Some (PStr "n/a")
  /\ fallthrough_example !! "year" = Some (PStr "n/a")
  /\ YearSpec.no_year "n/a"
  /\ _extract_year no_float fallthrough_example = "2018".
Proof.
  split; [reflexivity|]. split; [reflexivity|]. split; [|reflexivity].
  apply YearFacts.re_search_year_none. reflexivity.
Qed.

End CitationFacts.

(** ** The division of two ints *)

Module FloatFacts.

Import PyFloat FloatSpec.

Local Open Scope Z_scope.

Lemma pow2_pos (e : Z) : 0 <= e -> 0 < 2 ^ e.
Proof. intros. apply Z.pow_pos_nonneg; lia. Qed.

Lemma pow2_split (e f : Z) : 0 <= e -> 0 <= f -> 2 ^ (e + f) = 2 ^ e * 2 ^ f.
Proof. intros. apply Z.pow_add_r; lia. Qed.

Lemma pow2_le (e f : Z) : 0 <= e <= f -> 2 ^ e <= 2 ^ f.
Proof. intros. apply Z.pow_le_mono_r; lia. Qed.

Section Rounding.

Variables a b n e d m0 r m : Z.
Hypothesis Ha : 0 <= a <= b.
Hypothesis Hb : 0 < b.
Hypothesis En : n = a * 2 ^ 1074.
Hypothesis Ee : e = Z.max (Z.log2 (n / b) - 52) 0.
Hypothesis Ed : d = b * 2 ^ e.
Hypothesis Em0 : m0 = n / d.
Hypothesis Er : r = n mod d.
Hypothesis Em : m = round_half_even n d.

Lemma scaled_nonneg : 0 <= n.
Proof. pose proof (pow2_pos 1074 ltac:(lia)). nia. Qed.

Lemma exponent_range : 0 <= e <= 1022.
Proof.
  split; [lia|].
  assert (n / b <= 2 ^ 1074) as H.
  { apply Z.div_le_upper_bound; [lia|].
    pose proof (pow2_pos 1074 ltac:(lia)). nia. }
  assert (0 <= n / b) as H0 by (apply Z.div_pos; [apply scaled_nonneg | lia]).
  assert (Z.log2 (n / b) <= 1074).
  { rewrite <- (Z.log2_pow2 1074) by lia. now apply Z.log2_le_mono. }
  lia.
Qed.

Lemma divisor_pos : 0 < d.
Proof. pose proof (pow2_pos e (proj1 exponent_range)). nia. Qed.

Lemma quotient_div : m0 = (n / b) / 2 ^ e.
Proof.
  rewrite Em0, Ed. rewrite Z.div_div; [reflexivity | lia |].
  apply pow2_pos, exponent_range.
Qed.

Lemma quotient_range : 0 <= m0 < 2 ^ 53 /\ (0 < e -> 2 ^ 52 <= m0).
Proof.
  rewrite quotient_div.
  assert (0 <= n / b) as H0 by (apply Z.div_pos; [apply scaled_nonneg | lia]).
  pose proof (pow2_pos e (proj1 exponent_range)) as He.
  destruct (Z.eq_dec (n / b) 0) as [Hz | Hz].
  - assert (e = 0) as E by (rewrite Ee, Hz; cbn; lia).
    rewrite Hz, E, Z.pow_0_r, Z.div_1_r.
    pose proof (pow2_pos 53 ltac:(lia)). lia.
  - assert (0 < n / b) as Hp by lia.
    destruct (Z.log2_spec _ Hp) as [Hl Hu].
    pose proof (Z.log2_nonneg (n / b)) as Hn.
    destruct (Z_le_gt_dec (Z.log2 (n / b)) 52) as [Hs | Hs].
    + assert (e = 0) as E by lia.
      rewrite E. rewrite Z.pow_0_r, Z.div_1_r. split; [|lia].
      split; [lia|].
      eapply Z.lt_le_trans; [exact Hu|]. apply pow2_le. lia.
    + assert (e = Z.log2 (n / b) - 52) as E by lia.
      assert (2 ^ Z.log2 (n / b) = 2 ^ 52 * 2 ^ e) as P1.
      { rewrite <- pow2_split by lia. f_equal. lia. }
      assert (2 ^ Z.succ (Z.log2 (n / b)) = 2 ^ 53 * 2 ^ e) as P2.
      { rewrite <- pow2_split by lia. f_equal. lia. }
      rewrite P1 in Hl. rewrite P2 in Hu.
      split; [split|].
      * apply Z.div_pos; lia.
      * apply Z.div_lt_upper_bound; [lia|]. lia.
      * intros _. apply Z.div_le_lower_bound; lia.
Qed.

Lemma quotient_remainder : n = m0 * d + r /\ 0 <= r < d.
Proof.
  pose proof divisor_pos. rewrite Em0, Er.
  split; [rewrite Z.mul_comm; apply Z.div_mod; lia | apply Z.mod_pos_bound; lia].
Qed.

Lemma rounded_cases :
  (m = m0 /\ 2 * r <= d /\ (2 * r = d -> Z.even m0 = true))
  \/ (m = m0 + 1 /\ d <= 2 * r /\ (2 * r = d -> Z.even m0 = false)).
Proof.
  rewrite Em. unfold round_half_even. rewrite <- Em0, <- Er.
  destruct (2 * r <? d) eqn:E1; [apply Z.ltb_lt in E1; left; lia|].
  apply Z.ltb_ge in E1.
  destruct (d <? 2 * r) eqn:E2; [apply Z.ltb_lt in E2; right; lia|].
  apply Z.ltb_ge in E2.
  destruct (Z.even m0) eqn:E3; [left | right]; repeat split; auto; lia.
Qed.

(** No float lies strictly between the two candidates. *)
Lemma no_float_between (k : Z) : unit_multiple k -> k <= m0 * 2 ^ e \/ (m0 + 1) * 2 ^ e <= k.
Proof.
  intros (mk & ek & Hm & He & ->).
  pose proof exponent_range as Her. pose proof (pow2_pos e (proj1 Her)) as Hpe.
  pose proof (pow2_pos ek (proj1 He)) as Hpk.
  destruct (Z_le_gt_dec e ek) as [Hle | Hgt].
  - assert (2 ^ ek = 2 ^ (ek - e) * 2 ^ e) as ->.
    { rewrite <- pow2_split by lia. f_equal. lia. }
    pose proof (pow2_pos (ek - e) ltac:(lia)).
    destruct (Z_le_gt_dec (mk * 2 ^ (ek - e)) m0); [left | right]; nia.
  - left. destruct quotient_range as [_ H52]. specialize (H52 ltac:(lia)).
    assert (2 ^ e = 2 ^ (e - ek) * 2 ^ ek) as ->.
    { rewrite <- pow2_split by lia. f_equal. lia. }
    assert (2 <= 2 ^ (e - ek)).
    { change 2 with (2 ^ 1) at 1. apply pow2_le. lia. }
    assert (2 ^ 53 = 2 * 2 ^ 52) as P by reflexivity.
    assert (mk < 2 * 2 ^ 52) by lia.
    assert (mk <= m0 * 2 ^ (e - ek)) as Hmk.
    { apply Z.le_trans with (m0 * 2); [lia|].
      apply Z.mul_le_mono_nonneg_l; lia. }
    rewrite Z.mul_assoc. apply Z.mul_le_mono_nonneg_r; lia.
Qed.

Lemma rounded_nearest (k : Z) :
  unit_multiple k -> Z.abs (m * 2 ^ e * b - n) <= Z.abs (k * b - n).
Proof.
  intros Hk. destruct quotient_remainder as [Hn Hr].
  pose proof (pow2_pos e (proj1 exponent_range)) as Hpe.
  destruct (no_float_between k Hk) as [Hlow | Hup];
    destruct rounded_cases as [(-> & H1 & _) | (-> & H1 & _)]; nia.
Qed.

Lemma rounded_tie_even (k : Z) :
  unit_multiple k -> k <> m * 2 ^ e ->
  Z.abs (k * b - n) = Z.abs (m * 2 ^ e * b - n) ->
  Z.even m = true.
Proof.
  intros Hk Hne Heq. destruct quotient_remainder as [Hn Hr].
  pose proof (pow2_pos e (proj1 exponent_range)) as Hpe.
  destruct (no_float_between k Hk) as [Hlow | Hup];
    destruct rounded_cases as [(Hm & H1 & H2) | (Hm & H1 & H2)]; rewrite Hm in *.
  - exfalso. nia.
  - assert (2 * r = d) as Ht by nia.
    rewrite Z.even_add, (H2 Ht). reflexivity.
  - assert (2 * r = d) as Ht by nia. exact (H2 Ht).
  - exfalso. nia.
Qed.

Lemma rounded_range : 0 <= m <= 2 ^ 53 /\ (0 < e -> 2 ^ 52 <= m).
Proof.
  destruct quotient_range as [H1 H2].
  destruct rounded_cases as [(-> & _) | (-> & _)]; split; try lia;
    intros He; specialize (H2 He); lia.
Qed.

Lemma rounded_is_float : unit_multiple (m * 2 ^ e).
Proof.
  destruct rounded_range as [[H0 H1] _]. pose proof exponent_range.
  destruct (Z.eq_dec m (2 ^ 53)) as [E | E].
  - exists (2 ^ 52), (e + 1). split; [cbn; lia|]. split; [lia|].
    rewrite E, pow2_split by lia. cbn. lia.
  - exists m, e. split; [lia|]. split; [lia | reflexivity].
Qed.

Lemma rounding_summary :
  unit_multiple (m * 2 ^ e)
  /\ (forall k, unit_multiple k -> Z.abs (m * 2 ^ e * b - n) <= Z.abs (k * b - n))
  /\ (forall k, unit_multiple k -> k <> m * 2 ^ e ->
        Z.abs (k * b - n) = Z.abs (m * 2 ^ e * b - n) -> Z.even m = true)
  /\ 0 <= m <= 2 ^ 53 /\ (0 < e -> 2 ^ 52 <= m) /\ 0 <= e <= 1022.
Proof.
  split; [exact rounded_is_float|]. split; [exact rounded_nearest|].
  split; [exact rounded_tie_even|]. destruct rounded_range as [H1 H2].
  split; [exact H1|]. split; [exact H2 | exact exponent_range].
Qed.

End Rounding.

Local Open Scope Q_scope.

Lemma unit_den_pos : Z.pos unit_den = (2 ^ 1074)%Z.
Proof. unfold unit_den. apply Z2Pos.id. now apply pow2_pos. Qed.

(** A multiple [m * 2^e] of the unit is the float [m * 2^(e - 1074)]. *)
Lemma units_value (m e : Z) :
  (0 <= e <= 2045)%Z ->
  (m * 2 ^ e)%Z # unit_den == inject_Z m * pow2 (e - 1074).
Proof.
  intros He. unfold pow2, Qeq.
  destruct (0 <=? e - 1074)%Z eqn:E.
  - apply Z.leb_le in E. cbn [Qnum Qden Qmult inject_Z].
    rewrite unit_den_pos.
    replace (2 ^ e)%Z with (2 ^ (e - 1074) * 2 ^ 1074)%Z
      by (rewrite <- pow2_split by lia; f_equal; lia).
    cbn [Pos.mul]. lia.
  - apply Z.leb_gt in E. cbn [Qnum Qden Qmult inject_Z].
    rewrite unit_den_pos. rewrite Pos.mul_1_l.
    rewrite Z2Pos.id by (apply pow2_pos; lia).
    replace (2 ^ 1074)%Z with (2 ^ e * 2 ^ (- (e - 1074)))%Z
      by (rewrite <- pow2_split by lia; f_equal; lia).
    lia.
Qed.

Lemma binary64_units (y : Q) :
  binary64 y -> exists k, unit_multiple k /\ y == k # unit_den.
Proof.
  intros (m & e & Hm & He & Hy).
  exists (m * 2 ^ (e + 1074))%Z. split.
  - exists m, (e + 1074)%Z. split; [exact Hm|]. split; [lia | reflexivity].
  - rewrite Hy, units_value by lia.
    now replace (e + 1074 - 1074)%Z with e by lia.
Qed.

Lemma units_binary64 (k : Z) : unit_multiple k -> binary64 (k # unit_den).
Proof.
  intros (m & e & Hm & He & ->). exists m, (e - 1074)%Z.
  split; [exact Hm|]. split; [lia|]. now apply units_value.
Qed.

(** The distance of a multiple of the unit from [a / b], over the common
    denominator. *)
Lemma units_distance (k a : Z) (b : positive) :
  Qabs ((k # unit_den) - inject_Z a / inject_Z (Z.pos b))
  == Z.abs (k * Z.pos b - a * 2 ^ 1074) # (unit_den * b).
Proof.
  assert ((k # unit_den) - inject_Z a / inject_Z (Z.pos b)
          == (k * Z.pos b - a * 2 ^ 1074)%Z # (unit_den * b)) as ->.
  { unfold Qeq, Qminus, Qplus, Qopp, Qdiv, Qmult, Qinv, inject_Z.
    cbn [Qnum Qden]. rewrite <- unit_den_pos.
    rewrite !Pos2Z.inj_mul. ring. }
  reflexivity.
Qed.

Lemma same_den_le (x y : Z) (p : positive) : x # p <= y # p <-> (x <= y)%Z.
Proof. unfold Qle. cbn [Qnum Qden]. split; intros H; nia. Qed.

Lemma same_den_eq (x y : Z) (p : positive) : x # p == y # p <-> x = y.
Proof. unfold Qeq. cbn [Qnum Qden]. split; intros H; nia. Qed.

(** Python's quotient of two ints is the float nearest to their exact
    quotient, a tie going to the even significand. *)
Lemma int_truediv_rounds (a b : Z) :
  (0 <= a <= b)%Z -> (0 < b)%Z ->
  rounds_to (inject_Z a / inject_Z b) (int_truediv a b).
Proof.
  intros Ha Hb.
  destruct (rounding_summary a b _ _ _ _ _ _ Ha Hb eq_refl eq_refl eq_refl
              eq_refl eq_refl eq_refl) as (Hr & Hn & Ht & Hm & H52 & He).
  destruct b as [|b|b]; try lia.
  unfold int_truediv, nearest_units. fold unit_den.
  set (n := (a * 2 ^ 1074)%Z) in *.
  set (e := Z.max (Z.log2 (n / Z.pos b) - 52) 0) in *.
  set (m := round_half_even n (Z.pos b * 2 ^ e)) in *.
  split; [|split].
  - now apply units_binary64.
  - intros y Hy. apply binary64_units in Hy as (k & Hk & Ey).
    rewrite Ey, !units_distance. apply same_den_le. now apply Hn.
  - intros y Hy Hne Hd. apply binary64_units in Hy as (k & Hk & Ey).
    rewrite Ey in Hne, Hd. rewrite !units_distance in Hd.
    apply same_den_eq in Hd.
    assert (k <> (m * 2 ^ e)%Z) as Hk' by (intros ->; now apply Hne).
    specialize (Ht k Hk Hk' Hd).
    destruct (Z.eq_dec m (2 ^ 53)%Z) as [E | E].
    + exists (2 ^ 52)%Z, (e + 1 - 1074)%Z.
      split; [reflexivity|]. split; [lia|]. split; [left; cbn; lia|].
      rewrite <- units_value by lia. apply same_den_eq.
      rewrite E, pow2_split by lia. cbn. lia.
    + exists m, (e - 1074)%Z. split; [exact Ht|]. split; [lia|].
      split.
      * rewrite Z.abs_eq by lia.
        destruct (Z_le_gt_dec (2 ^ 52)%Z m); [left; lia | right].
        split; [|lia]. destruct (Z.eq_dec e 0%Z); [lia|].
        specialize (H52 ltac:(lia)). lia.
      * apply units_value. lia.
Qed.

(** A float that does not exceed the exact quotient does not exceed the
    rounded one. *)
Lemma rounds_to_above (q x y : Q) :
  rounds_to q x -> binary64 y -> y <= q -> y <= x.
Proof.
  intros (_ & Hn & _) Hy Hle. specialize (Hn y Hy).
  destruct (Qlt_le_dec x y) as [Hlt | Hge]; [|exact Hge].
  exfalso. rewrite (Qabs_neg (x - q)) in Hn by lra.
  rewrite (Qabs_neg (y - q)) in Hn by lra. lra.
Qed.


End FloatFacts.

(** ** [ChatUtils] *)

Module UtilsFacts.

Import Utils UtilsSpec FloatSpec PyFacts.

(** *** The relevance filter *)

Lemma ge_float_score (score_field : string) (doc : Document) (min_score : Q)
  (b : bool) :
  ge_float (default (PInt 0) (metadata doc !! score_field)) min_score = Ok b ->
  exists x, score_of score_field doc = Some x /\ b = Qle_bool min_score x.
Proof.
  unfold score_of.
  destruct (default (PInt 0) (metadata doc !! score_field)); cbn;
    intros [= <-]; eauto.
Qed.

Lemma score_ge_float (score_field : string) (doc : Document) (min_score x : Q) :
  score_of score_field doc = Some x ->
  ge_float (default (PInt 0) (metadata doc !! score_field)) min_score
  = Ok (Qle_bool min_score x).
Proof.
  unfold score_of.
  destruct (default (PInt 0) (metadata doc !! score_field)); cbn;
    intros [= <-]; reflexivity.
Qed.

Lemma filter_scored_In (score_field : string) (min_score : Q)
  (docs kept : list Document) (doc : Document) :
  filter_scored score_field min_score docs = Ok kept ->
  In doc kept <->
  In doc docs /\ exists x, score_of score_field doc = Some x
                          /\ (min_score <= x)%Q.
Proof.
  revert kept. induction docs as [|d docs IH]; intros kept; cbn.
  - intros [= <-]. cbn. tauto.
  - destruct (ge_float _ min_score) as [b|e] eqn:E; [|discriminate].
    destruct (filter_scored score_field min_score docs) as [k|e] eqn:Ek;
      [|discriminate].
    cbn. intros [= <-]. specialize (IH k eq_refl).
    apply ge_float_score in E as (x & Hx & ->).
    destruct (Qle_bool min_score x) eqn:Hle.
    + cbn. rewrite IH. split.
      * intros [<- | H]; [|tauto]. split; [now left|].
        exists x. split; [exact Hx | now apply Qle_bool_iff].
      * intros [[<- | H] H']; [now left | right; tauto].
    + rewrite IH. split; [tauto|].
      intros [[<- | H] H']; [|tauto].
      destruct H' as (y & Hy & Hle'). rewrite Hx in Hy. injection Hy as <-.
      apply Qle_bool_iff in Hle'. congruence.
Qed.

Lemma filter_scored_total (score_field : string) (min_score : Q)
  (docs : list Document) :
  numeric_scores score_field docs ->
  exists kept, filter_scored score_field min_score docs = Ok kept.
Proof.
  induction 1 as [|d docs [x Hx] _ [k Hk]]; cbn; [eauto|].
  rewrite (score_ge_float _ _ min_score _ Hx), Hk. cbn. eauto.
Qed.

Lemma matched_terms_spec (terms : gset string) (content term : string) :
  term ∈ matched_terms terms content <->
  term ∈ terms /\ exists pre post, content = pre +:+ term +:+ post.
Proof.
  unfold matched_terms. rewrite elem_of_filter, Is_true_true.
  split; intros [H1 H2]; (split; [|assumption || idtac]);
    try assumption; now apply contains_spec.
Qed.

(** The number of elements of a set, counted on a list without
    repetition that enumerates it. *)
Lemma size_enumerated (X : gset string) (l : list string) :
  NoDup l -> (forall x, In x l <-> x ∈ X) -> size X = List.length l.
Proof.
  intros Hl Hx. rewrite <- (size_list_to_set (C := gset string) l Hl).
  f_equal. apply set_eq. intros x.
  now rewrite elem_of_list_to_set, list_elem_of_In, Hx.
Qed.

Lemma overlap_ratio_counted (query content : string)
  (terms present : list string) :
  NoDup terms -> (forall t, In t terms <-> In t (split (lower query))) ->
  NoDup present ->
  (forall t, In t present <-> In t terms /\ occurs_in t content) ->
  overlap_ratio (query_terms query) content
  = PyFloat.int_truediv (Z.of_nat (List.length present))
      (Z.of_nat (Nat.max 1 (List.length terms)))
  /\ (List.length present <= Nat.max 1 (List.length terms))%nat.
Proof.
  intros Ht Hterms Hp Hpresent.
  assert (forall t, In t terms <-> t ∈ query_terms query) as Hq.
  { intros t. unfold query_terms.
    now rewrite elem_of_list_to_set, list_elem_of_In, Hterms. }
  assert (size (query_terms query) = List.length terms) as E1
    by now apply size_enumerated.
  assert (matches (query_terms query) content = List.length present) as E2.
  { apply size_enumerated; [exact Hp|]. intros t.
    rewrite matched_terms_spec, Hpresent, Hq. reflexivity. }
  unfold overlap_ratio. rewrite E1, E2. split; [reflexivity|].
  assert (List.length present <= List.length terms)%nat; [|lia].
  apply NoDup_incl_length.
  - now apply NoDup_ListNoDup.
  - intros t Hin. now apply Hpresent in Hin.
Qed.

(** C3, as amended.  When the first document's metadata has no score
    field, the filter judges each document by the distinct lower-cased
    query terms that occur in its lower-cased text as substrings: their
    number is divided by [max(1, number of distinct terms)] as Python
    divides, the quotient being the float nearest to the exact fraction,
    and the document is kept exactly when that float is at least
    [min_score].  So a document is kept whenever the exact fraction is at
    least a [min_score] that is a float.  When the first document
    declares a score, a document is kept exactly when its score (0 if it
    has none) is at least [min_score], so that documents below the
    minimum are dropped; the filter returns whenever no score is a
    string. *)
Theorem filter_by_relevance_modes (first : Document) (rest : list Document)
  (query : string) (min_score : Q) (score_field : string) :
  let docs := first :: rest in
  let result :=
    filter_documents_by_relevance docs query min_score score_field in
  (metadata first !! score_field = None ->
   exists kept, result = Ok kept
     /\ (forall doc, In doc kept -> In doc docs)
     /\ forall doc (terms present : list string),
          In doc docs ->
          NoDup terms ->
          (forall t, In t terms <-> In t (split (lower query))) ->
          NoDup present ->
          (forall t, In t present <->
             In t terms /\ occurs_in t (lower (page_content doc))) ->
          let ratio :=
            PyFloat.int_truediv (Z.of_nat (List.length present))
              (Z.of_nat (Nat.max 1 (List.length terms))) in
          rounds_to (fraction (List.length present) (List.length terms))
            ratio
          /\ (In doc kept <-> (min_score <= ratio)%Q)
          /\ (binary64 min_score ->
              (min_score
               <= fraction (List.length present) (List.length terms))%Q ->
              In doc kept))
  /\ (is_Some (metadata first !! score_field) ->
      (forall kept, result = Ok kept ->
         forall doc, In doc kept <->
           In doc docs /\ exists x, score_of score_field doc = Some x
                                   /\ (min_score <= x)%Q)
      /\ (numeric_scores score_field docs -> exists kept, result = Ok kept)).
Proof.
  cbv zeta. unfold filter_documents_by_relevance. split.
  - intros ->. eexists. split; [reflexivity|]. split.
    + intros doc Hin. now apply filter_In in Hin.
    + intros doc terms present Hin Ht Hterms Hp Hpresent.
      destruct (overlap_ratio_counted query (lower (page_content doc))
                  terms present Ht Hterms Hp Hpresent) as [Hr Hle].
      assert (rounds_to (fraction (List.length present) (List.length terms))
                (PyFloat.int_truediv (Z.of_nat (List.length present))
                   (Z.of_nat (Nat.max 1 (List.length terms))))) as Hround.
      { apply FloatFacts.int_truediv_rounds; lia. }
      assert (In doc (List.filter (lexical_keep query min_score)
                        (first :: rest))
              <-> (min_score
                   <= PyFloat.int_truediv (Z.of_nat (List.length present))
                        (Z.of_nat (Nat.max 1 (List.length terms))))%Q)
        as Hkeep.
      { rewrite filter_In. unfold lexical_keep.
        rewrite Hr, Qle_bool_iff. tauto. }
      split; [exact Hround|]. split; [exact Hkeep|].
      intros Hb Hq. apply Hkeep.
      exact (FloatFacts.rounds_to_above _ _ _ Hround Hb Hq).
  - intros [v ->]. split.
    + intros kept H doc. now apply filter_scored_In.
    + apply filter_scored_total.
Qed.

(** C10.  The mode is chosen from the first document alone.  In the
    score-based mode with a positive [min_score], a document without the
    score field counts as scored 0 and is dropped whatever its text. *)
Theorem scored_mode_drops_unscored (first : Document) (rest : list Document)
  (query : string) (min_score : Q) (score_field : string) :
  let docs := first :: rest in
  let result :=
    filter_documents_by_relevance docs query min_score score_field in
  (metadata first !! score_field = None ->
   result = Ok (List.filter (lexical_keep query min_score) docs))
  /\ (is_Some (metadata first !! score_field) ->
      result = filter_scored score_field min_score docs
      /\ ((0 < min_score)%Q ->
          forall doc, metadata doc !! score_field = None ->
            score_of score_field doc = Some 0%Q
            /\ forall kept, result = Ok kept -> ~ In doc kept)
      /\ (numeric_scores score_field docs -> exists kept, result = Ok kept)).
Proof.
  cbv zeta. unfold filter_documents_by_relevance. split.
  - intros ->. reflexivity.
  - intros [v ->]. split; [reflexivity|]. split.
    + intros Hpos doc Hnone.
      assert (score_of score_field doc = Some 0%Q) as Hs
        by (unfold score_of; rewrite Hnone; reflexivity).
      split; [exact Hs|]. intros kept Hk Hin.
      apply (filter_scored_In _ _ _ _ doc Hk) in Hin as (_ & x & Hx & Hle).
      rewrite Hs in Hx. injection Hx as <-.
      exact (Qlt_not_le _ _ Hpos Hle).
    + apply filter_scored_total.
Qed.

(** *** Response formatting *)

Lemma mentions_disclaimer_check (response : string) :
  contains "disclaimer" (lower response) = true <->
  mentions_disclaimer response.
Proof. apply contains_lower_spec. Qed.

Lemma truncate_short (response : string) (max_length : Z) :
  (Z.of_nat (String.length response) <= max_length)%Z ->
  truncate response max_length = response.
Proof.
  intros H. unfold truncate.
  destruct (max_length <? _)%Z eqn:E; [lia | reflexivity].
Qed.

(** C7.  With disclaimers enabled, an answer that already contains
    "disclaimer" in some letter case is returned as it would be with
    disclaimers disabled: nothing is appended, and only the length limit
    applies.  A disclaimer is appended exactly when the answer does not
    contain the word. *)
Theorem format_response_single_disclaimer (response : string)
  (max_length : Z) (domain : string) :
  (mentions_disclaimer response ->
   format_response response max_length true domain
   = format_response response max_length false domain
   /\ format_response response max_length true domain
     = truncate response max_length
   /\ ((Z.of_nat (String.length response) <= max_length)%Z ->
       format_response response max_length true domain = response))
  /\ (~ mentions_disclaimer response ->
      format_response response max_length true domain
      = truncate (with_disclaimer response domain) max_length).
Proof.
  unfold format_response, with_disclaimer. split.
  - intros H. apply mentions_disclaimer_check in H. rewrite H. cbn.
    repeat split. apply truncate_short.
  - intros H.
    destruct (contains "disclaimer" (lower response)) eqn:E.
    + apply mentions_disclaimer_check in E. contradiction.
    + reflexivity.
Qed.

(** C9.  Let the response be longer than [max_length] and let no
    disclaimer be appended.  If the first [max_length] characters contain
    no period, the whole response is returned with the truncation note
    appended, and is therefore longer than [max_length].  Whenever
    something else is returned, a period occurs among those characters,
    at an index [p > 0], and the result is the response cut after it. *)
Theorem format_response_truncation (response : string) (max_length : Z)
  (include_disclaimer : bool) (domain : string) :
  include_disclaimer = false
  \/ contains "disclaimer" (lower response) = true ->
  (max_length < Z.of_nat (String.length response))%Z ->
  let out := format_response response max_length include_disclaimer domain in
  (contains "." (slice_to response max_length) = false ->
   out = response +:+ truncation_note
   /\ (max_length < Z.of_nat (String.length out))%Z)
  /\ (out <> response +:+ truncation_note ->
      contains "." (slice_to response max_length) = true
      /\ exists p : nat,
          (0 < p)%nat
          /\ (S p <= String.length (slice_to response max_length))%nat
          /\ String.get p (slice_to response max_length) = Some "."%char
          /\ String.get p response = Some "."%char
          /\ out = take (S p) response +:+ truncation_note).
Proof.
  intros Hno Hlong. cbv zeta.
  assert (format_response response max_length include_disclaimer domain
          = truncate response max_length) as ->.
  { unfold format_response. destruct Hno as [-> | ->]; [reflexivity|].
    now rewrite andb_false_r. }
  unfold truncate.
  destruct (max_length <? Z.of_nat (String.length response))%Z eqn:E; [|lia].
  split.
  - intros Habs. rewrite (rfind_absent _ _ Habs). cbn [Z.ltb Z.compare].
    split; [reflexivity|]. rewrite length_app. lia.
  - set (prefix := slice_to response max_length).
    destruct (0 <? rfind "." prefix)%Z eqn:Hp; [|congruence].
    intros _. apply Z.ltb_lt in Hp.
    split.
    + destruct (contains "." prefix) eqn:Hc; [reflexivity|].
      rewrite (rfind_absent _ _ Hc) in Hp. lia.
    + exists (Z.to_nat (rfind "." prefix)).
      destruct (rfind_range "." prefix) as [Hr | Hr]; [lia|].
      assert (String.get (Z.to_nat (rfind "." prefix)) prefix = Some "."%char)
        as Hget by (apply rfind_get; lia).
      repeat split; try lia.
      * exact Hget.
      * exact (get_take _ _ _ _ Hget).
      * rewrite slice_to_nonneg by lia. do 2 f_equal. lia.
Qed.

(** C7 at an answer that carries its own disclaimer and at one that does
    not. *)
Lemma format_response_single_disclaimer_witness :
  format_response "See the DISCLAIMER below." 2000 true "general"
  = "See the DISCLAIMER below."
  /\ format_response "Rest well." 2000 true "legal"
     = with_disclaimer "Rest well." "legal".
Proof.
  split.
  - destruct (format_response_single_disclaimer
                "See the DISCLAIMER below." 2000 "general") as [H _].
    destruct H as (_ & _ & H).
    + exists "See the ", "DISCLAIMER", " below.". split; reflexivity.
    + apply H. vm_compute. discriminate.
  - destruct (format_response_single_disclaimer "Rest well." 2000 "legal")
      as [_ H].
    rewrite H.
    + vm_compute. reflexivity.
    + intros Hm. apply mentions_disclaimer_check in Hm. discriminate Hm.
Defined.

(** C9 at a response without a period and at one with a period among its
    first ten characters. *)
Lemma format_response_truncation_witness :
  format_response "Hello World is big" 10 false "general"
  = "Hello World is big [response truncated]"
  /\ exists p : nat,
      format_response "Hello. World is big" 10 false "general"
      = take (S p) "Hello. World is big" +:+ truncation_note.
Proof.
  split.
  - destruct (format_response_truncation "Hello World is big" 10 false
                "general" (or_introl eq_refl) eq_refl) as [H _].
    destruct H as [H _]; [vm_compute; reflexivity|]. exact H.
  - destruct (format_response_truncation "Hello. World is big" 10 false
                "general" (or_introl eq_refl) eq_refl) as [_ H].
    destruct H as (_ & p & _ & _ & _ & _ & H); [vm_compute; discriminate|].
    exists p. exact H.
Defined.

(** C3 as stated fails: "art" is no word of "A birthday party." but a
    substring of it, and the document is kept. *)
Lemma lexical_filter_keeps_substring_match :
  filter_documents_by_relevance [party_doc] "art" 0.65 "score"
  = Ok [party_doc]
  /\ whole_word_keep "art" 0.65 party_doc = false.
Proof. split; vm_compute; reflexivity. Qed.

(** One of five query terms occurs in the text.  The minimum is the
    float 0.2, which is above one fifth; the quotient is that same float,
    and the document is kept.  In the score-based mode the document
    scored 0.2 is dropped at the minimum 0.65. *)
Lemma filter_by_relevance_modes_witness :
  (exists kept,
     filter_documents_by_relevance [unscored_doc]
       "Heart attack warning signs today" float_0_2 "score" = Ok kept
     /\ In unscored_doc kept
     /\ ~ (float_0_2 <= fraction 1 5)%Q)
  /\ (exists kept,
        filter_documents_by_relevance [scored_doc; low_scored_doc]
          "heart disease" 0.65 "score" = Ok kept
        /\ In scored_doc kept /\ ~ In low_scored_doc kept).
Proof.
  split.
  - destruct (filter_by_relevance_modes unscored_doc []
                "Heart attack warning signs today" float_0_2 "score")
      as (H & _).
    destruct (H eq_refl) as (kept & Hk & _ & Hin). exists kept.
    split; [exact Hk|]. split.
    + destruct (Hin unscored_doc
                  ["heart"; "attack"; "warning"; "signs"; "today"] ["heart"])
        as (_ & Hkeep & _).
      * now left.
      * apply (bool_decide_unpack _). vm_compute. exact I.
      * intros t. reflexivity.
      * apply (bool_decide_unpack _). vm_compute. exact I.
      * intros t. split.
        -- intros [<- | []]. split; [now left|].
           now exists "", " disease symptoms.".
        -- intros [Ht Ho]. apply contains_spec in Ho.
           destruct Ht as [<- | [<- | [<- | [<- | [<- | []]]]]];
             first [now left | vm_compute in Ho; discriminate Ho].
      * apply Hkeep. apply Qle_bool_iff. vm_compute. reflexivity.
    + intros Hle. apply Qle_bool_iff in Hle. vm_compute in Hle.
      discriminate Hle.
  - destruct (filter_by_relevance_modes scored_doc [low_scored_doc]
                "heart disease" 0.65 "score") as (_ & H).
    destruct H as [Hin Htot]; [eexists; reflexivity|].
    destruct Htot as [kept Hk].
    { repeat constructor; eexists; reflexivity. }
    exists kept. split; [exact Hk|]. split.
    + apply (Hin kept Hk). split; [now left|].
      eexists. split; [reflexivity|]. apply Qle_bool_iff. reflexivity.
    + intros Hl. apply (Hin kept Hk) in Hl as (_ & x & [= <-] & Hle).
      apply Qle_bool_iff in Hle. discriminate Hle.
Defined.

Lemma scored_mode_drops_unscored_witness :
  exists kept,
    filter_documents_by_relevance [scored_doc; unscored_doc]
      "heart disease" 0.65 "score" = Ok kept
    /\ ~ In unscored_doc kept
    /\ lexical_keep "heart disease" 0.65 unscored_doc = true.
Proof.
  destruct (scored_mode_drops_unscored scored_doc [unscored_doc]
              "heart disease" 0.65 "score") as (_ & H).
  destruct H as (_ & Hdrop & Htot); [eexists; reflexivity|].
  destruct Htot as [kept Hk].
  { repeat constructor; eexists; reflexivity. }
  exists kept. split; [exact Hk|]. split.
  - apply (Hdrop eq_refl unscored_doc eq_refl). exact Hk.
  - vm_compute. reflexivity.
Defined.

End UtilsFacts.

(** ** [DocumentLoader._extract_section_header] *)

Module DocLoaderFacts.

Import DocLoader DocLoaderSpec PyFacts.

Lemma any_char_spec (p : ascii -> bool) (s : string) :
  any_char p s = true <-> exists c, char_in c s /\ p c = true.
Proof.
  unfold char_in. induction s as [|a s IH]; cbn.
  - split; [discriminate | intros (c & [] & _)].
  - rewrite orb_true_iff, IH. split.
    + intros [H | (c & Hc & H)]; [exists a | exists c]; auto.
    + intros (c & [<- | Hc] & H); [now left | right; eauto].
Qed.

Lemma isupper_fully_upper (line : string) :
  isupper line = true <-> fully_upper line.
Proof.
  unfold isupper, fully_upper.
  rewrite andb_true_iff, negb_true_iff, any_char_spec. split.
  - intros [Hl Hu]. split; [exact Hu|]. intros c Hc.
    destruct (islower_char c) eqn:E; [|reflexivity].
    assert (any_char islower_char line = true) as H by
      (apply any_char_spec; eauto).
    congruence.
  - intros [Hu Hl]. split; [|exact Hu].
    destruct (any_char islower_char line) eqn:E; [|reflexivity].
    apply any_char_spec in E as (c & Hc & E). rewrite (Hl c Hc) in E.
    discriminate E.
Qed.

Lemma is_header_qualifies (line : string) :
  is_header line = true <-> qualifies line.
Proof.
  unfold is_header, qualifies.
  rewrite !orb_true_iff, existsb_exists. split.
  - intros [[H | H] | (w & Hw & H)].
    + left. now apply isupper_fully_upper.
    + right. left. now apply endswith_spec.
    + right. right. exists w. split; [exact Hw|].
      now apply contains_lower_spec.
  - intros [H | [H | (w & Hw & H)]].
    + left; left. now apply isupper_fully_upper.
    + left. right. now apply endswith_spec.
    + right. exists w. split; [exact Hw|]. now apply contains_lower_spec.
Qed.

Lemma header_loop_first (ls : list string) (i : nat) (line : string) :
  map strip ls !! i = Some line ->
  is_header line = true ->
  (forall j l, (j < i)%nat -> map strip ls !! j = Some l ->
               is_header l = false) ->
  header_loop ls = line.
Proof.
  revert i. induction ls as [|x ls IH]; intros i; [discriminate|].
  destruct i as [|i]; cbn.
  - intros [= ->] -> _. reflexivity.
  - intros Hi Hh Hbefore.
    rewrite (Hbefore 0%nat (strip x)) by (cbn; auto with arith).
    apply (IH i Hi Hh). intros j l Hj. apply (Hbefore (S j)). lia.
Qed.

Lemma header_loop_none (ls : list string) :
  (forall line, In line (map strip ls) -> is_header line = false) ->
  header_loop ls = "".
Proof.
  induction ls as [|x ls IH]; cbn; [reflexivity|]. intros H.
  rewrite (H (strip x)) by now left. apply IH. intros; apply H; now right.
Qed.

(** C8.  The header is sought among the first three lines of the text,
    each stripped of surrounding whitespace.  The result is the first of
    them that qualifies: a line that is upper-case, ends with a colon or
    contains "section", "chapter" or "heading" in some letter case.  If
    none of them qualifies, the result is the empty string. *)
Theorem extract_section_header_spec (text : string) :
  (List.length (candidate_lines text) <= 3)%nat
  /\ (forall i line,
        candidate_lines text !! i = Some line ->
        qualifies line ->
        (forall j l, (j < i)%nat -> candidate_lines text !! j = Some l ->
                     ~ qualifies l) ->
        _extract_section_header text = line)
  /\ ((forall line, In line (candidate_lines text) -> ~ qualifies line) ->
      _extract_section_header text = "").
Proof.
  unfold _extract_section_header, candidate_lines.
  rewrite list_slice_to_nonneg by lia.
  change (Z.to_nat 3) with 3%nat.
  split; [|split].
  - rewrite length_map, length_firstn. lia.
  - intros i line Hi Hq Hbefore. apply (header_loop_first _ i); auto.
    + now apply is_header_qualifies.
    + intros j l Hj Hl. destruct (is_header l) eqn:E; [|reflexivity].
      apply is_header_qualifies in E. now destruct (Hbefore j l Hj Hl).
  - intros Hnone. apply header_loop_none. intros line Hin.
    destruct (is_header line) eqn:E; [|reflexivity].
    apply is_header_qualifies in E. now destruct (Hnone line Hin).
Qed.

(** Four texts, one for each way to qualify and one for the bound: a
    second line that ends with a colon; a first line that holds "Chapter";
    an upper-case second line, stripped; a keyword on the fourth line,
    which is not seen. *)
Lemma extract_section_header_spec_witness :
  _extract_section_header
    (text_of_lines [" intro"; "  Results:  "; "x"]) = "Results:"
  /\ _extract_section_header
       (text_of_lines ["Chapter 5 introduction"; "Results:"])
     = "Chapter 5 introduction"
  /\ _extract_section_header
       (text_of_lines ["see below"; "  RESULTS 2023 "; "Heading"])
     = "RESULTS 2023"
  /\ _extract_section_header
       (text_of_lines ["a"; "b"; "c"; "SECTION 2"]) = "".
Proof.
  split; [|split; [|split]].
  - destruct (extract_section_header_spec
                (text_of_lines [" intro"; "  Results:  "; "x"]))
      as (_ & H & _).
    apply (H 1%nat).
    + reflexivity.
    + right. left. now exists "Results".
    + intros j l Hj Hl. assert (j = 0%nat) as -> by lia.
      injection Hl as <-. intros Hq. apply is_header_qualifies in Hq.
      discriminate Hq.
  - destruct (extract_section_header_spec
                (text_of_lines ["Chapter 5 introduction"; "Results:"]))
      as (_ & H & _).
    apply (H 0%nat).
    + reflexivity.
    + right. right. exists "chapter". split; [cbn; tauto|].
      now exists "", "Chapter", " 5 introduction".
    + intros j l Hj. lia.
  - destruct (extract_section_header_spec
                (text_of_lines ["see below"; "  RESULTS 2023 "; "Heading"]))
      as (_ & H & _).
    apply (H 1%nat).
    + reflexivity.
    + left. split.
      * exists "R"%char. split; [cbn; tauto | reflexivity].
      * intros c Hc. cbn in Hc.
        repeat (destruct Hc as [<- | Hc]; [reflexivity|]). destruct Hc.
    + intros j l Hj Hl. assert (j = 0%nat) as -> by lia.
      injection Hl as <-. intros Hq. apply is_header_qualifies in Hq.
      discriminate Hq.
  - destruct (extract_section_header_spec
                (text_of_lines ["a"; "b"; "c"; "SECTION 2"]))
      as (_ & _ & H).
    apply H. intros line Hin Hq. apply is_header_qualifies in Hq.
    vm_compute in Hin.
    repeat (destruct Hin as [<- | Hin]; [discriminate Hq|]). destruct Hin.
Defined.

End DocLoaderFacts.

(** ** [RetrievalChain.get_retriever] *)

Module RetrievalChainFacts.

Import RetrievalChain RetrievalChainSpec.

Section GetRetriever.

Variables VectorStore Retriever : Type.
Variable as_retriever :
  VectorStore -> string -> gmap string kwarg -> result Retriever.

(** C4, as amended.  The threshold strategy without a threshold is
    refused with the [ValueError] (the specification's validation error)
    that names the missing argument.  With a threshold, of whatever type,
    [get_retriever] raises nothing of its own: the outcome is that of the
    library's [as_retriever], called with the strategy and with [k] and
    the threshold as given among the search arguments.  The retriever is
    built exactly when that call succeeds. *)
Theorem threshold_strategy_needs_threshold (vectorstore : VectorStore)
  (k : Z) (filter_criteria : option (gmap string pyval))
  (fetch_k : option Z) :
  get_retriever VectorStore Retriever as_retriever vectorstore k
    "similarity_score_threshold" None filter_criteria fetch_k
  = Raise (ValueError
      "score_threshold is required for similarity_score_threshold")
  /\ forall t : pyval, exists search_kwargs,
      get_retriever VectorStore Retriever as_retriever vectorstore k
        "similarity_score_threshold" (Some t) filter_criteria fetch_k
      = as_retriever vectorstore "similarity_score_threshold" search_kwargs
      /\ search_kwargs !! "k" = Some (KVal (PInt k))
      /\ search_kwargs !! "score_threshold" = Some (KVal t)
      /\ search_kwargs !! "fetch_k" = None.
Proof.
  split; [reflexivity|]. intros t. unfold get_retriever.
  change (negb (mem "similarity_score_threshold" valid_search_types))
    with false.
  change (String.eqb "similarity_score_threshold" "mmr") with false.
  cbv iota.
  replace (String.eqb _ _ && negb (bool_decide (is_Some (Some t))))
    with false by (rewrite bool_decide_true; [reflexivity | eauto]).
  cbv iota zeta.
  destruct filter_criteria as [f|]; [destruct (0 <? size f)%nat|];
    destruct fetch_k; eexists; (split; [reflexivity|]).
  all: repeat split; reflexivity.
Qed.

End GetRetriever.

(** C4 as stated fails: with the threshold 1, an [int], supplied, the
    call passes the checks of [get_retriever] and is refused by a
    retriever that demands a [float]; with the threshold 0.5 the same
    retriever is built. *)
Lemma threshold_supplied_yet_refused :
  get_retriever unit retriever validating_as_retriever tt 7
    "similarity_score_threshold" (Some (PInt 1)) None None
  = Raise (ValueError
      "`score_threshold` is not specified with a float value(0~1) in `search_kwargs`.")
  /\ exists built,
       get_retriever unit retriever validating_as_retriever tt 7
         "similarity_score_threshold" (Some (PFloat 0.5)) None None
       = Ok built.
Proof. split; [reflexivity | eexists; reflexivity]. Qed.

End RetrievalChainFacts.

(** ** [VectorDB.create_from_documents] *)

Module VectorDBFacts.

Import VectorDB.

Section Store.

Variables FAISS Embeddings : Type.
Variable from_documents : list Utils.Document -> Embeddings -> FAISS.
Variable doc_count : FAISS -> nat.

(** C5.  With no documents the call raises the [ValueError] of the empty
    corpus (the specification's [EmptyCorpusError]): no store is returned
    and the disk is untouched.  With at least one document that branch is
    not taken, and the store built from the documents is returned. *)
Theorem create_from_documents_empty_corpus
  (self : VectorDB Embeddings) (save_dir : option string)
  (d : disk FAISS) :
  create_from_documents FAISS Embeddings from_documents doc_count
    self [] save_dir d
  = (Raise (ValueError "No documents provided for vectorstore creation"), d)
  /\ forall doc docs, exists d',
      create_from_documents FAISS Embeddings from_documents doc_count
        self (doc :: docs) save_dir d
      = (Ok (from_documents (doc :: docs) (embedding_model _ self)), d').
Proof.
  split; [reflexivity|]. intros doc docs. unfold create_from_documents.
  destruct save_dir as [dir|]; [destruct (Citation.nonempty dir)|];
    eexists; reflexivity.
Qed.

End Store.

End VectorDBFacts.

(** ** More facts about the string primitives *)

Module PyWords.

Import PyFacts Footnotes.

#[local] Arguments String.append !_ _ /.

Lemma is_word_cons (c : ascii) (w : string) :
  isspace c = false -> any_char isspace w = false -> is_word (String c w).
Proof. intros Hc Hw. split; [discriminate|]. cbn. now rewrite Hc. Qed.

(** [split] yields words. *)
Lemma split_words (s : string) : Forall is_word (split s).
Proof.
  induction s as [|c s IH]; cbn [split]; [constructor|].
  destruct (isspace c) eqn:Hc; [exact IH|].
  destruct s as [|c' s'].
  - constructor; [|constructor]. now apply is_word_cons.
  - destruct (isspace c') eqn:Hc'.
    + constructor; [now apply is_word_cons | exact IH].
    + destruct (split (String c' s')) as [|w ws].
      * constructor; [now apply is_word_cons | constructor].
      * apply Forall_cons in IH as [[_ Hw] Hws].
        constructor; [now apply is_word_cons | exact Hws].
Qed.

Lemma split_space (c : ascii) (s : string) :
  isspace c = true -> split (String c s) = split s.
Proof. intros H. cbn [split]. now rewrite H. Qed.

(** A word followed by whitespace is split off. *)
Lemma split_word_space (w : string) (c : ascii) (s : string) :
  is_word w -> isspace c = true ->
  split (w +:+ String c s) = w :: split s.
Proof.
  intros [Hne Hw] Hc. induction w as [|a w IH]; [congruence|].
  cbn in Hw. apply orb_false_iff in Hw as [Ha Hw].
  simpl String.append. cbn [split]. rewrite Ha.
  destruct w as [|a' w'].
  - simpl. now rewrite Hc.
  - simpl String.append in *. cbn in Hw.
    apply orb_false_iff in Hw as [Ha' Hw']. rewrite Ha'.
    rewrite IH; [reflexivity | discriminate | cbn; now rewrite Ha'].
Qed.

(** A word alone is its own split. *)
Lemma split_word (w : string) : is_word w -> split w = [w].
Proof.
  intros [Hne Hw]. induction w as [|a w IH]; [congruence|].
  cbn in Hw. apply orb_false_iff in Hw as [Ha Hw].
  cbn [split]. rewrite Ha. destruct w as [|a' w']; [reflexivity|].
  cbn in Hw. apply orb_false_iff in Hw as [Ha' Hw']. rewrite Ha'.
  rewrite IH; [reflexivity | discriminate | cbn; now rewrite Ha'].
Qed.

Lemma join_cons2 (sep x y : string) (l : list string) :
  join sep (x :: y :: l) = x +:+ sep +:+ join sep (y :: l).
Proof. reflexivity. Qed.

(** Splitting undoes joining words with single spaces. *)
Lemma split_join (ws : list string) :
  Forall is_word ws -> split (join " " ws) = ws.
Proof.
  induction ws as [|w ws IH]; [reflexivity|]. intros H.
  apply Forall_cons in H as [Hw Hws]. destruct ws as [|w' ws'].
  - now apply split_word.
  - rewrite join_cons2.
    change (" " +:+ join " " (w' :: ws'))
      with (String " " (join " " (w' :: ws'))).
    rewrite split_word_space by (auto; reflexivity). now rewrite IH.
Qed.


(** [lower] is idempotent, and leaves no upper-case character. *)
Lemma lower_char_idem (c : ascii) : lower_char (lower_char c) = lower_char c.
Proof. destruct c as [[] [] [] [] [] [] [] []]; reflexivity. Qed.

Lemma lower_idem (s : string) : lower (lower s) = lower s.
Proof.
  induction s as [|c s IH]; cbn; [reflexivity|].
  now rewrite lower_char_idem, IH.
Qed.

Lemma lower_char_not_upper (c : ascii) : isupper_char (lower_char c) = false.
Proof. destruct c as [[] [] [] [] [] [] [] []]; reflexivity. Qed.

Lemma lower_no_upper (s : string) : any_char isupper_char (lower s) = false.
Proof.
  induction s as [|c s IH]; cbn; [reflexivity|].
  now rewrite lower_char_not_upper, IH.
Qed.

Lemma any_char_app (p : ascii -> bool) (a b : string) :
  any_char p (a +:+ b) = any_char p a || any_char p b.
Proof.
  induction a as [|c a IH]; simpl; [reflexivity|].
  now rewrite IH, orb_assoc.
Qed.

Lemma contains_any_char (p : ascii -> bool) (sub s : string) :
  contains sub s = true -> any_char p sub = true -> any_char p s = true.
Proof.
  intros H Hp. apply contains_spec in H as (pre & post & ->).
  rewrite !any_char_app, Hp. now rewrite orb_true_r.
Qed.

Lemma length_take_min (n : nat) (s : string) :
  String.length (take n s) = Nat.min n (String.length s).
Proof.
  revert s. induction n as [|n IH]; intros [|c s]; simpl; auto.
Qed.

Lemma take_all (n : nat) (s : string) :
  (String.length s <= n)%nat -> take n s = s.
Proof.
  revert s. induction n as [|n IH]; intros [|c s]; simpl; intros H;
    try reflexivity; try lia.
  f_equal. apply IH. lia.
Qed.

End PyWords.

(** ** [GenericCitationFormatter], continued *)

Module CitationMoreFacts.

Import Citation CitationSpec CitationSpec2 Footnotes PyFacts PyWords.

Section WithFloatStr.

Variable fs : Q -> string.

Ltac step :=
  cbv beta iota zeta delta [mbind mret result_bind result_ret].

(** *** What a formatter reads *)

Ltac reads_only H :=
  unfold get, _extract_year, year_fields; cbn [extract_year_loop];
  repeat match goal with
         | |- context [?m !! ?k] =>
             lazymatch type of H with
             | agree_except _ m _ => rewrite (H k) by discriminate
             end
         end.

Lemma guideline_reads (key : string) (m m' : gmap string pyval) :
  key = "source_type" -> agree_except key m m' ->
  _format_guideline_citation fs m = _format_guideline_citation fs m'.
Proof.
  intros -> H. unfold _format_guideline_citation. reads_only H. reflexivity.
Qed.

Lemma educational_reads (key : string) (m m' : gmap string pyval) :
  key = "source_type" -> agree_except key m m' ->
  _format_educational_citation fs m = _format_educational_citation fs m'.
Proof.
  intros -> H. unfold _format_educational_citation. reads_only H.
  reflexivity.
Qed.

Lemma web_reads (key : string) (m m' : gmap string pyval) :
  key = "source_type" -> agree_except key m m' ->
  _format_web_citation fs m = _format_web_citation fs m'.
Proof.
  intros -> H. unfold _format_web_citation. reads_only H. reflexivity.
Qed.

Lemma default_reads (key : string) (m m' : gmap string pyval) :
  key = "source_type" -> agree_except key m m' ->
  _format_default_citation fs m = _format_default_citation fs m'.
Proof.
  intros -> H. unfold _format_default_citation. reads_only H. reflexivity.
Qed.

Lemma research_reads (key : string) (m m' : gmap string pyval) :
  key = "source_type" -> agree_except key m m' ->
  _format_research_citation fs m = _format_research_citation fs m'.
Proof.
  intros -> H. unfold _format_research_citation. reads_only H. reflexivity.
Qed.

(** X1.  The source type is matched without regard to letter case: two
    records that differ only in the letter case of [source_type] get the
    same citation. *)
Theorem format_citation_source_type_case (m : gmap string pyval)
  (s1 s2 : string) :
  lower s1 = lower s2 ->
  format_citation fs (<["source_type" := PStr s1]> m)
  = format_citation fs (<["source_type" := PStr s2]> m).
Proof.
  intros Hl. unfold format_citation, get.
  rewrite !lookup_insert_eq. cbn [default]. unfold id, str_method. step.
  rewrite Hl.
  assert (agree_except "source_type" (<["source_type" := PStr s1]> m)
            (<["source_type" := PStr s2]> m)) as H.
  { intros k Hk. now rewrite !lookup_insert_ne. }
  rewrite (guideline_reads _ _ _ eq_refl H), (research_reads _ _ _ eq_refl H),
    (educational_reads _ _ _ eq_refl H), (web_reads _ _ _ eq_refl H),
    (default_reads _ _ _ eq_refl H).
  reflexivity.
Qed.

(** X2.  In a research citation a DOI takes precedence: when [doi] is
    present and not empty, the [url] field is not read at all, so that
    the citation is the same whatever [url] holds, a number included. *)
Theorem research_citation_doi_precedence (m m' : gmap string pyval) :
  agree_except "url" m m' ->
  truthy (get m "doi" (PStr "")) = true ->
  _format_research_citation fs m = _format_research_citation fs m'.
Proof.
  intros H Hdoi. unfold _format_research_citation.
  assert (get m "doi" (PStr "") = get m' "doi" (PStr "")) as Hd
    by (unfold get; now rewrite (H "doi")).
  rewrite <- Hd, Hdoi.
  unfold get at 1 2 3 4 6 7 8 9, _extract_year, year_fields.
  cbn [extract_year_loop].
  rewrite (H "authors"), (H "journal"), (H "title") by discriminate.
  rewrite (H "year"), (H "publication_date"), (H "date"), (H "publish_date")
    by discriminate.
  cbv zeta. rewrite Hd. reflexivity.
Qed.

(** *** Shortening *)



(** X4.  For a non-negative bound the shortened URL never has more than
    [max_length + 3] characters: a URL within the bound is returned as it
    is, a longer one is cut to [max_length] characters and given an
    ellipsis (so that a URL one or two characters over the bound comes out
    longer than it went in). *)
Theorem shorten_url_bound (url : string) (max_length : Z) (r : string) :
  (0 <= max_length)%Z ->
  _shorten_url (PStr url) max_length = Ok r ->
  (Z.of_nat (String.length r) <= max_length + 3)%Z
  /\ ((Z.of_nat (String.length url) <= max_length)%Z -> r = url)
  /\ ((max_length < Z.of_nat (String.length url))%Z ->
      r = take (Z.to_nat max_length) url +:+ "..."
      /\ Z.of_nat (String.length r) = (max_length + 3)%Z).
Proof.
  intros Hn. unfold _shorten_url.
  destruct (max_length <? Z.of_nat (String.length url))%Z eqn:E.
  - apply Z.ltb_lt in E. intros [= <-].
    rewrite slice_to_nonneg by lia.
    assert (String.length (take (Z.to_nat max_length) url +:+ "...")
            = (Z.to_nat max_length + 3)%nat) as Hlen.
    { rewrite length_app, length_take_min. cbn. lia. }
    rewrite Hlen. repeat split; lia.
  - apply Z.ltb_ge in E. intros [= <-]. repeat split; lia.
Qed.

(** *** Footnotes *)

Lemma footnotes_loop_snoc (i : Z) (sources : list (gmap string pyval))
  (source : gmap string pyval) (acc : string) :
  footnotes_loop fs i (sources ++ [source]) acc
  = (footnotes ← footnotes_loop fs i sources acc;
     citation ← format_citation fs source;
     mret (footnotes
           +:+ footnote_line (i + Z.of_nat (List.length sources)) citation)).
Proof.
  revert i acc. induction sources as [|s sources IH]; intros i acc.
  - cbn [app footnotes_loop List.length]. step.
    replace (i + Z.of_nat 0)%Z with i by lia.
    destruct (format_citation fs source); reflexivity.
  - cbn [app footnotes_loop List.length]. step.
    destruct (format_citation fs s) as [c|e]; [|reflexivity].
    rewrite IH. step.
    replace (i + 1 + Z.of_nat (List.length sources))%Z
      with (i + Z.of_nat (S (List.length sources)))%Z by lia.
    reflexivity.
Qed.

Lemma footnotes_loop_total (i : Z) (sources : list (gmap string pyval))
  (acc : string) :
  (exists f, footnotes_loop fs i sources acc = Ok f)
  <-> all_citable fs sources.
Proof.
  unfold all_citable. revert i acc.
  induction sources as [|s sources IH]; intros i acc; cbn [footnotes_loop].
  - split; [constructor | eauto].
  - step. rewrite Forall_cons.
    destruct (format_citation fs s) as [c|e].
    + rewrite IH. split; [eauto | tauto].
    + split; [intros [f H]; discriminate H | intros [[c H] _]; discriminate H].
Qed.

(** X5.  The footnotes of a list are produced exactly when every source
    of the list can be cited: one source on which [format_citation]
    raises fails the whole list.  An empty list gives the empty string,
    without the references header. *)
Theorem footnotes_all_or_nothing (sources : list (gmap string pyval)) :
  ((exists f, generate_source_footnotes fs sources = Ok f)
   <-> all_citable fs sources)
  /\ generate_source_footnotes fs [] = Ok "".
Proof.
  split; [|reflexivity]. destruct sources as [|s sources].
  - split; [constructor | intros _; now exists ""].
  - apply footnotes_loop_total.
Qed.

(** X6.  Adding a source at the end of a non-empty list adds one line at
    the end of the footnotes, numbered with the new length of the list;
    the lines before it are unchanged. *)
Theorem footnotes_append (source0 : gmap string pyval)
  (sources : list (gmap string pyval)) (source : gmap string pyval) :
  generate_source_footnotes fs ((source0 :: sources) ++ [source])
  = (footnotes ← generate_source_footnotes fs (source0 :: sources);
     citation ← format_citation fs source;
     mret (footnotes
           +:+ footnote_line (Z.of_nat (List.length (source0 :: sources)) + 1)
                 citation)).
Proof.
  unfold generate_source_footnotes. cbn [app].
  change (source0 :: sources ++ [source])
    with ((source0 :: sources) ++ [source]).
  rewrite footnotes_loop_snoc.
  replace (1 + Z.of_nat (List.length (source0 :: sources)))%Z
    with (Z.of_nat (List.length (source0 :: sources)) + 1)%Z by lia.
  reflexivity.
Qed.

(** *** The year in the citation *)

Lemma occurs_here (s y : string) : occurs y (s +:+ " " +:+ y).
Proof.
  exists (s +:+ " "), "". now rewrite app_nil_r, app_assoc.
Qed.

Lemma occurs_app_l (y s t : string) : occurs y s -> occurs y (s +:+ t).
Proof.
  intros (pre & post & ->). exists pre, (post +:+ t). now rewrite !app_assoc.
Qed.

Ltac simple_scrutinee x :=
  lazymatch x with
  | context [if _ then _ else _] => fail
  | context [match _ with Ok _ => _ | Raise _ => _ end] => fail
  | context [match _ with [] => _ | _ :: _ => _ end] => fail
  | _ => idtac
  end.

Ltac run_citation :=
  repeat (step;
          match goal with
          | |- context [if ?b then _ else _] =>
              simple_scrutinee b; destruct b
          | |- context [match ?x with Ok _ => _ | Raise _ => _ end] =>
              simple_scrutinee x; destruct x
          | |- context [match ?l with [] => _ | _ :: _ => _ end] =>
              simple_scrutinee l; destruct l
          end).

Ltac find_year :=
  let H := fresh in
  intros H; try discriminate H; injection H as <-;
  repeat first [ apply occurs_here | apply occurs_app_l ].

Ltac year_in_citation f :=
  let y := fresh "y" in
  unfold f; cbv zeta; generalize (_extract_year fs);
  intros y c H Hy; revert H;
  destruct (y _) eqn:E; [congruence|]; clear Hy E;
  unfold nonempty; cbn [String.eqb negb];
  run_citation; find_year.

Lemma year_in_default (m : gmap string pyval) (c : string) :
  _format_default_citation fs m = Ok c -> _extract_year fs m <> "" ->
  occurs (_extract_year fs m) c.
Proof. revert c. year_in_citation _format_default_citation. Qed.

Lemma year_in_guideline (m : gmap string pyval) (c : string) :
  _format_guideline_citation fs m = Ok c -> _extract_year fs m <> "" ->
  occurs (_extract_year fs m) c.
Proof. revert c. year_in_citation _format_guideline_citation. Qed.

Lemma year_in_educational (m : gmap string pyval) (c : string) :
  _format_educational_citation fs m = Ok c -> _extract_year fs m <> "" ->
  occurs (_extract_year fs m) c.
Proof. revert c. year_in_citation _format_educational_citation. Qed.

Lemma year_in_web (m : gmap string pyval) (c : string) :
  _format_web_citation fs m = Ok c -> _extract_year fs m <> "" ->
  occurs (_extract_year fs m) c.
Proof. revert c. year_in_citation _format_web_citation. Qed.

Lemma year_in_research (m : gmap string pyval) (c : string) :
  _format_research_citation fs m = Ok c -> _extract_year fs m <> "" ->
  occurs (_extract_year fs m) c.
Proof. revert c. year_in_citation _format_research_citation. Qed.

(** X7.  Whenever a year is extracted from the metadata, it occurs in the
    citation, whichever of the five formats is used. *)
Theorem citation_shows_year (m : gmap string pyval) (c : string) :
  format_citation fs m = Ok c ->
  _extract_year fs m <> "" ->
  occurs (_extract_year fs m) c.
Proof.
  unfold format_citation. step.
  destruct (str_method (get m "source_type" (PStr ""))) as [s|e];
    [|discriminate].
  repeat match goal with
         | |- context [if ?b then _ else _] => destruct b
         end;
    auto using year_in_default, year_in_guideline, year_in_educational,
      year_in_web, year_in_research.
Qed.

(** *** Which texts yield a year *)

Lemma isdigit_isword (c : ascii) : isdigit c = true -> isword c = true.
Proof.
  destruct c as [[] [] [] [] [] [] [] []]; vm_compute; congruence.
Qed.

Lemma year_at_shape (y rest : string) :
  year_shape y = true -> starts_nonword rest = true ->
  year_at None (y +:+ rest) = Some y.
Proof.
  destruct y as [|a [|b [|c [|d [|e y]]]]]; try discriminate.
  unfold year_shape, starts_nonword. intros Hy Hr.
  apply andb_true_iff in Hy as [Hy Hd]. apply andb_true_iff in Hy as [Hab Hc].
  apply negb_true_iff in Hr.
  change (year_at None (String a (String b (String c (String d rest)))) = Some (String a (String b (String c (String d ""))))).
  unfold year_at, word_boundary. rewrite Hab, Hc, Hd, Hr.
  cbn [isword_opt xorb andb]. rewrite (isdigit_isword d Hd).
  assert (isword a = true) as ->; [|reflexivity].
  apply orb_true_iff in Hab as [H | H]; apply andb_true_iff in H as [H _];
    apply Ascii.eqb_eq in H as ->; reflexivity.
Qed.

Lemma re_search_year_shape (y rest : string) :
  year_shape y = true -> starts_nonword rest = true ->
  re_search_year (y +:+ rest) = Some y.
Proof.
  intros Hy Hr. unfold re_search_year.
  destruct (y +:+ rest) eqn:E; cbn [search_from]; rewrite <- E;
    now rewrite (year_at_shape y rest Hy Hr).
Qed.

Lemma re_search_year_int (z : Z) :
  (1900 <= z <= 2099)%Z ->
  re_search_year (str_of_int z) = Some (str_of_int z).
Proof.
  intros Hz.
  assert (forallb
            (fun k : nat =>
               match re_search_year (str_of_int (1900 + Z.of_nat k)) with
               | Some y => String.eqb y (str_of_int (1900 + Z.of_nat k))
               | None => false
               end) (seq 0 200) = true) as H by (vm_compute; reflexivity).
  rewrite forallb_forall in H.
  specialize (H (Z.to_nat (z - 1900))).
  replace (1900 + Z.of_nat (Z.to_nat (z - 1900)))%Z with z in H by lia.
  destruct (re_search_year (str_of_int z)) as [y|].
  - f_equal. apply String.eqb_eq. apply H. apply in_seq. lia.
  - discriminate H. apply in_seq. lia.
Qed.

(** X8.  Let [v] be the value of the first date-bearing field that is
    present.  If [v] is a text that begins with 19 or 20 and two more
    digits, not followed by a letter, a digit or an underscore (an ISO date
    such as 2018-12-31), these four digits are the year; if [v] is an
    integer between 1900 and 2099, its decimal numeral is the year. *)
Theorem extract_year_reads_dates (m : gmap string pyval) :
  (forall y rest,
     first_present m = Some (PStr (y +:+ rest)) ->
     year_shape y = true -> starts_nonword rest = true ->
     _extract_year fs m = y)
  /\ (forall z,
        first_present m = Some (PInt z) -> (1900 <= z <= 2099)%Z ->
        _extract_year fs m = str_of_int z).
Proof.
  split.
  - intros y rest Hf Hy Hr.
    apply (CitationFacts.extract_year_loop_first fs m year_fields _ _ Hf).
    now apply re_search_year_shape.
  - intros z Hf Hz.
    apply (CitationFacts.extract_year_loop_first fs m year_fields _ _ Hf).
    now apply re_search_year_int.
Qed.

Lemma all_digits_cons (c : ascii) (s : string) :
  all_digits (String c s) = true -> isdigit c = true /\ all_digits s = true.
Proof.
  unfold all_digits. cbn [any_char]. rewrite negb_orb, andb_true_iff.
  intros [H1 H2]. split; [|exact H2]. now apply negb_true_iff, negb_false_iff in H1.
Qed.

Lemma search_from_cons (prev : option ascii) (c : ascii) (s : string) :
  search_from prev (String c s)
  = match year_at prev (String c s) with
    | Some y => Some y
    | None => search_from (Some c) s
    end.
Proof. reflexivity. Qed.

(** After a word character, a run of digits holds no match. *)
Lemma search_digits_after_word (prev : option ascii) (s : string) :
  isword_opt prev = true -> all_digits s = true ->
  search_from prev s = None.
Proof.
  revert prev. induction s as [|a s IH]; intros prev Hp Hs; [reflexivity|].
  apply all_digits_cons in Hs as [Ha Hs].
  rewrite search_from_cons.
  assert (year_at prev (String a s) = None) as ->.
  { unfold year_at. destruct s as [|b [|c [|d rest]]]; try reflexivity.
    unfold word_boundary at 1. rewrite Hp. cbn [isword_opt].
    now rewrite (isdigit_isword a Ha). }
  apply IH; [cbn; now apply isdigit_isword | exact Hs].
Qed.

(** A run of five or more digits holds no match. *)
Lemma search_long_digits (prev : option ascii) (s : string) :
  all_digits s = true -> (5 <= String.length s)%nat ->
  search_from prev s = None.
Proof.
  intros Hs Hlen.
  destruct s as [|a [|b [|c [|d [|e rest]]]]]; cbn in Hlen; try lia.
  pose proof Hs as Hs'.
  apply all_digits_cons in Hs' as [Ha Hs'].
  pose proof Hs' as Hs''.
  apply all_digits_cons in Hs'' as [_ Hs''].
  apply all_digits_cons in Hs'' as [_ Hs''].
  apply all_digits_cons in Hs'' as [Hd Hs''].
  apply all_digits_cons in Hs'' as [He _].
  rewrite search_from_cons.
  assert (year_at prev (String a (String b (String c (String d (String e rest)))))
          = None) as ->.
  { unfold year_at. unfold word_boundary at 2. cbn [isword_opt head_char].
    rewrite (isdigit_isword d Hd), (isdigit_isword e He). cbn [xorb].
    now rewrite !andb_false_r. }
  apply search_digits_after_word; [cbn; now apply isdigit_isword | exact Hs'].
Qed.

Lemma re_search_year_long_digits (ds : string) :
  all_digits ds = true -> (5 <= String.length ds)%nat ->
  re_search_year ds = None /\ re_search_year ("D:" +:+ ds) = None.
Proof.
  intros Hs Hlen. split; [now apply search_long_digits|].
  unfold re_search_year.
  change ("D:" +:+ ds) with (String "D" (String ":" ds)).
  rewrite !search_from_cons.
  assert (year_at None (String "D" (String ":" ds)) = None) as ->.
  { unfold year_at. destruct ds as [|c [|d rest]]; reflexivity. }
  assert (year_at (Some "D"%char) (String ":" ds) = None) as ->.
  { unfold year_at. destruct ds as [|b [|c [|d rest]]]; reflexivity. }
  now apply search_long_digits.
Qed.

(** X9.  A run of five or more digits never yields a year, alone or after
    the prefix [D:] of a PDF date: when every date-bearing field that is
    present holds such a text (a compact date like 20240101, numeric or
    not, or a PDF creation date), no year is extracted. *)
Theorem extract_year_misses_digit_runs (m : gmap string pyval) :
  (forall field v, In field year_fields -> m !! field = Some v ->
     exists ds, all_digits ds = true /\ (5 <= String.length ds)%nat
                /\ (str fs v = ds \/ str fs v = "D:" +:+ ds)) ->
  _extract_year fs m = "".
Proof.
  intros H. apply CitationFacts.extract_year_loop_none.
  intros field v Hin Hv.
  destruct (H field v Hin Hv) as (ds & Hd & Hlen & [-> | ->]);
    now apply re_search_year_long_digits.
Qed.

End WithFloatStr.

Lemma format_citation_source_type_case_witness :
  format_citation no_float
    (<["source_type" := PStr "Research_Article"]> research_example)
  = format_citation no_float
      (<["source_type" := PStr "research_article"]> research_example).
Proof.
  apply (format_citation_source_type_case no_float research_example
           "Research_Article" "research_article").
  reflexivity.
Defined.

Lemma research_citation_doi_precedence_witness :
  _format_research_citation no_float (<["url" := PInt 5]> research_example)
  = _format_research_citation no_float research_example.
Proof.
  apply (research_citation_doi_precedence no_float).
  - intros k Hk. now rewrite lookup_insert_ne.
  - reflexivity.
Defined.


Lemma shorten_url_bound_witness :
  (Z.of_nat (String.length "https://www.example.com/path/t...") <= 30 + 3)%Z.
Proof.
  assert (0 <= 30)%Z as H1 by lia.
  assert (_shorten_url
            (PStr "https://www.example.com/path/to/a/very/long/resource") 30
          = Ok "https://www.example.com/path/t...") as H2 by reflexivity.
  exact (proj1 (shorten_url_bound _ _ _ H1 H2)).
Defined.

Lemma citation_shows_year_witness :
  occurs "2021"
    "[Smith et al. 'Long Title Exceeding Five Words For...', J. Med 2021 DOI:10.1/x]".
Proof.
  apply (citation_shows_year no_float research_example).
  - reflexivity.
  - discriminate.
Defined.

Lemma extract_year_reads_dates_witness :
  _extract_year no_float {[ "date" := PStr "2018-12-31" ]} = "2018"
  /\ _extract_year no_float guideline_example = "2022".
Proof.
  split.
  - apply (proj1 (extract_year_reads_dates no_float
                    {[ "date" := PStr "2018-12-31" ]}) "2018" "-12-31");
      reflexivity.
  - apply (proj2 (extract_year_reads_dates no_float guideline_example) 2022%Z);
      [reflexivity | lia].
Defined.

Lemma extract_year_misses_digit_runs_witness :
  _extract_year no_float pdf_date_example = "".
Proof.
  apply extract_year_misses_digit_runs. intros field v Hin Hv.
  exists "20240101120000".
  split; [reflexivity | split; [cbn; lia |]].
  right. cbn in Hin.
  destruct Hin as [<- | [<- | [<- | [<- | []]]]]; vm_compute in Hv;
    try discriminate Hv.
  injection Hv as <-. reflexivity.
Defined.

Lemma footnotes_all_or_nothing_witness :
  (exists f, generate_source_footnotes no_float
               [research_example; guideline_example] = Ok f)
  /\ ~ (exists f, generate_source_footnotes no_float
                    [research_example; numeric_title_example] = Ok f).
Proof.
  split.
  - apply (proj1 (footnotes_all_or_nothing no_float _)).
    repeat constructor; eexists; vm_compute; reflexivity.
  - intros H. apply (proj1 (footnotes_all_or_nothing no_float _)) in H.
    apply Forall_cons in H as [_ H]. apply Forall_cons in H as [[c H] _].
    discriminate H.
Defined.

End CitationMoreFacts.

(** ** [ChatUtils], continued *)

Module UtilsMoreFacts.

Import Utils UtilsSpec UtilsSpec2 UtilsText Footnotes PyFacts PyWords.

(** *** [clean_text] *)

Lemma split_nonspace (c : ascii) (s : string) :
  isspace c = false -> exists w ws, split (String c s) = String c w :: ws.
Proof.
  intros Hc. cbn [split]. rewrite Hc. destruct s as [|c' s']; [eauto|].
  destruct (isspace c'); [eauto|].
  destruct (split (String c' s')); eauto.
Qed.

Lemma join_cons_char (c : ascii) (w : string) (ws : list string) :
  join " " (String c w :: ws) = String c (join " " (w :: ws)).
Proof. destruct ws; reflexivity. Qed.

Lemma rstrip_cons_nonspace (c : ascii) (s : string) :
  isspace c = false -> rstrip (String c s) = String c (rstrip s).
Proof. intros Hc. cbn [rstrip]. rewrite Hc. now destruct (rstrip s). Qed.

Lemma split_cons2 (c c' : ascii) (s : string) :
  split (String c (String c' s))
  = if isspace c then split (String c' s)
    else if isspace c' then String c "" :: split (String c' s)
    else match split (String c' s) with
         | w :: ws => String c w :: ws
         | [] => [String c ""]
         end.
Proof. reflexivity. Qed.

Lemma rstrip_collapse (s : string) :
  rstrip (collapse_ws s)
  = if leading_space s
    then match split s with
         | [] => ""
         | _ :: _ => " " +:+ join " " (split s)
         end
    else join " " (split s).
Proof.
  induction s as [|c s IH]; [reflexivity|].
  cbn [leading_space collapse_ws]. destruct (isspace c) eqn:Hc.
  - rewrite (split_space c s Hc). destruct s as [|c' s']; [reflexivity|].
    cbn [leading_space] in IH. destruct (isspace c') eqn:Hc'.
    + exact IH.
    + destruct (split_nonspace c' s' Hc') as (w & ws & Hs).
      rewrite Hs in *. cbn [rstrip]. rewrite IH, join_cons_char.
      reflexivity.
  - rewrite (rstrip_cons_nonspace _ _ Hc), IH. clear IH.
    destruct s as [|c' s']; [cbn [split]; now rewrite Hc|].
    cbn [leading_space]. rewrite split_cons2, Hc.
    destruct (isspace c') eqn:Hc'.
    + destruct (split (String c' s')); reflexivity.
    + destruct (split_nonspace c' s' Hc') as (w & ws & Hs).
      rewrite Hs. now rewrite !join_cons_char.
Qed.

Lemma lstrip_collapse (s : string) :
  lstrip (collapse_ws s) = collapse_ws (lstrip s).
Proof.
  induction s as [|c s IH]; [reflexivity|].
  cbn [collapse_ws lstrip]. destruct (isspace c) eqn:Hc.
  - destruct s as [|c' s']; [reflexivity|].
    destruct (isspace c') eqn:Hc'; [exact IH|].
    cbn [lstrip]. change (isspace " ") with true. cbv iota. exact IH.
  - cbn [lstrip collapse_ws]. now rewrite !Hc.
Qed.

Lemma lstrip_no_leading_space (s : string) : leading_space (lstrip s) = false.
Proof.
  induction s as [|c s IH]; [reflexivity|]. cbn [lstrip].
  destruct (isspace c) eqn:Hc; [exact IH | exact Hc].
Qed.

Lemma split_lstrip (s : string) : split (lstrip s) = split s.
Proof.
  induction s as [|c s IH]; [reflexivity|]. cbn [lstrip].
  destruct (isspace c) eqn:Hc; [|reflexivity].
  now rewrite (split_space c s Hc).
Qed.

Lemma strip_collapse (s : string) :
  strip (collapse_ws s) = join " " (split s).
Proof.
  unfold strip. rewrite lstrip_collapse, rstrip_collapse.
  now rewrite lstrip_no_leading_space, split_lstrip.
Qed.

Section CleanText.

Variable re_sub_ignorecase : string -> string -> string -> option string.

(** X10.  Without custom replacements, [clean_text] returns the words of
    the text joined by single spaces: no whitespace is left at either
    end, none but single spaces in between, and the words are unchanged.
    Cleaning a cleaned text changes nothing. *)
Theorem clean_text_normal_form (text : string) :
  clean_text re_sub_ignorecase text None = Some (join " " (split text))
  /\ clean_text re_sub_ignorecase text (Some []) = Some (join " " (split text))
  /\ split (join " " (split text)) = split text
  /\ clean_text re_sub_ignorecase (join " " (split text)) None
     = Some (join " " (split text)).
Proof.
  unfold clean_text. rewrite !strip_collapse.
  assert (split (join " " (split text)) = split text) as H
    by apply split_join, split_words.
  now rewrite H.
Qed.

End CleanText.

(** *** [extract_key_terms] *)





(** *** Disclaimers *)

(** X12.  [generate_disclaimer] looks at the query and the domain only up
    to letter case, and returns one of five fixed texts. *)
Theorem generate_disclaimer_case (query domain : string) :
  generate_disclaimer query domain
  = generate_disclaimer (lower query) (lower domain)
  /\ In (generate_disclaimer query domain) UtilsSpec3.disclaimer_texts.
Proof.
  split.
  - unfold generate_disclaimer. now rewrite !lower_idem.
  - unfold generate_disclaimer, UtilsSpec3.disclaimer_texts. cbv zeta.
    repeat match goal with
           | |- context [if ?b then _ else _] => destruct b
           end; cbn; tauto.
Qed.



(** A text, a character that the pattern lacks, and another text: the
    pattern occurs in the whole exactly when it occurs in a part. *)
Lemma prefix_app_sep (sub a b : string) (c : ascii) :
  any_char (Ascii.eqb c) sub = false ->
  String.prefix sub (a +:+ String c b) = String.prefix sub a.
Proof.
  revert sub. induction a as [|y a IH]; intros sub Hc.
  - destruct sub as [|x sub]; [reflexivity|]. cbn in Hc.
    apply orb_false_iff in Hc as [Hx _]. apply Ascii.eqb_neq in Hx.
    simpl. destruct (ascii_dec x c); [congruence | reflexivity].
  - destruct sub as [|x sub]; [reflexivity|]. cbn in Hc.
    apply orb_false_iff in Hc as [_ Hc]. simpl.
    destruct (ascii_dec x y); [now apply IH | reflexivity].
Qed.

Lemma contains_app_sep (sub a b : string) (c : ascii) :
  any_char (Ascii.eqb c) sub = false ->
  contains sub (a +:+ String c b)
  = contains sub a || contains sub (String c b).
Proof.
  intros Hc. induction a as [|y a IH].
  - change ("" +:+ String c b) with (String c b).
    destruct (contains sub "") eqn:E; [|reflexivity].
    cbn [contains] in E. rewrite orb_false_r in E.
    destruct sub; [reflexivity | discriminate E].
  - change (String y a +:+ String c b) with (String y (a +:+ String c b)).
    cbn [contains]. rewrite IH.
    change (String y (a +:+ String c b)) with (String y a +:+ String c b).
    rewrite (prefix_app_sep _ _ _ _ Hc). now rewrite orb_assoc.
Qed.

Lemma legal_domain_notice (query domain : string) :
  mem (lower domain) ["legal"; "law"] = true ->
  generate_disclaimer query domain
  = "**Legal Notice**: This does not constitute legal advice. Consult an attorney for your specific situation.".
Proof.
  unfold mem. cbn [existsb]. rewrite orb_false_r. intros H.
  unfold generate_disclaimer. cbv zeta.
  apply orb_true_iff in H as [H | H]; apply String.eqb_eq in H; rewrite H;
    reflexivity.
Qed.

(** X14.  The legal notice does not contain the word "disclaimer".  So
    in the domains legal and law an answer that has been given its notice
    is not recognised as having one: formatting it again appends the
    notice a second time. *)
Theorem format_response_legal_notice_repeats (response : string)
  (max_length : Z) (domain : string) :
  mem (lower domain) ["legal"; "law"] = true ->
  ~ mentions_disclaimer response ->
  ~ mentions_disclaimer (with_disclaimer response domain)
  /\ format_response (with_disclaimer response domain) max_length true domain
     = truncate (with_disclaimer (with_disclaimer response domain) domain)
         max_length
  /\ ((Z.of_nat (String.length
                   (with_disclaimer (with_disclaimer response domain) domain))
       <= max_length)%Z ->
      format_response (format_response response max_length true domain)
        max_length true domain
      = with_disclaimer (with_disclaimer response domain) domain).
Proof.
  intros Hd Hr.
  assert (contains "disclaimer" (lower response) = false) as Hc.
  { destruct (contains "disclaimer" (lower response)) eqn:E; [|reflexivity].
    apply UtilsFacts.mentions_disclaimer_check in E. contradiction. }
  assert (contains "disclaimer" (lower (with_disclaimer response domain))
          = false) as Hc'.
  { unfold with_disclaimer. rewrite (legal_domain_notice _ _ Hd).
    rewrite lower_app.
    match goal with
    | |- contains _ (_ +:+ lower ?t) = _ =>
        let t' := eval vm_compute in (lower t) in
        change (lower t) with t'
    end.
    rewrite contains_app_sep by reflexivity. rewrite Hc. reflexivity. }
  assert (~ mentions_disclaimer (with_disclaimer response domain)) as Hn.
  { intros H. apply UtilsFacts.mentions_disclaimer_check in H. congruence. }
  split; [exact Hn|]. split.
  - unfold format_response. now rewrite Hc'.
  - intros Hfit.
    assert (forall r, String.length r
                      <= String.length (with_disclaimer r domain))%nat
      as Hgrow by (intros r; unfold with_disclaimer; rewrite length_app; lia).
    pose proof (Hgrow (with_disclaimer response domain)) as Hle.
    assert (format_response response max_length true domain
            = with_disclaimer response domain) as ->.
    { unfold format_response. rewrite Hc. cbn.
      apply UtilsFacts.truncate_short. lia. }
    unfold format_response. rewrite Hc'. cbn.
    now apply UtilsFacts.truncate_short.
Qed.

(** *** The relevance filter, continued *)

Lemma filter_scored_sublist (score_field : string) (min_score : Q)
  (docs kept : list Document) :
  filter_scored score_field min_score docs = Ok kept -> kept `sublist_of` docs.
Proof.
  revert kept. induction docs as [|d docs IH]; intros kept; cbn.
  - intros [= <-]. constructor.
  - destruct (ge_float _ min_score) as [b|e]; [|discriminate].
    destruct (filter_scored score_field min_score docs) as [k|e];
      [|discriminate].
    cbn. intros [= <-]. specialize (IH k eq_refl).
    destruct b; [now apply sublist_skip | now apply sublist_cons].
Qed.

Lemma list_filter_sublist {A : Type} (f : A -> bool) (l : list A) :
  List.filter f l `sublist_of` l.
Proof.
  induction l as [|x l IH]; cbn; [constructor|].
  destruct (f x); [now apply sublist_skip | now apply sublist_cons].
Qed.

(** X15.  Whatever the mode, the filter only removes documents: what it
    returns is a sub-list of the input, in the same order, and the empty
    list is returned for the empty list. *)
Theorem filter_by_relevance_sublist (docs : list Document) (query : string)
  (min_score : Q) (score_field : string) (kept : list Document) :
  filter_documents_by_relevance docs query min_score score_field = Ok kept ->
  kept `sublist_of` docs
  /\ (docs = [] -> kept = []).
Proof.
  unfold filter_documents_by_relevance. destruct docs as [|first rest].
  - intros [= <-]. split; [constructor | reflexivity].
  - destruct (metadata first !! score_field).
    + intros H. split; [now apply filter_scored_sublist in H | discriminate].
    + intros [= <-].
      split; [apply (list_filter_sublist _ (first :: rest)) | discriminate].
Qed.

Lemma filter_scored_raises (score_field : string) (min_score : Q)
  (docs : list Document) (e : exn) :
  filter_scored score_field min_score docs = Raise e
  <-> e = TypeError /\ UtilsSpec3.has_text_score score_field docs.
Proof.
  unfold UtilsSpec3.has_text_score. induction docs as [|d docs IH]; cbn.
  - split; [discriminate | intros [_ H]; inversion H].
  - rewrite Exists_cons.
    destruct (metadata d !! score_field) as [[s|z|q]|] eqn:E; cbn.
    + split; [intros [= <-]; eauto | intros [-> _]; reflexivity].
    + destruct (filter_scored score_field min_score docs) as [k|e'] eqn:Ek;
        cbn.
      * split; [discriminate|]. intros [-> [[s H] | H]]; [discriminate|].
        discriminate (proj2 IH (conj eq_refl H)).
      * split.
        -- intros H. apply IH in H. tauto.
        -- intros [He [[s H] | H]]; [discriminate | now apply IH].
    + destruct (filter_scored score_field min_score docs) as [k|e'] eqn:Ek;
        cbn.
      * split; [discriminate|]. intros [-> [[s H] | H]]; [discriminate|].
        discriminate (proj2 IH (conj eq_refl H)).
      * split.
        -- intros H. apply IH in H. tauto.
        -- intros [He [[s H] | H]]; [discriminate | now apply IH].
    + destruct (filter_scored score_field min_score docs) as [k|e'] eqn:Ek;
        cbn.
      * split; [discriminate|]. intros [-> [[s H] | H]]; [discriminate|].
        discriminate (proj2 IH (conj eq_refl H)).
      * split.
        -- intros H. apply IH in H. tauto.
        -- intros [He [[s H] | H]]; [discriminate | now apply IH].
Qed.

(** X16.  The filter raises only in the score-based mode, only a
    [TypeError], and exactly when some document declares a string as its
    score: a text such as "0.9" is not read as a number. *)
Theorem filter_by_relevance_raises (docs : list Document) (query : string)
  (min_score : Q) (score_field : string) (e : exn) :
  filter_documents_by_relevance docs query min_score score_field = Raise e
  <-> e = TypeError
      /\ UtilsSpec3.has_text_score score_field docs
      /\ exists first rest,
           docs = first :: rest /\ is_Some (metadata first !! score_field).
Proof.
  unfold filter_documents_by_relevance. destruct docs as [|first rest].
  - split; [discriminate | intros (_ & _ & f & r & H & _); discriminate H].
  - destruct (metadata first !! score_field) as [v|] eqn:E.
    + rewrite filter_scored_raises. split.
      * intros [-> H]. repeat split; [exact H|].
        exists first, rest. split; [reflexivity | rewrite E; eauto].
      * intros (-> & H & _). now split.
    + split; [discriminate|].
      intros (_ & _ & f & r & [= <- <-] & [v Hv]). congruence.
Qed.


Lemma format_response_legal_notice_repeats_witness :
  format_response (format_response "Sign here." 2000 true "Legal")
    2000 true "Legal"
  = with_disclaimer (with_disclaimer "Sign here." "Legal") "Legal".
Proof.
  destruct (format_response_legal_notice_repeats "Sign here." 2000 "Legal")
    as (_ & _ & H).
  - reflexivity.
  - intros Hm. apply UtilsFacts.mentions_disclaimer_check in Hm.
    discriminate Hm.
  - apply H. vm_compute. discriminate.
Defined.

Lemma filter_by_relevance_sublist_witness :
  [scored_doc] `sublist_of` [scored_doc; low_scored_doc].
Proof.
  apply (filter_by_relevance_sublist [scored_doc; low_scored_doc]
           "heart disease" 0.65 "score" [scored_doc]).
  reflexivity.
Defined.

End UtilsMoreFacts.

(** ** [ChatUtils.parse_metadata] *)

Module UtilsMetadataFacts.

Import Citation UtilsMetadata.

Section ParseMetadata.

Variable float_str : Q -> string.
Variable strptime_ymd : string -> option string.
Variable float_of : pyval -> result Q.

(** X17.  [parse_metadata] raises exactly when [float] rejects the
    confidence.  Otherwise every entry of the original metadata is in the
    result unchanged, the original taking precedence over the standardized
    value: a [date] entry of the metadata is returned as it was, not in
    its standardized form.  The keys of the result are those of the
    metadata and [source], [source_type], [date], [confidence]. *)
Theorem parse_metadata_keeps_original (metadata : gmap string pyval)
  (date_fields : option (list string)) :
  (forall e,
     parse_metadata float_str strptime_ymd float_of metadata date_fields
     = Raise e
     <-> float_of (get metadata "confidence" (PFloat 1)) = Raise e)
  /\ (forall out,
        parse_metadata float_str strptime_ymd float_of metadata date_fields
        = Ok out ->
        (forall k v, metadata !! k = Some v -> out !! k = Some (FVal v))
        /\ (forall k, is_Some (out !! k)
                      <-> is_Some (metadata !! k) \/ In k standard_keys)).
Proof.
  unfold parse_metadata. cbv zeta.
  destruct (float_of (get metadata "confidence" (PFloat 1))) as [c|e'];
    cbn [mbind result_bind].
  - split; [intros e; split; discriminate|].
    intros out [= <-]. split.
    + intros k v Hk. apply lookup_union_Some_l.
      now rewrite lookup_fmap, Hk.
    + intros k. rewrite lookup_union_is_Some, lookup_fmap, fmap_is_Some.
      rewrite !lookup_insert_is_Some'.
      unfold standard_keys. cbn [In].
      assert (is_Some (({[ "source" := FVal (get metadata "source"
                                               (PStr "Unknown")) ]}
                        : gmap string field_value) !! k)
              <-> "source" = k) as ->.
      { destruct (decide ("source" = k)) as [<-|Hne].
        - rewrite lookup_singleton_eq. split; eauto.
        - rewrite lookup_singleton_ne by exact Hne.
          split; [intros [x Hx]; discriminate Hx | contradiction]. }
      tauto.
  - split; [|discriminate].
    intros e. split; intros [= <-]; reflexivity.
Qed.

End ParseMetadata.


(** A record with an unparseable [date] and a [year]: the result keeps the
    date as it was. *)
Lemma parse_metadata_keeps_original_witness :
  exists out,
    parse_metadata CitationSpec.no_float no_strptime float_of_number
      dated_example None = Ok out
    /\ out !! "date" = Some (FVal (PStr "Spring 2020")).
Proof.
  eexists. split; [reflexivity|].
  destruct (parse_metadata_keeps_original CitationSpec.no_float no_strptime
              float_of_number dated_example None) as [_ H].
  destruct (H _ eq_refl) as [Hk _].
  apply Hk. reflexivity.
Defined.

End UtilsMetadataFacts.

(** ** [RetrievalChain], continued *)

Module RetrievalChainMoreFacts.

Import RetrievalChain Responses PyFacts PyWords.

Section GetRetriever.

Variables VectorStore Retriever : Type.
Variable as_retriever :
  VectorStore -> string -> gmap string kwarg -> result Retriever.

(** X18.  A search type outside similarity, mmr and
    similarity_score_threshold is refused with a [ValueError] that lists
    the three.  Every other call, unless it is the threshold strategy
    without a threshold, is handed to the library's [as_retriever], whose
    outcome is returned, with these search arguments and no others: [k]
    always; [score_threshold] whenever one is given, whatever the
    strategy; [filter] when the criteria are not empty; [fetch_k] only
    for mmr. *)
Theorem get_retriever_search_kwargs (vectorstore : VectorStore) (k : Z)
  (search_type : string) (score_threshold : option pyval)
  (filter_criteria : option (gmap string pyval)) (fetch_k : option Z) :
  let result :=
    get_retriever VectorStore Retriever as_retriever vectorstore k
      search_type score_threshold filter_criteria fetch_k in
  (mem search_type valid_search_types = false ->
   result = Raise (ValueError
     "Invalid search_type. Must be one of: ['similarity', 'mmr', 'similarity_score_threshold']"))
  /\ (mem search_type valid_search_types = true ->
      search_type <> "similarity_score_threshold"
      \/ is_Some score_threshold ->
      exists search_kwargs,
        result = as_retriever vectorstore search_type search_kwargs
        /\ search_kwargs !! "k" = Some (KVal (PInt k))
        /\ search_kwargs !! "score_threshold" = KVal <$> score_threshold
        /\ search_kwargs !! "filter"
           = match filter_criteria with
             | Some f => if (0 <? size f)%nat then Some (KDict f) else None
             | None => None
             end
        /\ search_kwargs !! "fetch_k"
           = (if String.eqb search_type "mmr"
              then (fun n => KVal (PInt n)) <$> fetch_k
              else None)
        /\ forall key, is_Some (search_kwargs !! key) ->
             In key ["k"; "score_threshold"; "filter"; "fetch_k"]).
Proof.
  cbv zeta. unfold get_retriever. split.
  - intros ->. reflexivity.
  - intros -> Hok. cbn [negb].
    assert (String.eqb search_type "similarity_score_threshold"
            && negb (bool_decide (is_Some score_threshold)) = false) as ->.
    { destruct Hok as [Hne | Hs].
      - apply String.eqb_neq in Hne. now rewrite Hne.
      - rewrite bool_decide_true by exact Hs. apply andb_false_r. }
    destruct score_threshold as [t|];
      (destruct filter_criteria as [f|]; [destruct (0 <? size f)%nat|]);
      destruct fetch_k as [n|]; destruct (String.eqb search_type "mmr");
      eexists; (split; [reflexivity|]);
      (split; [reflexivity|]); (split; [reflexivity|]);
      (split; [reflexivity|]); (split; [reflexivity|]);
      intros key;
      rewrite ?lookup_insert_is_Some', lookup_singleton_is_Some;
      cbn [In]; intuition auto.
Qed.

End GetRetriever.

(** *** The rules of the prompt *)

Lemma one_line_app (a b : string) :
  one_line a -> one_line b -> one_line (a +:+ b).
Proof. unfold one_line. intros Ha Hb. now rewrite any_char_app, Ha, Hb. Qed.

Lemma split_on_one_line (a : string) :
  one_line a -> split_on Utils.LF a = [a].
Proof.
  unfold one_line. induction a as [|c a IH]; [reflexivity|].
  cbn [any_char split_on]. intros H. apply orb_false_iff in H as [Hc Ha].
  rewrite Ascii.eqb_sym, Hc, (IH Ha). reflexivity.
Qed.

Lemma split_on_line (a b : string) :
  one_line a ->
  split_on Utils.LF (a +:+ String Utils.LF b) = a :: split_on Utils.LF b.
Proof.
  unfold one_line. induction a as [|c a IH]; intros H.
  - reflexivity.
  - cbn [any_char] in H. apply orb_false_iff in H as [Hc Ha].
    change (String c a +:+ String Utils.LF b)
      with (String c (a +:+ String Utils.LF b)).
    cbn [split_on]. rewrite Ascii.eqb_sym, Hc, (IH Ha). reflexivity.
Qed.

Lemma split_on_numbered (p r1 : string) (rest : list string) :
  one_line p -> Forall one_line (r1 :: rest) ->
  split_on Utils.LF (p +:+ join (NL +:+ "2. ") (r1 :: rest))
  = (p +:+ r1) :: map (fun r => "2. " +:+ r) rest.
Proof.
  revert p r1. induction rest as [|r2 rest IH]; intros p r1 Hp Hr.
  - apply Forall_cons in Hr as [Hr _].
    apply split_on_one_line. now apply one_line_app.
  - apply Forall_cons in Hr as [Hr1 Hr].
    rewrite join_cons2.
    change ((NL +:+ "2. ") +:+ join (NL +:+ "2. ") (r2 :: rest))
      with (String Utils.LF ("2. " +:+ join (NL +:+ "2. ") (r2 :: rest))).
    rewrite <- app_assoc, split_on_line by now apply one_line_app.
    rewrite IH by (auto; reflexivity). reflexivity.
Qed.

(** X19.  In the prompt the rules are numbered by the text
    ["1. " + "\n2. ".join(rules)]: when no rule contains a line feed, the
    first rule makes the line numbered 1 and every further rule makes a
    line numbered 2. *)
Theorem rules_text_numbering (response_rules : option (list string))
  (r1 : string) (rest : list string) :
  list_or response_rules default_rules = r1 :: rest ->
  Forall one_line (r1 :: rest) ->
  split_on Utils.LF (rules_text (list_or response_rules default_rules))
  = ("1. " +:+ r1) :: map (fun r => "2. " +:+ r) rest.
Proof.
  intros -> Hr. unfold rules_text. now apply split_on_numbered.
Qed.

Lemma rules_text_numbering_witness :
  split_on Utils.LF (rules_text (list_or None default_rules))
  = ["1. Use ONLY the provided context";
     "2. Respond at an 8th grade reading level";
     "2. ALWAYS cite sources";
     "2. Include appropriate disclaimers when needed";
     "2. Structure responses clearly"].
Proof.
  apply (rules_text_numbering None
           "Use ONLY the provided context"
           ["Respond at an 8th grade reading level";
            "ALWAYS cite sources";
            "Include appropriate disclaimers when needed";
            "Structure responses clearly"]).
  - reflexivity.
  - repeat constructor.
Defined.

(** *** [format_response] *)

Lemma extract_fields_lookup (doc : Utils.Document) (fields : list string)
  (acc : gmap string pyval) (key : string) :
  extract_fields doc fields acc !! key
  = if bool_decide (key ∈ fields)
    then Some (Citation.get (Utils.metadata doc) key (PStr ""))
    else acc !! key.
Proof.
  unfold extract_fields. revert acc.
  induction fields as [|f fields IH]; intros acc; [reflexivity|].
  cbn [foldl]. rewrite IH.
  destruct (decide (key = f)) as [->|Hne].
  - rewrite (bool_decide_true (f ∈ f :: fields)) by left.
    rewrite lookup_insert_eq. now destruct (bool_decide (f ∈ fields)).
  - assert (bool_decide (key ∈ f :: fields) = bool_decide (key ∈ fields))
      as -> by (apply bool_decide_ext; rewrite elem_of_cons; tauto).
    now rewrite lookup_insert_ne.
Qed.

Lemma content_excerpt_bound (page_content : string) (n : Z) :
  (0 <= n)%Z ->
  (Z.of_nat (String.length (content_excerpt page_content n)) <= n + 3)%Z
  /\ ((Z.of_nat (String.length page_content) <= n)%Z ->
      content_excerpt page_content n = page_content).
Proof.
  intros Hn. unfold content_excerpt. rewrite slice_to_nonneg by lia.
  rewrite length_app, length_take_min.
  destruct (n <? Z.of_nat (String.length page_content))%Z eqn:E.
  - apply Z.ltb_lt in E. cbn [String.length]. split; lia.
  - apply Z.ltb_ge in E. cbn [String.length]. split; [lia|].
    intros _. rewrite take_all by lia. apply app_nil_r.
Qed.

(** X20.  [format_response] reports one source per context document, in
    order.  A source holds every requested field, with the document's
    value or the empty string, and nothing else but the excerpt; unless a
    field is itself named [content_excerpt], the excerpt is the beginning
    of the text, of at most [content_excerpt_length + 3] characters, and
    the whole text when that is short enough. *)
Theorem format_response_sources (result : chain_result)
  (metadata_fields : option (list string)) (content_excerpt_length : Z)
  (include_full_context : bool) :
  let fields := list_or metadata_fields default_fields in
  let docs := default [] (context result) in
  let out :=
    format_response result metadata_fields content_excerpt_length
      include_full_context in
  List.length (sources out) = List.length docs
  /\ forall i doc,
       docs !! i = Some doc ->
       exists info,
         sources out !! i = Some info
         /\ (forall field, In field fields ->
               info !! field
               = Some (Citation.get (Utils.metadata doc) field (PStr "")))
         /\ (forall key, is_Some (info !! key)
                         <-> key = "content_excerpt" \/ In key fields)
         /\ (~ In "content_excerpt" fields ->
             (0 <= content_excerpt_length)%Z ->
             exists excerpt,
               info !! "content_excerpt" = Some (PStr excerpt)
               /\ excerpt = content_excerpt (Utils.page_content doc)
                              content_excerpt_length
               /\ (Z.of_nat (String.length excerpt)
                   <= content_excerpt_length + 3)%Z).
Proof.
  cbv zeta. unfold format_response. cbn [sources]. split.
  - apply length_map.
  - intros i doc Hi. eexists. split.
    + rewrite list_lookup_fmap, Hi. reflexivity.
    + unfold source_info. split; [|split].
      * intros field Hf. rewrite extract_fields_lookup.
        rewrite bool_decide_true by now apply list_elem_of_In.
        reflexivity.
      * intros key. rewrite extract_fields_lookup.
        destruct (bool_decide (key ∈ _)) eqn:E.
        -- apply bool_decide_eq_true in E. apply list_elem_of_In in E.
           split; eauto.
        -- apply bool_decide_eq_false in E. rewrite list_elem_of_In in E.
           destruct (decide (key = "content_excerpt")) as [->|Hne].
           ++ rewrite lookup_singleton_eq. split; eauto.
           ++ rewrite lookup_singleton_ne by congruence.
              split; [intros [x Hx]; discriminate Hx | tauto].
      * intros Hnot Hn. eexists. split; [|split; [reflexivity|]].
        -- rewrite extract_fields_lookup.
           rewrite bool_decide_false by now rewrite list_elem_of_In.
           apply lookup_singleton_eq.
        -- now apply content_excerpt_bound.
Qed.

Lemma format_response_sources_witness :
  exists info,
    sources (format_response
               {| answer := Some "It is a force.";
                  context := Some [pdf_chunk] |} None 20 false) !! 0%nat
    = Some info
    /\ info !! "source" = Some (PStr "bp.pdf")
    /\ info !! "author" = Some (PStr "")
    /\ info !! "content_excerpt" = Some (PStr "Blood pressure is th...").
Proof.
  destruct (format_response_sources
              {| answer := Some "It is a force.";
                 context := Some [pdf_chunk] |} None 20 false)
    as [_ H].
  destruct (H 0%nat pdf_chunk eq_refl) as (info & Hi & Hf & _ & He).
  exists info. split; [exact Hi|]. split; [|split].
  - rewrite (Hf "source") by (cbn; tauto). reflexivity.
  - rewrite (Hf "author") by (cbn; tauto). reflexivity.
  - destruct He as (excerpt & Hl & -> & _); [|lia|exact Hl].
    cbn. intros [H0 | [H0 | [H0 | [H0 | [H0 | []]]]]]; discriminate H0.
Defined.

Lemma get_retriever_search_kwargs_witness :
  exists search_kwargs,
    get_retriever unit RetrievalChainSpec.retriever
      RetrievalChainSpec.validating_as_retriever
      tt 4 "mmr" None None (Some 20%Z)
    = RetrievalChainSpec.validating_as_retriever tt "mmr" search_kwargs
    /\ search_kwargs !! "fetch_k" = Some (KVal (PInt 20))
    /\ search_kwargs !! "score_threshold" = None.
Proof.
  destruct (get_retriever_search_kwargs unit RetrievalChainSpec.retriever
              RetrievalChainSpec.validating_as_retriever
              tt 4 "mmr" None None (Some 20%Z)) as [_ H].
  destruct H as (search_kwargs & Hr & _ & Ht & _ & Hf & _);
    [reflexivity | left; discriminate |].
  exists search_kwargs. split; [exact Hr|]. split; [exact Hf | exact Ht].
Defined.

End RetrievalChainMoreFacts.

(** ** [DocumentLoader]: the loaders *)

Module LoadersFacts.

Import Citation Utils Loaders Footnotes.

Ltac run := cbv beta iota zeta delta [mbind mret result_bind result_ret].

Lemma tag_lookup (source_type file_path : string) (doc : Document) :
  metadata (tag source_type file_path doc) !! "source_type"
  = Some (PStr source_type)
  /\ metadata (tag source_type file_path doc) !! "file_path"
     = Some (PStr file_path).
Proof.
  unfold tag, update. cbn [metadata].
  split; apply lookup_union_Some_l.
  - apply lookup_insert_eq.
  - rewrite lookup_insert_ne by discriminate. apply lookup_insert_eq.
Qed.

Lemma enhance_page_lookup (pdf_metadata : gmap string pyval)
  (page : Document) (key : string) :
  key <> "section" ->
  metadata (enhance_page pdf_metadata page) !! key
  = (pdf_metadata ∪ metadata page) !! key.
Proof.
  intros Hk. unfold enhance_page, update. cbn [metadata].
  destruct (bool_decide _); [|reflexivity].
  now rewrite lookup_insert_ne.
Qed.

Lemma pdf_metadata_lookup (doc_metadata : gmap string pyval)
  (file_path : string) :
  pdf_metadata doc_metadata file_path !! "source_type" = Some (PStr "pdf")
  /\ pdf_metadata doc_metadata file_path !! "file_path"
     = Some (PStr file_path)
  /\ pdf_metadata doc_metadata file_path !! "publication_date"
     = Some (get doc_metadata "creationDate" (PStr ""))
  /\ forall key, In key ["year"; "date"; "publish_date"] ->
       pdf_metadata doc_metadata file_path !! key = None.
Proof.
  unfold pdf_metadata. split; [|split; [|split]].
  - now rewrite !lookup_insert_ne, lookup_insert_eq by discriminate.
  - now rewrite !lookup_insert_ne, lookup_insert_eq by discriminate.
  - now rewrite !lookup_insert_ne, lookup_insert_eq by discriminate.
  - intros key [<- | [<- | [<- | []]]];
      now rewrite !lookup_insert_ne by discriminate.
Qed.

Section Loaded.

Variable fs : Q -> string.
Variable fitz_metadata : string -> result (gmap string pyval).
Variables PyPDFLoader UnstructuredWordDocumentLoader TextLoader CSVLoader
  : string -> result (list Document).
Variable JSONLoader : string -> string -> result (list Document).
Variable split_documents : list Document -> result (list Document).

Lemma format_citation_other_type (m : gmap string pyval) (t : string) :
  m !! "source_type" = Some (PStr t) ->
  mem (lower t) CitationSpec.known_source_types = false ->
  format_citation fs m = _format_default_citation fs m.
Proof.
  intros H Hm. unfold format_citation, get. rewrite H. cbn [default].
  unfold id, str_method. run.
  unfold mem, CitationSpec.known_source_types in Hm. cbn [existsb] in Hm.
  repeat (apply orb_false_iff in Hm as [? Hm]).
  repeat match goal with E : String.eqb _ _ = false |- _ =>
    rewrite E; clear E end.
  reflexivity.
Qed.

Lemma chunk_of_loaded (loaded : result (list Document))
  (f : Document -> Document) (chunk : Document) :
  keeps_metadata split_documents ->
  In chunk (or_empty (docs ← loaded; split_documents (map f docs))) ->
  exists doc, metadata chunk = metadata (f doc).
Proof.
  intros Hk. destruct loaded as [docs|e]; run; [|intros []].
  destruct (split_documents (map f docs)) as [chunks|e] eqn:E; [|intros []].
  cbn [or_empty]. intros Hin.
  destruct (Hk _ _ _ E Hin) as (doc & Hd & ->).
  apply in_map_iff in Hd as (doc0 & <- & _). now exists doc0.
Qed.

Lemma chunk_of_tagged (loaded : result (list Document))
  (source_type file_path : string) (chunk : Document) :
  keeps_metadata split_documents ->
  In chunk (or_empty (docs ← loaded;
                      split_documents (map (tag source_type file_path) docs))) ->
  metadata chunk !! "source_type" = Some (PStr source_type)
  /\ metadata chunk !! "file_path" = Some (PStr file_path).
Proof.
  intros Hk Hin. destruct (chunk_of_loaded _ _ _ Hk Hin) as (doc & ->).
  apply tag_lookup.
Qed.

Lemma chunk_of_pdf (file_path : string) (chunk : Document) :
  keeps_metadata split_documents ->
  In chunk (load_pdf fitz_metadata PyPDFLoader split_documents file_path) ->
  metadata chunk !! "source_type" = Some (PStr "pdf")
  /\ metadata chunk !! "file_path" = Some (PStr file_path).
Proof.
  intros Hk. unfold load_pdf.
  destruct (fitz_metadata file_path) as [doc_metadata|e]; run; [|intros []].
  intros Hin. destruct (chunk_of_loaded _ _ _ Hk Hin) as (page & ->).
  rewrite !enhance_page_lookup by discriminate.
  destruct (pdf_metadata_lookup doc_metadata file_path) as (Ht & Hp & _).
  split; now apply lookup_union_Some_l.
Qed.

(** X21.  What [load_document] returns for a PDF, Word, text or CSV file
    is tagged and cited alike: provided the splitter copies the metadata
    of a document to its chunks, every chunk carries the path it was
    loaded from and the loader's [source_type] ([pdf], [word_document],
    [text_file], [csv_file]), none of which the formatter knows, so its
    citation is the default one. *)
Theorem loaded_documents_default_citation (file_path : string)
  (jq_schema : option string) (source_type : string)
  (docs : list Document) (chunk : Document) :
  keeps_metadata split_documents ->
  tag_of_extension (lower (snd (splitext file_path))) = Some source_type ->
  load_document fitz_metadata PyPDFLoader UnstructuredWordDocumentLoader
    TextLoader CSVLoader JSONLoader split_documents file_path jq_schema
  = Ok docs ->
  In chunk docs ->
  metadata chunk !! "source_type" = Some (PStr source_type)
  /\ metadata chunk !! "file_path" = Some (PStr file_path)
  /\ format_citation fs (metadata chunk)
     = _format_default_citation fs (metadata chunk).
Proof.
  intros Hk Ht Hl Hin.
  assert (metadata chunk !! "source_type" = Some (PStr source_type)
          /\ metadata chunk !! "file_path" = Some (PStr file_path)
          /\ mem (lower source_type) CitationSpec.known_source_types = false)
    as (H1 & H2 & H3).
  { unfold load_document, tag_of_extension in *.
    remember (lower (snd (splitext file_path))) as ext eqn:Hext.
    clear Hext.
    destruct (String.eqb ext ".pdf") eqn:Epdf.
    { injection Ht as <-. injection Hl as <-.
      destruct (chunk_of_pdf _ _ Hk Hin). now repeat split. }
    destruct (String.eqb ext ".json") eqn:Ejson.
    { apply String.eqb_eq in Ejson as ->. discriminate Ht. }
    destruct (mem ext [".doc"; ".docx"]).
    { injection Ht as <-. injection Hl as <-.
      destruct (chunk_of_tagged _ _ _ _ Hk Hin). now repeat split. }
    destruct (String.eqb ext ".txt").
    { injection Ht as <-. injection Hl as <-.
      destruct (chunk_of_tagged _ _ _ _ Hk Hin). now repeat split. }
    destruct (String.eqb ext ".csv"); [|discriminate Ht].
    injection Ht as <-. injection Hl as <-.
    destruct (chunk_of_tagged _ _ _ _ Hk Hin). now repeat split. }
  repeat split; [exact H1 | exact H2 |].
  now apply (format_citation_other_type _ source_type).
Qed.

(** X22.  [load_document] raises for one reason only: an extension that,
    lower-cased, is none of [.pdf], [.json], [.doc], [.docx], [.txt],
    [.csv]; the error names the lower-cased extension.  For the six it
    returns a list whatever the readers and the splitter do, and the
    empty list when the splitter raises. *)
Theorem load_document_outcome (file_path : string)
  (jq_schema : option string) :
  let file_ext := lower (snd (splitext file_path)) in
  let loaded :=
    load_document fitz_metadata PyPDFLoader UnstructuredWordDocumentLoader
      TextLoader CSVLoader JSONLoader split_documents file_path jq_schema in
  (mem file_ext supported_extensions = true -> exists docs, loaded = Ok docs)
  /\ (mem file_ext supported_extensions = false ->
      loaded = Raise (ValueError ("Unsupported file type: " +:+ file_ext)))
  /\ (mem file_ext supported_extensions = true ->
      (forall docs, exists e, split_documents docs = Raise e) ->
      loaded = Ok []).
Proof.
  cbv zeta. unfold load_document, supported_extensions, mem.
  remember (lower (snd (splitext file_path))) as ext eqn:Hext. clear Hext.
  cbn [existsb]. split; [|split].
  - destruct (String.eqb ext ".pdf"); [eexists; reflexivity|].
    destruct (String.eqb ext ".json"); [eexists; reflexivity|].
    destruct (String.eqb ext ".doc"); [eexists; reflexivity|].
    destruct (String.eqb ext ".docx"); [eexists; reflexivity|].
    destruct (String.eqb ext ".txt"); [eexists; reflexivity|].
    destruct (String.eqb ext ".csv"); [eexists; reflexivity|]. discriminate.
  - intros H. repeat (apply orb_false_iff in H as [? H]).
    repeat match goal with E : String.eqb _ _ = false |- _ =>
      rewrite E; clear E end.
    reflexivity.
  - intros H Hs.
    assert (forall (loaded : result (list Document)) f,
              or_empty (docs ← loaded; split_documents (f docs)) = [])
      as Hempty.
    { intros [docs|e] f; run; [|reflexivity].
      destruct (Hs (f docs)) as [e ->]. reflexivity. }
    destruct (String.eqb ext ".pdf").
    { f_equal. unfold load_pdf.
      destruct (fitz_metadata file_path); run; [|reflexivity].
      apply (Hempty _ (map _)). }
    destruct (String.eqb ext ".json").
    { f_equal. unfold load_json. apply (Hempty _ id). }
    destruct (String.eqb ext ".doc").
    { f_equal. apply (Hempty _ (map _)). }
    destruct (String.eqb ext ".docx").
    { f_equal. apply (Hempty _ (map _)). }
    cbn [orb].
    destruct (String.eqb ext ".txt").
    { f_equal. apply (Hempty _ (map _)). }
    destruct (String.eqb ext ".csv"); [|discriminate H].
    f_equal. apply (Hempty _ (map _)).
Qed.

Lemma year_at_four_digits (prev : option ascii) (s y : string) :
  year_at prev s = Some y -> four_digits_at s = true.
Proof.
  destruct s as [|a [|b [|c [|d rest]]]]; try discriminate.
  unfold year_at, four_digits_at. intros H.
  destruct (_ && _) eqn:E in H; [|discriminate H].
  apply andb_true_iff in E as [E _].
  apply andb_true_iff in E as [E Hd].
  apply andb_true_iff in E as [E Hc].
  apply andb_true_iff in E as [_ Hab]. rewrite Hc, Hd.
  apply orb_true_iff in Hab as [Hab | Hab];
    apply andb_true_iff in Hab as [Ea Eb];
    apply Ascii.eqb_eq in Ea, Eb; subst a b; reflexivity.
Qed.

Lemma search_without_four_digits (s : string) (prev : option ascii) :
  has_four_digits s = false -> search_from prev s = None.
Proof.
  revert prev. induction s as [|c s IH]; intros prev H.
  - reflexivity.
  - cbn [has_four_digits] in H. apply orb_false_iff in H as [H4 H].
    rewrite CitationMoreFacts.search_from_cons.
    destruct (year_at prev (String c s)) eqn:E.
    + apply year_at_four_digits in E. congruence.
    + now apply IH.
Qed.

Lemma search_digits_then (digits zone : string) (prev : option ascii) :
  isword_opt prev = true -> all_digits digits = true ->
  has_four_digits zone = false ->
  search_from prev (digits +:+ zone) = None.
Proof.
  revert prev. induction digits as [|a digits IH]; intros prev Hp Hd Hz.
  - now apply search_without_four_digits.
  - apply CitationMoreFacts.all_digits_cons in Hd as [Ha Hd].
    change (String a digits +:+ zone) with (String a (digits +:+ zone)).
    rewrite CitationMoreFacts.search_from_cons.
    assert (year_at prev (String a (digits +:+ zone)) = None) as ->.
    { unfold year_at.
      destruct (digits +:+ zone) as [|b [|c [|d rest]]]; try reflexivity.
      unfold word_boundary at 1. rewrite Hp. cbn [isword_opt].
      now rewrite (CitationMoreFacts.isdigit_isword a Ha). }
    apply IH; [cbn; now apply CitationMoreFacts.isdigit_isword | exact Hd
              | exact Hz].
Qed.

Lemma search_long_digits_then (digits zone : string)
  (prev : option ascii) :
  all_digits digits = true -> (5 <= String.length digits)%nat ->
  has_four_digits zone = false ->
  search_from prev (digits +:+ zone) = None.
Proof.
  intros Hd Hlen Hz.
  destruct digits as [|a [|b [|c [|d [|e rest]]]]]; cbn in Hlen; try lia.
  pose proof Hd as H.
  apply CitationMoreFacts.all_digits_cons in H as [Ha Htail].
  pose proof Htail as H.
  apply CitationMoreFacts.all_digits_cons in H as [_ H].
  apply CitationMoreFacts.all_digits_cons in H as [_ H].
  apply CitationMoreFacts.all_digits_cons in H as [Hd4 H].
  apply CitationMoreFacts.all_digits_cons in H as [He _].
  change (String a (String b (String c (String d (String e rest)))) +:+ zone)
    with (String a (String b (String c (String d (String e rest)))
                    +:+ zone)).
  rewrite CitationMoreFacts.search_from_cons.
  assert (year_at prev
            (String a (String b (String c (String d (String e rest)))
                       +:+ zone))
          = None) as ->.
  { change (String b (String c (String d (String e rest))) +:+ zone)
      with (String b (String c (String d (String e (rest +:+ zone))))).
    unfold year_at. cbn [head_char]. unfold word_boundary at 2.
    cbn [isword_opt].
    rewrite (CitationMoreFacts.isdigit_isword d Hd4),
      (CitationMoreFacts.isdigit_isword e He).
    cbn [xorb]. now rewrite !andb_false_r. }
  apply search_digits_then;
    [cbn; now apply CitationMoreFacts.isdigit_isword | exact Htail
    | exact Hz].
Qed.

(** A PDF date holds no year for the pattern. *)
Lemma re_search_year_pdf_date (digits zone : string) :
  all_digits digits = true -> (5 <= String.length digits)%nat ->
  has_four_digits zone = false ->
  re_search_year ("D:" +:+ digits +:+ zone) = None.
Proof.
  intros Hd Hlen Hz. unfold re_search_year.
  change ("D:" +:+ digits +:+ zone)
    with (String "D" (String ":" (digits +:+ zone))).
  rewrite (CitationMoreFacts.search_from_cons None).
  assert (year_at None (String "D" (String ":" (digits +:+ zone))) = None)
    as ->.
  { unfold year_at.
    destruct (digits +:+ zone) as [|c [|d rest]]; reflexivity. }
  rewrite (CitationMoreFacts.search_from_cons (Some "D"%char)).
  assert (year_at (Some "D"%char) (String ":" (digits +:+ zone)) = None)
    as ->.
  { unfold year_at.
    destruct (digits +:+ zone) as [|b [|c [|d rest]]]; reflexivity. }
  now apply search_long_digits_then.
Qed.

(** X23.  [load_pdf] stores the creation date of the file under
    [publication_date] as the file has it, and for a page whose own
    metadata holds none of [year], [date] and [publish_date] the year of
    the citation is sought there alone.  A date in the PDF form, [D:]
    followed by five digits or more and then a time zone without four
    digits in a row, gives no year.  A date in which the pattern finds a
    year, such as 2024-01-01, gives that year. *)
Theorem pdf_citation_creation_year (doc_metadata : gmap string pyval)
  (file_path : string) (page : Document) :
  (forall key, In key ["year"; "date"; "publish_date"] ->
     metadata page !! key = None) ->
  let cited :=
    metadata (enhance_page (pdf_metadata doc_metadata file_path) page) in
  (forall digits zone,
     doc_metadata !! "creationDate"
     = Some (PStr ("D:" +:+ digits +:+ zone)) ->
     all_digits digits = true -> (5 <= String.length digits)%nat ->
     has_four_digits zone = false ->
     _extract_year fs cited = "")
  /\ (forall v y,
        doc_metadata !! "creationDate" = Some v ->
        YearSpec.leftmost_year (str fs v) y ->
        _extract_year fs cited = y).
Proof.
  intros Hpage. cbv zeta.
  destruct (pdf_metadata_lookup doc_metadata file_path)
    as (_ & _ & Hdate & Hnone).
  assert (forall key, In key ["year"; "date"; "publish_date"] ->
            metadata (enhance_page (pdf_metadata doc_metadata file_path) page)
              !! key = None) as Habsent.
  { intros key Hin.
    rewrite enhance_page_lookup
      by (intros ->; destruct Hin as [H | [H | [H | []]]]; discriminate H).
    rewrite lookup_union_r by (apply Hnone; exact Hin).
    now apply Hpage. }
  assert (forall v, doc_metadata !! "creationDate" = Some v ->
            metadata (enhance_page (pdf_metadata doc_metadata file_path) page)
              !! "publication_date" = Some v) as Hpub.
  { intros v Hv. rewrite enhance_page_lookup by discriminate.
    apply lookup_union_Some_l. rewrite Hdate. unfold get. now rewrite Hv. }
  split.
  - intros digits zone Hc Hd Hlen Hz.
    apply CitationFacts.extract_year_loop_none.
    intros field v Hin Hv.
    destruct Hin as [<- | [<- | [<- | [<- | []]]]].
    + rewrite Habsent in Hv by (cbn; auto). discriminate Hv.
    + rewrite (Hpub _ Hc) in Hv. injection Hv as <-. cbn [str].
      now apply re_search_year_pdf_date.
    + rewrite Habsent in Hv by (cbn; auto). discriminate Hv.
    + rewrite Habsent in Hv by (cbn; auto). discriminate Hv.
  - intros v y Hv Hy. unfold _extract_year.
    apply (CitationFacts.extract_year_loop_decides fs _ ["year"]
             "publication_date" ["date"; "publish_date"] v).
    + intros f w [<- | []] Hw.
      rewrite Habsent in Hw by (cbn; auto). discriminate Hw.
    + now apply Hpub.
    + now apply YearFacts.re_search_year_leftmost.
Qed.

End Loaded.

Lemma splitter_keeps_metadata : keeps_metadata Ok.
Proof.
  intros docs chunks chunk [= <-] Hin. now exists chunk.
Qed.

Lemma loaded_documents_default_citation_witness :
  let chunk := tag "text_file" "notes/plan.TXT" report_page in
  metadata chunk !! "source_type" = Some (PStr "text_file")
  /\ metadata chunk !! "file_path" = Some (PStr "notes/plan.TXT")
  /\ format_citation CitationSpec.no_float (metadata chunk)
     = _format_default_citation CitationSpec.no_float (metadata chunk).
Proof.
  apply (loaded_documents_default_citation CitationSpec.no_float
           (fun _ => Raise TypeError) (fun _ => Raise TypeError)
           (fun _ => Raise TypeError) (fun _ => Ok [report_page])
           (fun _ => Raise TypeError) (fun _ _ => Raise TypeError) Ok
           "notes/plan.TXT" None "text_file"
           [tag "text_file" "notes/plan.TXT" report_page]).
  - exact splitter_keeps_metadata.
  - reflexivity.
  - reflexivity.
  - now left.
Defined.

Lemma load_document_outcome_witness :
  load_document (fun _ => Raise TypeError) (fun _ => Raise TypeError)
    (fun _ => Raise TypeError) (fun _ => Ok [report_page])
    (fun _ => Raise TypeError) (fun _ _ => Raise TypeError)
    (fun _ => Raise TypeError) "notes/plan.TXT" None
  = Ok []
  /\ load_document (fun _ => Raise TypeError) (fun _ => Raise TypeError)
       (fun _ => Raise TypeError) (fun _ => Ok [report_page])
       (fun _ => Raise TypeError) (fun _ _ => Raise TypeError)
       (fun _ => Raise TypeError) "notes/.txt" None
     = Raise (ValueError "Unsupported file type: ").
Proof.
  split.
  - apply (load_document_outcome (fun _ => Raise TypeError)
             (fun _ => Raise TypeError) (fun _ => Raise TypeError)
             (fun _ => Ok [report_page]) (fun _ => Raise TypeError)
             (fun _ _ => Raise TypeError) (fun _ => Raise TypeError)
             "notes/plan.TXT" None).
    + reflexivity.
    + intros docs. now exists TypeError.
  - apply (load_document_outcome (fun _ => Raise TypeError)
             (fun _ => Raise TypeError) (fun _ => Raise TypeError)
             (fun _ => Ok [report_page]) (fun _ => Raise TypeError)
             (fun _ _ => Raise TypeError) (fun _ => Raise TypeError)
             "notes/.txt" None).
    reflexivity.
Defined.

Lemma pdf_citation_creation_year_witness :
  _extract_year CitationSpec.no_float
    (metadata (enhance_page (pdf_metadata report_info "report.PDF")
                 report_page))
  = ""
  /\ _extract_year CitationSpec.no_float
       (metadata (enhance_page (pdf_metadata plain_date_info "report.PDF")
                    report_page))
     = "2024".
Proof.
  assert (forall key, In key ["year"; "date"; "publish_date"] ->
            metadata report_page !! key = None) as Hpage
    by (intros key [<- | [<- | [<- | []]]]; reflexivity).
  split.
  - destruct (pdf_citation_creation_year CitationSpec.no_float report_info
                "report.PDF" report_page Hpage) as [H _].
    apply (H "20240101120000" "+01'00'").
    + reflexivity.
    + reflexivity.
    + cbn. lia.
    + reflexivity.
  - destruct (pdf_citation_creation_year CitationSpec.no_float
                plain_date_info "report.PDF" report_page Hpage) as [_ H].
    apply (H (PStr "2024-01-01")).
    + reflexivity.
    + apply YearFacts.re_search_year_leftmost. reflexivity.
Defined.

End LoadersFacts.

(** ** The conversation store *)

Module RoutesFacts.

Import Routes.

Lemma save_history_same (store : conversation_store) (id query answer : string) :
  id <> "" ->
  get_history (save_history store (Some id) query answer) (Some id)
  = get_history store (Some id) ++ [User query; Bot answer].
Proof.
  intros Hid. unfold get_history, save_history, Citation.nonempty.
  unfold conversation_store in *.
  apply String.eqb_neq in Hid. rewrite Hid. cbn [negb]. cbv zeta.
  rewrite lookup_insert_eq. cbn [default].
  destruct (bool_decide (is_Some (store !! id))) eqn:E; [reflexivity|].
  apply bool_decide_eq_false in E.
  rewrite lookup_insert_eq.
  destruct (store !! id) as [history|] eqn:Es; [|reflexivity].
  exfalso. apply E. eauto.
Qed.

Lemma save_history_other (store : conversation_store)
  (id other : option string) (query answer : string) :
  other <> id ->
  get_history (save_history store id query answer) other
  = get_history store other.
Proof.
  intros Hne. unfold get_history, save_history.
  unfold conversation_store in *.
  destruct id as [id|]; [|reflexivity].
  destruct (Citation.nonempty id); [|reflexivity].
  destruct other as [other|]; [|reflexivity].
  destruct (Citation.nonempty other); [|reflexivity].
  assert (id <> other) as Hk by congruence. cbv zeta.
  rewrite lookup_insert_ne by exact Hk.
  destruct (bool_decide _); [reflexivity|].
  now rewrite lookup_insert_ne.
Qed.

(** X24.  The store keeps each conversation apart and in order: after a
    run of exchanges saved under one identifier, which is not empty, the
    history of that conversation is what it was before, followed by the
    question and the answer of each exchange in turn; the history of
    every other conversation is unchanged. *)
Theorem history_is_transcript (store : conversation_store) (id : string)
  (exchanges : list (string * string)) :
  id <> "" ->
  get_history (save_all store (Some id) exchanges) (Some id)
  = get_history store (Some id) ++ transcript exchanges
  /\ forall other, other <> Some id ->
       get_history (save_all store (Some id) exchanges) other
       = get_history store other.
Proof.
  intros Hid. unfold save_all. revert store.
  induction exchanges as [|[query answer] exchanges IH]; intros store.
  - cbn. split; [now rewrite app_nil_r | reflexivity].
  - cbn [foldl fst snd].
    destruct (IH (save_history store (Some id) query answer))
      as [Hsame Hother].
    split.
    + rewrite Hsame, save_history_same by exact Hid.
      unfold transcript. cbn [map concat fst snd].
      now rewrite <- app_assoc.
    + intros other Hne. rewrite Hother by exact Hne.
      now apply save_history_other.
Qed.

Lemma history_is_transcript_witness :
  get_history
    (save_all (<["b7" := [User "Hello"; Bot "Hi"]]> ∅) (Some "a1")
       [("What is BP?", "A force."); ("Why?", "Physics.")])
    (Some "a1")
  = [User "What is BP?"; Bot "A force."; User "Why?"; Bot "Physics."].
Proof.
  destruct (history_is_transcript (<["b7" := [User "Hello"; Bot "Hi"]]> ∅)
              "a1" [("What is BP?", "A force."); ("Why?", "Physics.")])
    as [H _]; [discriminate|].
  rewrite H. reflexivity.
Defined.

End RoutesFacts.

(** ** [PromptFactory.select_prompt] *)

Module PromptFactoryFacts.

Import PromptFactory PyWords.

(** X25.  Only the query is lower-cased, not the keywords: a keyword
    with an upper-case letter never selects its prompt, so that the
    choice is the same with every such mapping removed. *)
Theorem select_prompt_skips_capitalised (ChatPromptTemplate : Type)
  (query : string) (prompt_mappings : list (string * ChatPromptTemplate))
  (default_prompt : ChatPromptTemplate) :
  select_prompt ChatPromptTemplate query prompt_mappings default_prompt
  = select_prompt ChatPromptTemplate query
      (List.filter (lower_case_keyword ChatPromptTemplate) prompt_mappings)
      default_prompt.
Proof.
  unfold select_prompt.
  induction prompt_mappings as [|[keyword prompt] items IH];
    [reflexivity|].
  cbn [select_loop List.filter]. unfold lower_case_keyword at 1.
  cbn [fst]. destruct (any_char isupper_char keyword) eqn:E; cbn [negb].
  - destruct (contains keyword (lower query)) eqn:Ec; [|exact IH].
    pose proof (contains_any_char _ _ _ Ec E) as Hu.
    rewrite lower_no_upper in Hu. discriminate Hu.
  - cbn [select_loop]. now rewrite IH.
Qed.

End PromptFactoryFacts.

(** ** [GenericConfig.validate_config] *)

Module ConfigFacts.

Import Config.

(** X26.  The configurations [validate_config] accepts: the Groq key is
    required whatever the provider; the provider is [groq], or [openai]
    with the OpenAI key; OpenAI and Cohere embeddings need their key.
    The assertion that guards the Groq key under the Groq provider cannot
    fail, since the check that opens the function has already passed. *)
Theorem validate_config_accepts (cls : GenericConfig) :
  (validate_config cls = None <->
   key_set (GROQ_API_KEY cls) = true
   /\ (LLM_PROVIDER cls = "groq"
       \/ LLM_PROVIDER cls = "openai"
          /\ key_set (OPENAI_API_KEY cls) = true)
   /\ (EMBEDDING_MODEL cls = OPENAI -> key_set (OPENAI_API_KEY cls) = true)
   /\ (EMBEDDING_MODEL cls = COHERE -> key_set (COHERE_API_KEY cls) = true))
  /\ validate_config cls
     <> Some (AssertionError "GROQ_API_KEY required for Groq LLM").
Proof.
  unfold validate_config.
  destruct (key_set (GROQ_API_KEY cls)) eqn:Eg; cbn [negb].
  2: { split; [|discriminate].
       split; [discriminate | intros [H _]; discriminate H]. }
  destruct (String.eqb (LLM_PROVIDER cls) "openai") eqn:Eo.
  - apply String.eqb_eq in Eo.
    destruct (key_set (OPENAI_API_KEY cls)) eqn:Ek.
    + destruct (EMBEDDING_MODEL cls) eqn:Em;
        try destruct (key_set (COHERE_API_KEY cls)) eqn:Ec;
        (split; [|discriminate]);
        (split; [intros H; try discriminate H; repeat split; auto;
                 discriminate
                | intros (_ & _ & H1 & H2); auto;
                  try discriminate (H2 eq_refl)]).
    + split; [|discriminate]. split; [discriminate|].
      intros (_ & [H | [_ H]] & _); [|discriminate H].
      rewrite Eo in H. discriminate H.
  - apply String.eqb_neq in Eo.
    destruct (String.eqb (LLM_PROVIDER cls) "groq") eqn:Eq.
    + apply String.eqb_eq in Eq.
      destruct (EMBEDDING_MODEL cls) eqn:Em;
        try destruct (key_set (OPENAI_API_KEY cls)) eqn:Ek;
        try destruct (key_set (COHERE_API_KEY cls)) eqn:Ec;
        (split; [|discriminate]);
        (split; [intros H; try discriminate H; repeat split; auto;
                 discriminate
                | intros (_ & _ & H1 & H2); auto;
                  try discriminate (H1 eq_refl);
                  try discriminate (H2 eq_refl)]).
    + apply String.eqb_neq in Eq.
      split; [|discriminate]. split; [discriminate|].
      intros (_ & [H | [H _]] & _); contradiction.
Qed.

Lemma validate_config_accepts_witness : validate_config groq_setup = None.
Proof.
  apply (proj1 (validate_config_accepts groq_setup)).
  split; [reflexivity|]. split; [now left|]. split; discriminate.
Defined.

End ConfigFacts.
